(** * Credential vault and exchange-session lifecycle of the butiba dashboard

    A shallow embedding of [utils/crypto.py], [bybit_service.py],
    [api_keys.py], [positions.py], [orders.py], the account, status and
    WebSocket code of [app.py] and of the [ExchangeAPI] and [Event] tables
    of [models.py], followed by the properties of the specification that
    concern them.

    Conventions of the embedding.
    - A Python [str] is the list of its code points, [bytes] is a list of
      octets, both over [Z].
    - A Python call that may raise returns [Exc]; [try ... except] is
      [exc_try], or [m_try] for code that also changes the globals.
    - Module globals and the committed database live in [World]; a handler
      is a function [World -> Exc _ * World].  Whatever the outside world
      answers during one request (venue replies, the clock, the random
      source, whether the pybit constructor raises) is the [Env] argument.
    - The libraries the repository calls but does not contain (Fernet of
      [cryptography], [str.lower], [float] parsing, the ORM flush order) are
      interfaces: type classes whose laws are stated where a property needs
      them.
    - [logger] calls have no effect on the modelled state and are left out. *)

From Stdlib Require Import ZArith List Bool Lia String Ascii.
From Stdlib Require Import Floats.SpecFloat.
Import ListNotations.
Open Scope Z_scope.

(** ** Python values and exceptions *)

Definition str := list Z.
Definition bytes := list Z.

(** The code points of an ASCII literal. *)
Definition lit (s : string) : str :=
  map (fun a => Z.of_nat (nat_of_ascii a)) (list_ascii_of_string s).

Fixpoint str_eqb (a b : str) : bool :=
  match a, b with
  | [], [] => true
  | x :: a', y :: b' => (x =? y) && str_eqb a' b'
  | _, _ => false
  end.

(** The exceptions the modelled code raises or meets.  An [HTTPException]
    carries its status code, its [detail] as the source writes it (a literal
    or the template of an f-string) and, where the template interpolates a
    caught exception [e], that exception.  [LibraryError] stands for
    whatever else a library call raises. *)
#[local] Set Warnings "-register-all".
Inductive PyExc : Type :=
| HTTPException (status_code : Z) (detail : string) (cause : option PyExc)
| UnicodeEncodeError
| UnicodeDecodeError
| InvalidToken
| ValueError
| TypeError
| AttributeError
| IndexError
| KeyError
| OverflowError
| IntegrityError
| LibraryError (message : string).
#[local] Set Warnings "register-all".

Inductive Exc (A : Type) : Type :=
| Ok (a : A)
| Raise (e : PyExc).
Arguments Ok {A} a.
Arguments Raise {A} e.

Definition is_HTTPException (e : PyExc) : bool :=
  match e with HTTPException _ _ _ => true | _ => false end.

Definition exc_bind {A B} (m : Exc A) (k : A -> Exc B) : Exc B :=
  match m with Ok a => k a | Raise e => Raise e end.

Definition exc_map {A B} (f : A -> B) (m : Exc A) : Exc B :=
  exc_bind m (fun a => Ok (f a)).

(** [try: m  except Exception as e: h e] *)
Definition exc_try {A} (m : Exc A) (h : PyExc -> Exc A) : Exc A :=
  match m with Ok a => Ok a | Raise e => h e end.

Declare Scope exc_scope.
Delimit Scope exc_scope with exc.
Notation "x <- m ;; k" := (exc_bind m (fun x => k))
  (at level 61, m at next level, right associativity) : exc_scope.

(** ** [str.encode()] and [bytes.decode()]: the UTF-8 codec *)

Definition is_byte (b : Z) : Prop := 0 <= b < 256.
Definition is_ascii (b : Z) : Prop := 0 <= b < 128.

(** Unicode scalar values: the code points a UTF-8 string is made of.  A
    Python [str] may also hold lone surrogates, which [encode] refuses. *)
Definition scalar (c : Z) : Prop :=
  0 <= c < 55296 \/ 57343 < c < 1114112.

Definition utf8_encode_cp (c : Z) : Exc bytes :=
  if c <? 0 then Raise UnicodeEncodeError
  else if c <? 128 then Ok [c]
  else if c <? 2048 then Ok [192 + c / 64; 128 + c mod 64]
  else if c <? 65536 then
    if (55296 <=? c) && (c <=? 57343) then Raise UnicodeEncodeError
    else Ok [224 + c / 4096; 128 + (c / 64) mod 64; 128 + c mod 64]
  else if c <? 1114112 then
    Ok [240 + c / 262144; 128 + (c / 4096) mod 64;
        128 + (c / 64) mod 64; 128 + c mod 64]
  else Raise UnicodeEncodeError.

Fixpoint utf8_encode (s : str) : Exc bytes :=
  match s with
  | [] => Ok []
  | c :: s' =>
      (b <- utf8_encode_cp c ;; bs <- utf8_encode s' ;; Ok (b ++ bs))%exc
  end.

Definition continuation (b : Z) : bool := (128 <=? b) && (b <=? 191).

(** Strict decoding: truncated sequences, stray continuation bytes, overlong
    forms, surrogates and values above U+10FFFF raise. *)
Fixpoint utf8_decode (b : bytes) : Exc str :=
  match b with
  | [] => Ok []
  | b0 :: r0 =>
      if (0 <=? b0) && (b0 <? 128) then exc_map (cons b0) (utf8_decode r0)
      else if (192 <=? b0) && (b0 <? 224) then
        match r0 with
        | b1 :: r1 =>
            let c := (b0 - 192) * 64 + (b1 - 128) in
            if continuation b1 && (128 <=? c)
            then exc_map (cons c) (utf8_decode r1)
            else Raise UnicodeDecodeError
        | _ => Raise UnicodeDecodeError
        end
      else if (224 <=? b0) && (b0 <? 240) then
        match r0 with
        | b1 :: b2 :: r2 =>
            let c := (b0 - 224) * 4096 + (b1 - 128) * 64 + (b2 - 128) in
            if continuation b1 && continuation b2 && (2048 <=? c)
               && negb ((55296 <=? c) && (c <=? 57343))
            then exc_map (cons c) (utf8_decode r2)
            else Raise UnicodeDecodeError
        | _ => Raise UnicodeDecodeError
        end
      else if (240 <=? b0) && (b0 <? 248) then
        match r0 with
        | b1 :: b2 :: b3 :: r3 =>
            let c := (b0 - 240) * 262144 + (b1 - 128) * 4096
                     + (b2 - 128) * 64 + (b3 - 128) in
            if continuation b1 && continuation b2 && continuation b3
               && (65536 <=? c) && (c <? 1114112)
            then exc_map (cons c) (utf8_decode r3)
            else Raise UnicodeDecodeError
        | _ => Raise UnicodeDecodeError
        end
      else Raise UnicodeDecodeError
  end.

(** ** JSON-shaped values: what the pybit client hands back *)

#[local] Set Warnings "-register-all".
Inductive PyVal : Type :=
| PNone
| PBool (b : bool)
| PInt (z : Z)
| PFloat (f : spec_float)
| PStr (s : str)
| PList (l : list PyVal)
| PDict (d : list (str * PyVal)).
#[local] Set Warnings "register-all".

(** [bool(v)] *)
Definition truthy (v : PyVal) : bool :=
  match v with
  | PNone => false
  | PBool b => b
  | PInt z => negb (z =? 0)
  | PFloat f => negb (SFeqb f (S754_zero false))
  | PStr s => match s with [] => false | _ => true end
  | PList l => match l with [] => false | _ => true end
  | PDict d => match d with [] => false | _ => true end
  end.

Fixpoint assoc (key : str) (d : list (str * PyVal)) : option PyVal :=
  match d with
  | [] => None
  | (k, v) :: d' => if str_eqb k key then Some v else assoc key d'
  end.

(** [v.get(key, default)]: only a dict has the method. *)
Definition py_get (v : PyVal) (key : string) (default : PyVal) : Exc PyVal :=
  match v with
  | PDict d => Ok (match assoc (lit key) d with Some x => x | None => default end)
  | _ => Raise AttributeError
  end.

(** [v == 0] *)
Definition py_eq_0 (v : PyVal) : bool :=
  match v with
  | PInt z => z =? 0
  | PBool b => negb b
  | PFloat f => SFeqb f (S754_zero false)
  | _ => false
  end.

(** [v[0]] *)
Definition py_index_0 (v : PyVal) : Exc PyVal :=
  match v with
  | PList (x :: _) => Ok x
  | PList [] => Raise IndexError
  | PStr (c :: _) => Ok (PStr [c])
  | PStr [] => Raise IndexError
  | PDict _ => Raise KeyError
  | _ => Raise TypeError
  end.

(** The items a [for] loop over [v] visits. *)
Definition py_iter (v : PyVal) : Exc (list PyVal) :=
  match v with
  | PList l => Ok l
  | PStr s => Ok (map (fun c => PStr [c]) s)
  | PDict d => Ok (map (fun kv => PStr (fst kv)) d)
  | _ => Raise TypeError
  end.

(** ** Library interfaces *)

(** Built-ins whose tables are not modelled: Unicode case mapping and the
    parsing and rounding done by [float]. *)
Class PyBuiltins : Type := {
  lower : str -> str;
  float_of_str : str -> Exc spec_float;
  float_of_int : Z -> Exc spec_float
}.

(** Random octets and clock readings consumed by one library call. *)
Definition Entropy := list Z.

(** [cryptography.fernet.Fernet]: a key object, its constructor (which
    refuses a key that is not 32 url-safe base64-encoded bytes), key
    generation, and the two operations on [bytes]. *)
Class FernetLib : Type := {
  Fernet : Type;
  Fernet_init : bytes -> Exc Fernet;
  Fernet_generate_key : Entropy -> bytes;
  Fernet_encrypt : Fernet -> Entropy -> bytes -> bytes;
  Fernet_decrypt : Fernet -> bytes -> Exc bytes
}.

(** What the library documents of a token: it is base64 text and it
    decrypts, under the key that made it, to the message. *)
Class FernetRoundTrip (F : FernetLib) : Prop := {
  Fernet_token_ascii :
    forall f rnd m, Forall is_ascii (Fernet_encrypt f rnd m);
  Fernet_decrypt_encrypt :
    forall f rnd m, Forall is_byte m ->
      Fernet_decrypt f (Fernet_encrypt f rnd m) = Ok m
}.

(** The authentication of tokens, idealised: under any other key the
    signature of a token does not verify, which is [InvalidToken].  (The
    library promises it for keys that differ in their signing half.) *)
Class FernetAuthentic (F : FernetLib) : Prop := {
  Fernet_other_key :
    forall f g rnd m, f <> g ->
      Fernet_decrypt g (Fernet_encrypt f rnd m) = Raise InvalidToken
}.

(** The order in which the ORM's unit of work emits the statements of one
    flush.  SQLAlchemy's emits the INSERTs before the DELETEs. *)
Inductive FlushOrder : Type := DeletesFirst | InsertsFirst.

Class ORM : Type := { flush_order : FlushOrder }.

(** [float(v)] *)
Definition py_float `{PyBuiltins} (v : PyVal) : Exc spec_float :=
  match v with
  | PFloat f => Ok f
  | PInt z => if z =? 0 then Ok (S754_zero false) else float_of_int z
  | PBool b => if b then float_of_int 1 else Ok (S754_zero false)
  | PStr s => float_of_str s
  | _ => Raise TypeError
  end.

(** ** [utils/crypto.py] *)

Section Crypto.
Context {F : FernetLib}.

Record EncryptionManager : Type := { cipher : Fernet }.

(** [EncryptionManager.__init__] *)
Definition EncryptionManager_init (key : option str) (rnd : Entropy)
  : Exc EncryptionManager :=
  match key with
  | Some (c :: k) =>
      (kb <- utf8_encode (c :: k) ;;
       f <- Fernet_init kb ;;
       Ok {| cipher := f |})%exc
  | _ =>
      (f <- Fernet_init (Fernet_generate_key rnd) ;;
       Ok {| cipher := f |})%exc
  end.

(** [EncryptionManager.encrypt] *)
Definition encrypt (self : EncryptionManager) (rnd : Entropy) (data : str)
  : Exc str :=
  (b <- utf8_encode data ;;
   utf8_decode (Fernet_encrypt (cipher self) rnd b))%exc.

(** [EncryptionManager.decrypt]: the handler logs and re-raises. *)
Definition decrypt (self : EncryptionManager) (encrypted_data : str)
  : Exc str :=
  exc_try
    (b <- utf8_encode encrypted_data ;;
     p <- Fernet_decrypt (cipher self) b ;;
     utf8_decode p)%exc
    (fun e => Raise e).

End Crypto.

(** ** [models.py]: the [exchange_api] and [events] tables *)

Module ExchangeAPI.
(** A row; [id] is [None] until the row has been flushed. *)
Record t : Type := {
  id : option Z;
  exchange : str;
  api_key_encrypted : str;
  api_secret_encrypted : str;
  passphrase_encrypted : option str;
  testnet : bool;
  is_connected : bool;
  last_connection_check : option Z;
  connection_error : option str;
  total_positions : Z;
  closed_positions : Z;
  failed_closures : Z;
  created_at : Z;
  updated_at : Z
}.

Definition with_id (r : t) (i : Z) : t :=
  {| id := Some i; exchange := exchange r;
     api_key_encrypted := api_key_encrypted r;
     api_secret_encrypted := api_secret_encrypted r;
     passphrase_encrypted := passphrase_encrypted r;
     testnet := testnet r; is_connected := is_connected r;
     last_connection_check := last_connection_check r;
     connection_error := connection_error r;
     total_positions := total_positions r;
     closed_positions := closed_positions r;
     failed_closures := failed_closures r;
     created_at := created_at r; updated_at := updated_at r |}.
End ExchangeAPI.

Inductive EventType : Type :=
| POSITION_OPENED | POSITION_CLOSED | POSITION_UPDATED | TP_SET | TP_REMOVED
| AUTO_CLOSE_TRIGGERED | ERROR_CLOSE_FAILED | ERROR_API | API_KEY_ADDED
| SETTINGS_CHANGED | CONNECTION_LOST | CONNECTION_RESTORED | INFO.

Module Event.
Record t : Type := {
  id : Z;
  exchange_id : Z;
  position_id : option Z;
  event_type : EventType;
  title : str;
  description : option str;
  data : option str;
  severity : str;
  created_at : Z
}.
End Event.

(** The committed content of the store.  The tables no modelled handler
    reads or writes ([positions], [trades], [closing_logic], [settings]) are
    not represented. *)
Record Database : Type := {
  exchange_api : list ExchangeAPI.t;
  events : list Event.t
}.

Definition opt_Z_eqb (a : option Z) (b : Z) : bool :=
  match a with Some x => x =? b | None => false end.

(** [db.query(ExchangeAPI).filter(ExchangeAPI.exchange == name).first()] *)
Definition query_exchange_first (d : Database) (name : str)
  : option ExchangeAPI.t :=
  find (fun r => str_eqb (ExchangeAPI.exchange r) name) (exchange_api d).

(** [db.query(ExchangeAPI).filter(ExchangeAPI.exchange == name).all()] *)
Definition query_exchange_all (d : Database) (name : str)
  : list ExchangeAPI.t :=
  filter (fun r => str_eqb (ExchangeAPI.exchange r) name) (exchange_api d).

(** The rowid SQLite gives the next inserted row. *)
Definition next_rowid (rows : list ExchangeAPI.t) : Z :=
  1 + fold_right
        (fun r m => match ExchangeAPI.id r with
                    | Some i => Z.max i m
                    | None => m
                    end) 0 rows.

(** INSERT of one row; the [exchange] column is declared [unique=True]. *)
Definition insert_row (r : ExchangeAPI.t) (d : Database)
  : Exc (ExchangeAPI.t * Database) :=
  if existsb (fun x => str_eqb (ExchangeAPI.exchange x) (ExchangeAPI.exchange r))
       (exchange_api d)
  then Raise IntegrityError
  else
    let r' := ExchangeAPI.with_id r (next_rowid (exchange_api d)) in
    Ok (r', {| exchange_api := exchange_api d ++ [r'];
               events := events d |}).

(** DELETE of one row.  The [events] relationship is declared with
    [cascade="all, delete-orphan"], so the events of the row go with it. *)
Definition delete_row (r : ExchangeAPI.t) (d : Database) : Database :=
  match ExchangeAPI.id r with
  | Some i =>
      {| exchange_api :=
           filter (fun x => negb (opt_Z_eqb (ExchangeAPI.id x) i))
             (exchange_api d);
         events :=
           filter (fun ev => negb (Event.exchange_id ev =? i)) (events d) |}
  | None => d
  end.

(** The unit of work of one request: what [db.delete] and [db.add] have
    registered and [db.commit] will flush. *)
Record Session : Type := {
  deleted : list ExchangeAPI.t;
  new : list ExchangeAPI.t
}.

Definition Session_begin : Session := {| deleted := []; new := [] |}.

Definition db_delete (r : ExchangeAPI.t) (s : Session) : Session :=
  {| deleted := deleted s ++ [r]; new := new s |}.

Definition db_add (r : ExchangeAPI.t) (s : Session) : Session :=
  {| deleted := deleted s; new := new s ++ [r] |}.

Fixpoint insert_rows (rs : list ExchangeAPI.t) (d : Database)
  : Exc (list ExchangeAPI.t * Database) :=
  match rs with
  | [] => Ok ([], d)
  | r :: rs' =>
      (p <- insert_row r d ;;
       q <- insert_rows rs' (snd p) ;;
       Ok (fst p :: fst q, snd q))%exc
  end.

Definition delete_rows (rs : list ExchangeAPI.t) (d : Database) : Database :=
  fold_left (fun acc r => delete_row r acc) rs d.

(** [db.commit()]: flush the session, all or nothing.  The result lists the
    added rows as stored, which is what [db.refresh] reloads. *)
Definition db_commit `{ORM} (s : Session) (d : Database)
  : Exc (list ExchangeAPI.t * Database) :=
  match flush_order with
  | DeletesFirst => insert_rows (new s) (delete_rows (deleted s) d)
  | InsertsFirst =>
      (p <- insert_rows (new s) d ;;
       Ok (fst p, delete_rows (deleted s) (snd p)))%exc
  end.

(** ** Requests and responses of [api_keys.py] *)

Module AddKeyRequest.
Record t : Type := {
  exchange : str;
  api_key : str;
  api_secret : str;
  testnet : bool
}.
End AddKeyRequest.

Module TestKeyRequest.
Record t : Type := {
  exchange : str;
  api_key : str;
  api_secret : str;
  testnet : bool
}.
End TestKeyRequest.

Module RemoveKeyRequest.
Record t : Type := { exchange : str }.
End RemoveKeyRequest.

(** The response bodies, without their human-readable [message]. *)
Record AddKeyResponse : Type := {
  add_status : string;
  add_exchange : str;
  add_testnet : bool;
  add_exchange_id : option Z
}.

Record TestKeyResponse : Type := {
  test_status : string;
  test_cause : option PyExc;
  is_valid : bool
}.

Record RemoveKeyResponse : Type := { remove_status : string }.

Record ExchangeStatus : Type := {
  st_exchange : str;
  st_is_connected : bool;
  st_testnet : bool;
  st_total_positions : Z;
  st_closed_positions : Z;
  st_last_check : option Z
}.

Record KeysStatusResponse : Type := {
  keys_status : string;
  keys_exchanges : list ExchangeStatus;
  total_exchanges : nat
}.


(** ** [bybit_service.py]: the client wrapper *)

(** A [pybit.unified_trading.HTTP] object.  [serial] is its identity: the
    number of clients the process had built before it. *)
Record HTTP : Type := {
  serial : nat;
  http_testnet : bool;
  http_api_key : str;
  http_api_secret : str;
  recv_window : Z
}.

(** The calls the repository makes on a pybit client. *)
Inductive VenueCall : Type :=
| HTTP_get_wallet_balance (accountType : string)
| HTTP_get_open_orders (category : string)
| HTTP_get_positions (category : string).

(** What the outside world answers during one request. *)
Record Env : Type := {
  (** [HTTP(...)]: [Some e] when the constructor raises [e] *)
  env_HTTP : bool -> str -> str -> option PyExc;
  (** the venue's reply to a call made through a client, or the exception
      the call raises *)
  env_venue : HTTP -> VenueCall -> Exc PyVal;
  (** [os.getenv("ENCRYPTION_KEY")] *)
  env_ENCRYPTION_KEY : option str;
  (** the entropy of key generation and of the encryptions of the request *)
  env_keygen : Entropy;
  env_rnd1 : Entropy;
  env_rnd2 : Entropy;
  (** [datetime.utcnow()] *)
  env_utcnow : Z
}.

Record AccountInfo : Type := {
  total_wallet_balance : PyVal;
  total_equity : PyVal;
  available_balance : PyVal;
  total_unrealised_loss : PyVal
}.

Definition zero_account : AccountInfo :=
  {| total_wallet_balance := PInt 0; total_equity := PInt 0;
     available_balance := PInt 0; total_unrealised_loss := PInt 0 |}.

(** [result and result.get('retCode') == 0] *)
Definition retCode_ok (result : PyVal) : Exc bool :=
  if truthy result
  then (rc <- py_get result "retCode" PNone ;; Ok (py_eq_0 rc))%exc
  else Ok false.

Module BybitClientWrapper.
Record t : Type := {
  api_key : str;
  api_secret : str;
  testnet : bool;
  client : HTTP
}.

Section Methods.
Context {B : PyBuiltins}.

Definition validate_credentials (env : Env) (self : t) : Exc bool :=
  exc_try
    (result <- env_venue env (client self) (HTTP_get_wallet_balance "UNIFIED") ;;
     ok <- retCode_ok result ;;
     if (ok : bool) then Ok true else Ok false)%exc
    (fun _ => Ok false).

Definition get_account_info (env : Env) (self : t) : Exc AccountInfo :=
  exc_try
    (result <- env_venue env (client self) (HTTP_get_wallet_balance "UNIFIED") ;;
     ok <- retCode_ok result ;;
     if (ok : bool) then
       (data <- py_get result "result" (PDict []) ;;
        l <- py_get data "list" (PList [PDict []]) ;;
        list_data <- py_index_0 l ;;
        v1 <- py_get list_data "totalWalletBalance" (PInt 0) ;;
        f1 <- py_float v1 ;;
        v2 <- py_get list_data "totalEquity" (PInt 0) ;;
        f2 <- py_float v2 ;;
        v3 <- py_get list_data "totalAvailableBalance" (PInt 0) ;;
        f3 <- py_float v3 ;;
        v4 <- py_get list_data "totalUnrealisedLoss" (PInt 0) ;;
        f4 <- py_float v4 ;;
        Ok {| total_wallet_balance := PFloat f1;
              total_equity := PFloat f2;
              available_balance := PFloat f3;
              total_unrealised_loss := PFloat f4 |})
     else Ok zero_account)%exc
    (fun _ => Ok zero_account).

Definition get_positions (env : Env) (self : t) : Exc PyVal :=
  exc_try
    (result <- env_venue env (client self) (HTTP_get_open_orders "linear") ;;
     ok <- retCode_ok result ;;
     if (ok : bool) then
       (data <- py_get result "result" (PDict []) ;;
        py_get data "list" (PList []))
     else Ok (PList []))%exc
    (fun _ => Ok (PList [])).

End Methods.
End BybitClientWrapper.

(** ** The process: module globals and the committed store *)

Record World {F : FernetLib} : Type := {
  (** [bybit_service._bybit_client] and [bybit_service._testnet_mode] *)
  _bybit_client : option BybitClientWrapper.t;
  _testnet_mode : bool;
  (** [utils.crypto._encryption_manager] *)
  _encryption_manager : option EncryptionManager;
  (** how many pybit clients the process has built *)
  http_built : nat;
  db : Database
}.

Section Monad.
Context {F : FernetLib}.

(** A computation that reads and writes the globals and may raise.  The
    globals keep what was written before an exception. *)
Definition M (A : Type) : Type := World -> Exc A * World.

Definition ret {A} (a : A) : M A := fun w => (Ok a, w).
Definition raise {A} (e : PyExc) : M A := fun w => (Raise e, w).
Definition lift {A} (m : Exc A) : M A := fun w => (m, w).

Definition bind {A C} (m : M A) (k : A -> M C) : M C :=
  fun w => match m w with
           | (Ok a, w') => k a w'
           | (Raise e, w') => (Raise e, w')
           end.

(** [try: m  except Exception as e: h e] *)
Definition m_try {A} (m : M A) (h : PyExc -> M A) : M A :=
  fun w => match m w with
           | (Ok a, w') => (Ok a, w')
           | (Raise e, w') => h e w'
           end.

Definition get_world : M World := fun w => (Ok w, w).

Definition set_bybit_client (c : option BybitClientWrapper.t) : M unit :=
  fun w => (Ok tt, {| _bybit_client := c;
                      _testnet_mode := _testnet_mode w;
                      _encryption_manager := _encryption_manager w;
                      http_built := http_built w; db := db w |}).

Definition set_testnet_mode (b : bool) : M unit :=
  fun w => (Ok tt, {| _bybit_client := _bybit_client w;
                      _testnet_mode := b;
                      _encryption_manager := _encryption_manager w;
                      http_built := http_built w; db := db w |}).

Definition set_encryption_manager (m : option EncryptionManager) : M unit :=
  fun w => (Ok tt, {| _bybit_client := _bybit_client w;
                      _testnet_mode := _testnet_mode w;
                      _encryption_manager := m;
                      http_built := http_built w; db := db w |}).

Definition set_http_built (n : nat) : M unit :=
  fun w => (Ok tt, {| _bybit_client := _bybit_client w;
                      _testnet_mode := _testnet_mode w;
                      _encryption_manager := _encryption_manager w;
                      http_built := n; db := db w |}).

Definition set_db (d : Database) : M unit :=
  fun w => (Ok tt, {| _bybit_client := _bybit_client w;
                      _testnet_mode := _testnet_mode w;
                      _encryption_manager := _encryption_manager w;
                      http_built := http_built w; db := d |}).

End Monad.

Declare Scope m_scope.
Delimit Scope m_scope with m.
Notation "x <- m ;; k" := (bind m (fun x => k))
  (at level 61, m at next level, right associativity) : m_scope.
Notation "m ;;; k" := (bind m (fun _ => k))
  (at level 61, right associativity) : m_scope.

(** The state of a freshly started process over an empty store. *)
Definition World_start {F : FernetLib} : World :=
  {| _bybit_client := None; _testnet_mode := false;
     _encryption_manager := None; http_built := 0%nat;
     db := {| exchange_api := []; events := [] |} |}.

(** ** [utils/crypto.py]: the process-wide manager *)

Module crypto.
Section S.
Context {F : FernetLib}.

Definition get_encryption_manager (env : Env) : M EncryptionManager :=
  (w <- get_world ;;
   match _encryption_manager w with
   | None =>
       m <- lift (match env_ENCRYPTION_KEY env with
                  | Some (c :: k) =>
                      EncryptionManager_init (Some (c :: k)) (env_keygen env)
                  | _ => EncryptionManager_init None (env_keygen env)
                  end) ;;
       set_encryption_manager (Some m) ;;;
       ret m
   | Some m => ret m
   end)%m.

End S.
End crypto.

(** ** [bybit_service.py]: the cached client *)

Module bybit_service.
Section S.
Context {B : PyBuiltins} {F : FernetLib}.

(** [BybitClientWrapper.__init__] *)
Definition BybitClientWrapper_init (env : Env)
    (api_key api_secret : str) (testnet : bool) : M BybitClientWrapper.t :=
  (w <- get_world ;;
   match env_HTTP env testnet api_key api_secret with
   | Some e => raise e
   | None =>
       set_http_built (S (http_built w)) ;;;
       ret {| BybitClientWrapper.api_key := api_key;
              BybitClientWrapper.api_secret := api_secret;
              BybitClientWrapper.testnet := testnet;
              BybitClientWrapper.client :=
                {| serial := http_built w;
                   http_testnet := testnet;
                   http_api_key := api_key;
                   http_api_secret := api_secret;
                   recv_window := 15000 |} |}
   end)%m.

(** The test that guards construction in [get_bybit_client]. *)
Definition must_rebuild (w : World) (api_key : str) (testnet : bool) : bool :=
  match _bybit_client w with
  | None => true
  | Some c =>
      negb (Bool.eqb (_testnet_mode w) testnet)
      || negb (str_eqb (BybitClientWrapper.api_key c) api_key)
  end.

Definition get_bybit_client (env : Env)
    (api_key api_secret : str) (testnet : bool) : M BybitClientWrapper.t :=
  (w <- get_world ;;
   (if must_rebuild w api_key testnet then
      m_try
        (c <- BybitClientWrapper_init env api_key api_secret testnet ;;
         set_bybit_client (Some c) ;;;
         set_testnet_mode testnet)
        (fun e => raise e)
    else ret tt) ;;;
   w' <- get_world ;;
   match _bybit_client w' with
   | Some c => ret c
   | None => raise AttributeError (* what a caller's method call on [None]
                                     raises; the global is set here *)
   end)%m.

Definition reset_bybit_client : M unit := set_bybit_client None.

Definition get_account_balance (env : Env) : M AccountInfo :=
  (w <- get_world ;;
   match _bybit_client w with
   | None => ret zero_account
   | Some c => lift (BybitClientWrapper.get_account_info env c)
   end)%m.

Definition get_positions (env : Env) : M PyVal :=
  (w <- get_world ;;
   match _bybit_client w with
   | None => ret (PList [])
   | Some c => lift (BybitClientWrapper.get_positions env c)
   end)%m.

End S.
End bybit_service.

(** ** [api_keys.py]: the handlers

    The handlers are [async def] without an [await]: each runs to its end
    before the event loop starts another, so a handler is one step on
    [World]. *)

Module api_keys.
Section S.
Context {B : PyBuiltins} {F : FernetLib} {O : ORM}.

Definition is_empty (s : str) : bool :=
  match s with [] => true | _ => false end.

(** The row [add_api_keys] builds; the columns it does not name take the
    defaults declared in [models.py]. *)
Definition new_exchange_api_row (exchange encrypted_key encrypted_secret : str)
    (testnet : bool) (now : Z) : ExchangeAPI.t :=
  {| ExchangeAPI.id := None;
     ExchangeAPI.exchange := exchange;
     ExchangeAPI.api_key_encrypted := encrypted_key;
     ExchangeAPI.api_secret_encrypted := encrypted_secret;
     ExchangeAPI.passphrase_encrypted := None;
     ExchangeAPI.testnet := testnet;
     ExchangeAPI.is_connected := true;
     ExchangeAPI.last_connection_check := Some now;
     ExchangeAPI.connection_error := None;
     ExchangeAPI.total_positions := 0;
     ExchangeAPI.closed_positions := 0;
     ExchangeAPI.failed_closures := 0;
     ExchangeAPI.created_at := now;
     ExchangeAPI.updated_at := now |}.

(** [db.commit()] on the store of the process *)
Definition commit (s : Session) : M (list ExchangeAPI.t) :=
  (w <- get_world ;;
   p <- lift (db_commit s (db w)) ;;
   set_db (snd p) ;;;
   ret (fst p))%m.

(** [except HTTPException: raise / except Exception as e: raise
    HTTPException(500, ...)] *)
Definition reraise_as_500 {A} (detail : string) (e : PyExc) : M A :=
  if is_HTTPException e then raise e
  else raise (HTTPException 500 detail (Some e)).

(** [POST /api/keys/add] *)
Definition add_api_keys (request : AddKeyRequest.t) (env : Env)
  : M AddKeyResponse :=
  m_try
    ((if is_empty (AddKeyRequest.api_key request)
         || is_empty (AddKeyRequest.api_secret request)
      then raise (HTTPException 400 "api_key и api_secret обязательны" None)
      else ret tt) ;;;
     (if negb (str_eqb (lower (AddKeyRequest.exchange request)) (lit "bybit"))
      then raise (HTTPException 400 "Пока поддерживается только Bybit" None)
      else ret tt) ;;;
     encryptor <- crypto.get_encryption_manager env ;;
     encrypted_key <-
       lift (encrypt encryptor (env_rnd1 env) (AddKeyRequest.api_key request)) ;;
     encrypted_secret <-
       lift (encrypt encryptor (env_rnd2 env)
               (AddKeyRequest.api_secret request)) ;;
     m_try
       (bybit_client <-
          bybit_service.get_bybit_client env (AddKeyRequest.api_key request)
            (AddKeyRequest.api_secret request)
            (AddKeyRequest.testnet request) ;;
        valid <-
          lift (BybitClientWrapper.validate_credentials env bybit_client) ;;
        if (valid : bool) then ret tt
        else
          bybit_service.reset_bybit_client ;;;
          raise (HTTPException 401 "API ключи невалидны или нет доступа" None))
       (fun e =>
          raise (HTTPException 401 "Ошибка подключения: {str(e)}" (Some e))) ;;;
     w <- get_world ;;
     let existing :=
       query_exchange_first (db w) (lower (AddKeyRequest.exchange request)) in
     let session :=
       match existing with
       | Some row => db_delete row Session_begin
       | None => Session_begin
       end in
     let new_exchange_api :=
       new_exchange_api_row (lower (AddKeyRequest.exchange request))
         encrypted_key encrypted_secret (AddKeyRequest.testnet request)
         (env_utcnow env) in
     stored <- commit (db_add new_exchange_api session) ;;
     ret {| add_status := "success";
            add_exchange := AddKeyRequest.exchange request;
            add_testnet := AddKeyRequest.testnet request;
            add_exchange_id :=
              match stored with
              | row :: _ => ExchangeAPI.id row
              | [] => None
              end |})%m
    (reraise_as_500 "Ошибка при добавлении ключей: {str(e)}").

(** [POST /api/keys/test] *)
Definition test_api_keys (request : TestKeyRequest.t) (env : Env)
  : M TestKeyResponse :=
  m_try
    ((if is_empty (TestKeyRequest.api_key request)
         || is_empty (TestKeyRequest.api_secret request)
      then raise (HTTPException 400 "api_key и api_secret обязательны" None)
      else ret tt) ;;;
     bybit_client <-
       bybit_service.get_bybit_client env (TestKeyRequest.api_key request)
         (TestKeyRequest.api_secret request) (TestKeyRequest.testnet request) ;;
     is_valid <-
       lift (BybitClientWrapper.validate_credentials env bybit_client) ;;
     bybit_service.reset_bybit_client ;;;
     if (is_valid : bool)
     then ret {| test_status := "success"; test_cause := None;
                 is_valid := true |}
     else ret {| test_status := "error"; test_cause := None;
                 is_valid := false |})%m
    (fun e => ret {| test_status := "error"; test_cause := Some e;
                     is_valid := false |}).

(** [DELETE /api/keys/remove] *)
Definition remove_api_keys (request : RemoveKeyRequest.t) : M RemoveKeyResponse :=
  m_try
    (w <- get_world ;;
     match query_exchange_first (db w)
             (lower (RemoveKeyRequest.exchange request)) with
     | None =>
         raise (HTTPException 404
                  "API ключи для {request.exchange} не найдены" None)
     | Some exchange_api =>
         commit (db_delete exchange_api Session_begin) ;;;
         bybit_service.reset_bybit_client ;;;
         ret {| remove_status := "success" |}
     end)%m
    (reraise_as_500 "Ошибка удаления: {str(e)}").

(** One entry of the list [GET /api/keys/status] returns;
    [last_check] is kept as the timestamp that [isoformat] prints. *)
Definition exchange_status (e : ExchangeAPI.t) : ExchangeStatus :=
  {| st_exchange := ExchangeAPI.exchange e;
     st_is_connected := ExchangeAPI.is_connected e;
     st_testnet := ExchangeAPI.testnet e;
     st_total_positions := ExchangeAPI.total_positions e;
     st_closed_positions := ExchangeAPI.closed_positions e;
     st_last_check := ExchangeAPI.last_connection_check e |}.

(** [GET /api/keys/status] *)
Definition get_keys_status : M KeysStatusResponse :=
  m_try
    (w <- get_world ;;
     let exchanges := exchange_api (db w) in
     let statuses :=
       fold_left (fun statuses exchange => statuses ++ [exchange_status exchange])
         exchanges [] in
     ret {| keys_status := "success";
            keys_exchanges := statuses;
            total_exchanges := List.length statuses |})%m
    (fun e =>
       raise (HTTPException 500 "Ошибка получения статуса: {str(e)}" (Some e))).

End S.
End api_keys.

(** ** [positions.py]: [GET /api/positions/] *)

Record Position : Type := {
  symbol : PyVal;
  side : PyVal;
  size : spec_float;
  entry_price : spec_float;
  mark_price : spec_float;
  pnl : spec_float;
  pnl_percent : spec_float;
  leverage : spec_float;
  position_id : PyVal
}.

Record PositionsResponse : Type := {
  status : string;
  cause : option PyExc;
  positions : list Position;
  total : nat
}.

(** binary64 arithmetic; [100.0] is [0x19 * 2^2]. *)
Definition float_mul : spec_float -> spec_float -> spec_float := SFmul 53 1024.
Definition float_100 : spec_float := S754_finite false 7036874417766400 (-46).
Definition float_0 : spec_float := S754_zero false.

(** The response of the two counting routes, [/api/positions/open] and
    [/api/orders/active]. *)
Record CountResponse : Type := {
  count_status : string;
  count : nat
}.


Module positions.
Section S.
Context {B : PyBuiltins} {F : FernetLib}.

(** The body of the loop over the venue's entries, with the list built so
    far. *)
Fixpoint format_positions (entries : list PyVal) (formatted : list Position)
  : Exc (list Position) :=
  match entries with
  | [] => Ok formatted
  | pos :: rest =>
      (v <- py_get pos "size" (PInt 0) ;;
       size <- py_float v ;;
       if SFltb float_0 size then
         (symbol <- py_get pos "symbol" PNone ;;
          side <- py_get pos "side" PNone ;;
          v1 <- py_get pos "entryPrice" (PInt 0) ;;
          entry_price <- py_float v1 ;;
          v2 <- py_get pos "markPrice" (PInt 0) ;;
          mark_price <- py_float v2 ;;
          v3 <- py_get pos "unrealisedPnl" (PInt 0) ;;
          pnl <- py_float v3 ;;
          v4 <- py_get pos "unrealisedPnlPct" (PInt 0) ;;
          pct <- py_float v4 ;;
          v5 <- py_get pos "leverage" (PInt 1) ;;
          leverage <- py_float v5 ;;
          position_id <- py_get pos "positionIdx" PNone ;;
          format_positions rest
            (formatted ++
             [{| symbol := symbol; side := side; size := size;
                 entry_price := entry_price; mark_price := mark_price;
                 pnl := pnl; pnl_percent := float_mul pct float_100;
                 leverage := leverage; position_id := position_id |}]))
       else format_positions rest formatted)%exc
  end.

Definition get_positions (env : Env) : M PositionsResponse :=
  m_try
    (w <- get_world ;;
     match query_exchange_first (db w) (lit "bybit") with
     | None =>
         ret {| status := "error"; cause := None; positions := [];
                total := 0%nat |}
     | Some exchange =>
         m_try
           (encryptor <- crypto.get_encryption_manager env ;;
            api_key <-
              lift (decrypt encryptor (ExchangeAPI.api_key_encrypted exchange)) ;;
            api_secret <-
              lift (decrypt encryptor
                      (ExchangeAPI.api_secret_encrypted exchange)) ;;
            client <-
              bybit_service.get_bybit_client env api_key api_secret
                (ExchangeAPI.testnet exchange) ;;
            result <-
              lift (env_venue env (BybitClientWrapper.client client)
                      (HTTP_get_positions "linear")) ;;
            ok <- lift (retCode_ok result) ;;
            if (ok : bool) then
              (data <- lift (py_get result "result" (PDict [])) ;;
               l <- lift (py_get data "list" (PList [])) ;;
               entries <- lift (py_iter l) ;;
               formatted_positions <- lift (format_positions entries []) ;;
               ret {| status := "success"; cause := None;
                      positions := formatted_positions;
                      total := List.length formatted_positions |})
            else
              ret {| status := "success"; cause := None; positions := [];
                     total := 0%nat |})
           (fun e =>
              ret {| status := "error"; cause := Some e; positions := [];
                     total := 0%nat |})
     end)%m
    (fun e => raise (HTTPException 500 "{str(e)}" (Some e))).

(** [[p for p in positions if float(p.get('size', 0)) > 0]] *)
Fixpoint open_entries (entries : list PyVal) : Exc (list PyVal) :=
  match entries with
  | [] => Ok []
  | p :: rest =>
      (v <- py_get p "size" (PInt 0) ;;
       size <- py_float v ;;
       kept <- open_entries rest ;;
       Ok (if SFltb float_0 size then p :: kept else kept))%exc
  end.

(** [GET /api/positions/open].  The inner [try] either returns the count
    or falls through to the final [return] of zero. *)
Definition get_open_positions_count (env : Env) : M CountResponse :=
  m_try
    (w <- get_world ;;
     match query_exchange_first (db w) (lit "bybit") with
     | None => ret {| count_status := "success"; count := 0%nat |}
     | Some exchange =>
         returned <-
           m_try
             (encryptor <- crypto.get_encryption_manager env ;;
              api_key <-
                lift (decrypt encryptor
                        (ExchangeAPI.api_key_encrypted exchange)) ;;
              api_secret <-
                lift (decrypt encryptor
                        (ExchangeAPI.api_secret_encrypted exchange)) ;;
              client <-
                bybit_service.get_bybit_client env api_key api_secret
                  (ExchangeAPI.testnet exchange) ;;
              result <-
                lift (env_venue env (BybitClientWrapper.client client)
                        (HTTP_get_positions "linear")) ;;
              ok <- lift (retCode_ok result) ;;
              if (ok : bool) then
                (data <- lift (py_get result "result" (PDict [])) ;;
                 l <- lift (py_get data "list" (PList [])) ;;
                 entries <- lift (py_iter l) ;;
                 opened <- lift (open_entries entries) ;;
                 ret (Some (List.length opened)))
              else ret None)
             (fun _ => ret None) ;;
         match returned with
         | Some open_count =>
             ret {| count_status := "success"; count := open_count |}
         | None => ret {| count_status := "success"; count := 0%nat |}
         end
     end)%m
    (fun _ => ret {| count_status := "error"; count := 0%nat |}).

End S.
End positions.

(** ** [orders.py] *)

(** [len(v)] *)
Definition py_len (v : PyVal) : Exc nat :=
  match v with
  | PList l => Ok (List.length l)
  | PStr s => Ok (List.length s)
  | PDict d => Ok (List.length d)
  | _ => Raise TypeError
  end.

Module Order.
Record t : Type := {
  symbol : PyVal;
  side : PyVal;
  order_type : PyVal;
  qty : spec_float;
  price : spec_float;
  status : PyVal;
  order_id : PyVal;
  created_at : PyVal
}.
End Order.

Record OrdersResponse : Type := {
  orders_status : string;
  orders_cause : option PyExc;
  orders_list : list Order.t;
  orders_total : nat
}.

Module orders.
Section S.
Context {B : PyBuiltins} {F : FernetLib}.

(** The body of the loop over the venue's orders, with the list built so
    far. *)
Fixpoint format_orders (entries : list PyVal) (formatted : list Order.t)
  : Exc (list Order.t) :=
  match entries with
  | [] => Ok formatted
  | order :: rest =>
      (symbol <- py_get order "symbol" PNone ;;
       side <- py_get order "side" PNone ;;
       order_type <- py_get order "orderType" PNone ;;
       v1 <- py_get order "qty" (PInt 0) ;;
       qty <- py_float v1 ;;
       v2 <- py_get order "price" (PInt 0) ;;
       price <- py_float v2 ;;
       status <- py_get order "orderStatus" PNone ;;
       order_id <- py_get order "orderId" PNone ;;
       created_at <- py_get order "createdTime" PNone ;;
       format_orders rest
         (formatted ++
          [{| Order.symbol := symbol; Order.side := side;
              Order.order_type := order_type; Order.qty := qty;
              Order.price := price; Order.status := status;
              Order.order_id := order_id;
              Order.created_at := created_at |}]))%exc
  end.

(** [GET /api/orders/] *)
Definition get_orders (env : Env) : M OrdersResponse :=
  m_try
    (w <- get_world ;;
     match query_exchange_first (db w) (lit "bybit") with
     | None =>
         ret {| orders_status := "error"; orders_cause := None;
                orders_list := []; orders_total := 0%nat |}
     | Some exchange =>
         m_try
           (encryptor <- crypto.get_encryption_manager env ;;
            api_key <-
              lift (decrypt encryptor (ExchangeAPI.api_key_encrypted exchange)) ;;
            api_secret <-
              lift (decrypt encryptor
                      (ExchangeAPI.api_secret_encrypted exchange)) ;;
            client <-
              bybit_service.get_bybit_client env api_key api_secret
                (ExchangeAPI.testnet exchange) ;;
            result <-
              lift (env_venue env (BybitClientWrapper.client client)
                      (HTTP_get_open_orders "linear")) ;;
            ok <- lift (retCode_ok result) ;;
            if (ok : bool) then
              (data <- lift (py_get result "result" (PDict [])) ;;
               l <- lift (py_get data "list" (PList [])) ;;
               entries <- lift (py_iter l) ;;
               formatted_orders <- lift (format_orders entries []) ;;
               ret {| orders_status := "success"; orders_cause := None;
                      orders_list := formatted_orders;
                      orders_total := List.length formatted_orders |})
            else
              ret {| orders_status := "success"; orders_cause := None;
                     orders_list := []; orders_total := 0%nat |})
           (fun e =>
              ret {| orders_status := "error"; orders_cause := Some e;
                     orders_list := []; orders_total := 0%nat |})
     end)%m
    (fun e => raise (HTTPException 500 "{str(e)}" (Some e))).

(** [GET /api/orders/active] *)
Definition get_active_orders_count (env : Env) : M CountResponse :=
  m_try
    (w <- get_world ;;
     match query_exchange_first (db w) (lit "bybit") with
     | None => ret {| count_status := "success"; count := 0%nat |}
     | Some exchange =>
         returned <-
           m_try
             (encryptor <- crypto.get_encryption_manager env ;;
              api_key <-
                lift (decrypt encryptor
                        (ExchangeAPI.api_key_encrypted exchange)) ;;
              api_secret <-
                lift (decrypt encryptor
                        (ExchangeAPI.api_secret_encrypted exchange)) ;;
              client <-
                bybit_service.get_bybit_client env api_key api_secret
                  (ExchangeAPI.testnet exchange) ;;
              result <-
                lift (env_venue env (BybitClientWrapper.client client)
                        (HTTP_get_open_orders "linear")) ;;
              ok <- lift (retCode_ok result) ;;
              if (ok : bool) then
                (data <- lift (py_get result "result" (PDict [])) ;;
                 l <- lift (py_get data "list" (PList [])) ;;
                 n <- lift (py_len l) ;;
                 ret (Some n))
              else ret None)
             (fun _ => ret None) ;;
         match returned with
         | Some n => ret {| count_status := "success"; count := n |}
         | None => ret {| count_status := "success"; count := 0%nat |}
         end
     end)%m
    (fun _ => ret {| count_status := "error"; count := 0%nat |}).

End S.
End orders.

(** ** [app.py]: the account and status routes *)

Module AccountResponse.
Record t : Type := {
  status : string;
  cause : option PyExc;
  balance : PyVal;
  equity : PyVal;
  available_balance : PyVal;
  unrealized_pnl : PyVal;
  account_type : string
}.
End AccountResponse.

Record SystemStatus : Type := {
  system_status : string;
  exchanges_total : nat;
  exchanges_connected : nat;
  exchanges_details : list (str * bool * bool)
}.

Module app.
Section S.
Context {B : PyBuiltins} {F : FernetLib}.

Definition account_error (cause : option PyExc) (account_type : string)
  : AccountResponse.t :=
  {| AccountResponse.status := "error";
     AccountResponse.cause := cause;
     AccountResponse.balance := PInt 0;
     AccountResponse.equity := PInt 0;
     AccountResponse.available_balance := PInt 0;
     AccountResponse.unrealized_pnl := PInt 0;
     AccountResponse.account_type := account_type |}.

(** ["TESTNET" if exchange.testnet else "LIVE"] *)
Definition account_type_of (exchange : ExchangeAPI.t) : string :=
  if ExchangeAPI.testnet exchange then "TESTNET" else "LIVE".

(** [GET /api/account] *)
Definition get_account_info (env : Env) : M AccountResponse.t :=
  m_try
    (w <- get_world ;;
     match query_exchange_first (db w) (lit "bybit") with
     | None => ret (account_error None "NONE")
     | Some exchange =>
         m_try
           (encryptor <- crypto.get_encryption_manager env ;;
            api_key <-
              lift (decrypt encryptor (ExchangeAPI.api_key_encrypted exchange)) ;;
            api_secret <-
              lift (decrypt encryptor
                      (ExchangeAPI.api_secret_encrypted exchange)) ;;
            client <-
              bybit_service.get_bybit_client env api_key api_secret
                (ExchangeAPI.testnet exchange) ;;
            account_info <-
              lift (BybitClientWrapper.get_account_info env client) ;;
            balance <- lift (py_float (total_wallet_balance account_info)) ;;
            equity <- lift (py_float (total_equity account_info)) ;;
            available <- lift (py_float (available_balance account_info)) ;;
            unrealized <-
              lift (py_float (total_unrealised_loss account_info)) ;;
            ret {| AccountResponse.status := "success";
                   AccountResponse.cause := None;
                   AccountResponse.balance := PFloat balance;
                   AccountResponse.equity := PFloat equity;
                   AccountResponse.available_balance := PFloat available;
                   AccountResponse.unrealized_pnl := PFloat unrealized;
                   AccountResponse.account_type := account_type_of exchange |})
           (fun e => ret (account_error (Some e) (account_type_of exchange)))
     end)%m
    (fun e => ret (account_error (Some e) "NONE")).

(** [GET /api/status]: the counts of the [exchanges] part. *)
Definition get_system_status : M SystemStatus :=
  m_try
    (w <- get_world ;;
     let exchanges := exchange_api (db w) in
     ret {| system_status := "success";
            exchanges_total := List.length exchanges;
            exchanges_connected :=
              List.length (filter ExchangeAPI.is_connected exchanges);
            exchanges_details :=
              map (fun e => (ExchangeAPI.exchange e,
                             ExchangeAPI.is_connected e,
                             ExchangeAPI.testnet e)) exchanges |})%m
    (fun e => raise (HTTPException 500 "{str(e)}" (Some e))).

End S.
End app.

(** ** [app.py]: the WebSocket endpoint

    [websocket_endpoint] awaits: between two awaits it runs alone, and at
    an await the event loop may run the endpoints of other sockets.  A run
    of the server is the sequence of resumptions the loop performs. *)

Module ConnectionManager.

(** [active_connections]; a socket object is known by its identity. *)
Record t : Type := { active_connections : list nat }.

(** [__init__] *)
Definition init : t := {| active_connections := [] |}.

(** [list.remove(x)]: the first occurrence goes; [ValueError] without one. *)
Fixpoint list_remove (x : nat) (l : list nat) : Exc (list nat) :=
  match l with
  | [] => Raise ValueError
  | y :: l' =>
      if Nat.eqb y x then Ok l' else exc_map (cons y) (list_remove x l')
  end.

(** [connect], from the return of [await websocket.accept()] on. *)
Definition connect_accepted (self : t) (websocket : nat) : t :=
  {| active_connections := active_connections self ++ [websocket] |}.

Definition disconnect (self : t) (websocket : nat) : Exc t :=
  exc_map (fun l => {| active_connections := l |})
    (list_remove websocket (active_connections self)).

End ConnectionManager.

(** Where the endpoint of one socket stands: at the await of [accept], of
    [receive_text] or of [send_json]; or ended, by the exception of
    [accept], by a return after [disconnect], or by the exception of
    [disconnect]. *)
Inductive Stage : Type :=
| Accepting
| Receiving
| Sending
| Refused (e : PyExc)
| Returned
| Crashed (e : PyExc).

(** What the event loop does next: it starts the endpoint of a new socket,
    or resumes the endpoint of a socket with the result of its await. *)
Inductive Resumption : Type :=
| Opened (websocket : nat)
| Resumed (websocket : nat) (result : Exc PyVal).

Record Server : Type := {
  manager : ConnectionManager.t;
  stage : nat -> option Stage
}.

Definition Server_start : Server :=
  {| manager := ConnectionManager.init; stage := fun _ => None |}.

Definition set_stage (s : Server) (websocket : nat) (st : Stage)
    (m : ConnectionManager.t) : Server :=
  {| manager := m;
     stage := fun x => if Nat.eqb x websocket then Some st else stage s x |}.

(** The two [except] clauses of [websocket_endpoint]: both call
    [manager.disconnect(websocket)]. *)
Definition endpoint_except (s : Server) (websocket : nat) : Server :=
  match ConnectionManager.disconnect (manager s) websocket with
  | Ok m => set_stage s websocket Returned m
  | Raise e => set_stage s websocket (Crashed e) (manager s)
  end.

(** [websocket_endpoint], from one await to the next. *)
Definition websocket_endpoint (s : Server) (r : Resumption) : Server :=
  match r with
  | Opened websocket =>
      match stage s websocket with
      | None => set_stage s websocket Accepting (manager s)
      | Some _ => s
      end
  | Resumed websocket result =>
      match stage s websocket, result with
      | Some Accepting, Ok _ =>
          set_stage s websocket Receiving
            (ConnectionManager.connect_accepted (manager s) websocket)
      | Some Accepting, Raise e =>
          set_stage s websocket (Refused e) (manager s)
      | Some Receiving, Ok data =>
          match data with
          | PStr text =>
              if str_eqb text (lit "ping")
              then set_stage s websocket Sending (manager s)
              else s
          | _ => s
          end
      | Some Sending, Ok _ => set_stage s websocket Receiving (manager s)
      | Some Receiving, Raise _ | Some Sending, Raise _ =>
          endpoint_except s websocket
      | _, _ => s
      end
  end.

Definition server_run (rs : list Resumption) (s : Server) : Server :=
  fold_left websocket_endpoint rs s.

(** A new process over the same database file: the module globals are
    back to their initial values. *)
Definition restart {F : FernetLib} (w : World) : World :=
  {| _bybit_client := None; _testnet_mode := false;
     _encryption_manager := None; http_built := 0%nat; db := db w |}.


(** ** Sample instances of the library interfaces

    Small executable stand-ins on which the handlers can be run: ASCII case
    folding, [float] of decimal digit strings, and a keyed cipher that tags a
    hexadecimal-style encoding of the message with its key. *)

Definition sample_lower (s : str) : str :=
  map (fun c => if (65 <=? c) && (c <=? 90) then c + 32 else c) s.

Definition sample_float_of_int (z : Z) : Exc spec_float :=
  Ok (binary_normalize 53 1024 z 0 false).

Fixpoint sample_digits (s : str) (acc : Z) : Exc Z :=
  match s with
  | [] => Ok acc
  | c :: s' =>
      if (48 <=? c) && (c <=? 57) then sample_digits s' (10 * acc + (c - 48))
      else Raise ValueError
  end.

Definition sample_float_of_str (s : str) : Exc spec_float :=
  match s with
  | [] => Raise ValueError
  | _ => exc_bind (sample_digits s 0) sample_float_of_int
  end.

Definition sample_builtins : PyBuiltins :=
  {| lower := sample_lower;
     float_of_str := sample_float_of_str;
     float_of_int := sample_float_of_int |}.

Definition sample_hex (m : bytes) : bytes :=
  flat_map (fun b => [65 + (b / 16) mod 16; 65 + b mod 16]) m.

Fixpoint sample_unhex (t : bytes) : Exc bytes :=
  match t with
  | [] => Ok []
  | h :: l :: t' =>
      if (65 <=? h) && (h <? 81) && (65 <=? l) && (l <? 81)
      then exc_map (cons ((h - 65) * 16 + (l - 65))) (sample_unhex t')
      else Raise InvalidToken
  | _ => Raise InvalidToken
  end.

Definition sample_tag (f : bool) : Z := if f then 49 else 48.

Definition sample_Fernet : FernetLib :=
  {| Fernet := bool;
     Fernet_init := fun kb =>
       match kb with
       | [48] => Ok false
       | [49] => Ok true
       | _ => Raise ValueError
       end;
     Fernet_generate_key := fun _ => [49];
     Fernet_encrypt := fun f _ m => sample_tag f :: sample_hex m;
     Fernet_decrypt := fun f t =>
       match t with
       | tag :: body =>
           if tag =? sample_tag f then sample_unhex body
           else Raise InvalidToken
       | [] => Raise InvalidToken
       end |}.

Definition sample_ORM : ORM := {| flush_order := InsertsFirst |}.

(** A venue that accepts every key: each call answers
    [{"retCode": 0, "result": {"list": []}}]. *)
Definition sample_reply : PyVal :=
  PDict [(lit "retCode", PInt 0);
         (lit "result", PDict [(lit "list", PList [])])].

Definition sample_env : Env :=
  {| env_HTTP := fun _ _ _ => None;
     env_venue := fun _ _ => Ok sample_reply;
     env_ENCRYPTION_KEY := Some (lit "0");
     env_keygen := [];
     env_rnd1 := [];
     env_rnd2 := [];
     env_utcnow := 1764000000 |}.

(** A venue that rejects every key with a non-zero [retCode]. *)
Definition rejecting_env : Env :=
  {| env_HTTP := fun _ _ _ => None;
     env_venue := fun _ _ => Ok (PDict [(lit "retCode", PInt 10003)]);
     env_ENCRYPTION_KEY := Some (lit "0");
     env_keygen := [];
     env_rnd1 := [];
     env_rnd2 := [];
     env_utcnow := 1764000000 |}.

Definition sample_manager : @EncryptionManager sample_Fernet :=
  {| cipher := false : @Fernet sample_Fernet |}.

Definition other_manager : @EncryptionManager sample_Fernet :=
  {| cipher := true : @Fernet sample_Fernet |}.

(** Sample requests, and the world in which one session is bound. *)
Definition sample_add : AddKeyRequest.t :=
  {| AddKeyRequest.exchange := lit "Bybit";
     AddKeyRequest.api_key := lit "k1";
     AddKeyRequest.api_secret := lit "s1";
     AddKeyRequest.testnet := false |}.

Definition sample_add_again : AddKeyRequest.t :=
  {| AddKeyRequest.exchange := lit "bybit";
     AddKeyRequest.api_key := lit "k2";
     AddKeyRequest.api_secret := lit "s2";
     AddKeyRequest.testnet := true |}.

Definition sample_remove : RemoveKeyRequest.t :=
  {| RemoveKeyRequest.exchange := lit "BYBIT" |}.

Definition sample_test : TestKeyRequest.t :=
  {| TestKeyRequest.exchange := lit "bybit";
     TestKeyRequest.api_key := lit "k3";
     TestKeyRequest.api_secret := lit "s3";
     TestKeyRequest.testnet := false |}.


(** The process after [get_bybit_client("k1", "s1", False)]. *)
Definition World_bound : @World sample_Fernet :=
  snd (@bybit_service.get_bybit_client sample_Fernet sample_env
         (lit "k1") (lit "s1") false World_start).

(** The process after [sample_add] was accepted. *)
Definition World_added : @World sample_Fernet :=
  snd (@api_keys.add_api_keys sample_builtins sample_Fernet sample_ORM
         sample_add sample_env World_start).

(** A venue whose list holds one closed entry, of size zero. *)
Definition closed_entry : PyVal :=
  PDict [(lit "symbol", PStr (lit "BTCUSDT"));
         (lit "side", PStr (lit "Buy"));
         (lit "size", PStr (lit "0"))].

Definition closed_entry_env : Env :=
  {| env_HTTP := fun _ _ _ => None;
     env_venue := fun _ _ =>
       Ok (PDict [(lit "retCode", PInt 0);
                  (lit "result", PDict [(lit "list", PList [closed_entry])])]);
     env_ENCRYPTION_KEY := Some (lit "0");
     env_keygen := [];
     env_rnd1 := [];
     env_rnd2 := [];
     env_utcnow := 1764000000 |}.

(** A venue whose calls raise. *)
Definition failing_env : Env :=
  {| env_HTTP := fun _ _ _ => None;
     env_venue := fun _ _ => Raise (LibraryError "ConnectionError");
     env_ENCRYPTION_KEY := Some (lit "0");
     env_keygen := [];
     env_rnd1 := [];
     env_rnd2 := [];
     env_utcnow := 1764000000 |}.

(** ** Vocabulary of the properties *)

(** The wrapper [BybitClientWrapper(api_key, api_secret, testnet)] builds
    when [n] clients were built before it. *)
Definition built_client (n : nat) (api_key api_secret : str) (testnet : bool)
  : BybitClientWrapper.t :=
  {| BybitClientWrapper.api_key := api_key;
     BybitClientWrapper.api_secret := api_secret;
     BybitClientWrapper.testnet := testnet;
     BybitClientWrapper.client :=
       {| serial := n; http_testnet := testnet; http_api_key := api_key;
          http_api_secret := api_secret; recv_window := 15000 |} |}.

(** [_testnet_mode] is the mode of the cached wrapper, and the cached
    wrapper is one of the clients built so far. *)
Definition cache_coherent {F : FernetLib} (w : World) : Prop :=
  match _bybit_client w with
  | None => True
  | Some c =>
      _testnet_mode w = BybitClientWrapper.testnet c
      /\ (serial (BybitClientWrapper.client c) < http_built w)%nat
  end.

(** The cached session is absent, or bound to another key or another
    network mode than the requested ones. *)
Definition cache_misses {F : FernetLib} (w : World) (api_key : str)
    (testnet : bool) : Prop :=
  match _bybit_client w with
  | None => True
  | Some c =>
      BybitClientWrapper.api_key c <> api_key
      \/ BybitClientWrapper.testnet c <> testnet
  end.

(** The operations on the session cache. *)
Inductive SessionOp : Type :=
| Obtain (env : Env) (api_key api_secret : str) (testnet : bool)
| Invalidate.

Definition session_step {F : FernetLib} (w : World) (op : SessionOp) : World :=
  match op with
  | Obtain env k s m => snd (bybit_service.get_bybit_client env k s m w)
  | Invalidate => snd (bybit_service.reset_bybit_client w)
  end.

Definition session_run {F : FernetLib} (ops : list SessionOp) (w : World)
  : World :=
  fold_left session_step ops w.

(** [n] calls that take turns between two requests. *)
Fixpoint alternate (n : nat) (a b : SessionOp) : list SessionOp :=
  match n with
  | O => []
  | S n' => a :: alternate n' b a
  end.

(** At most one row per venue name. *)
Definition unique_venues (d : Database) : Prop :=
  NoDup (map ExchangeAPI.exchange (exchange_api d)).

(** Every committed row has its primary key. *)
Definition rows_stored (d : Database) : Prop :=
  Forall (fun r => ExchangeAPI.id r <> None) (exchange_api d).

(** The primary key is unique. *)
Definition unique_ids (d : Database) : Prop :=
  NoDup (map ExchangeAPI.id (exchange_api d)).

Definition db_ok (d : Database) : Prop :=
  unique_venues d /\ rows_stored d /\ unique_ids d.

(** The rows of other venues than [name]. *)
Definition other_venues (name : str) (rows : list ExchangeAPI.t)
  : list ExchangeAPI.t :=
  filter (fun x => negb (str_eqb (ExchangeAPI.exchange x) name)) rows.

(** The events left once the row [old], if any, is deleted. *)
Definition cascade_events (old : option ExchangeAPI.t) (evs : list Event.t)
  : list Event.t :=
  match old with
  | Some r =>
      match ExchangeAPI.id r with
      | Some i => filter (fun ev => negb (Event.exchange_id ev =? i)) evs
      | None => evs
      end
  | None => evs
  end.

(** The session [add_api_keys] commits on a store [d]. *)
Definition replace_session (d : Database) (name : str) (row : ExchangeAPI.t)
  : Session :=
  db_add row
    match query_exchange_first d name with
    | Some old => db_delete old Session_begin
    | None => Session_begin
    end.

(** A venue call that failed: it raised, or its reply does not carry the
    ok status code. *)
Definition venue_fails (reply : Exc PyVal) : Prop :=
  match reply with
  | Raise _ => True
  | Ok v => retCode_ok v <> Ok true
  end.

(** The states of the process: what the modelled operations reach from a
    fresh start. *)
Inductive reachable {B : PyBuiltins} {F : FernetLib} {O : ORM}
  : World -> Prop :=
| reach_start : reachable World_start
| reach_obtain w env k s m :
    reachable w ->
    reachable (snd (bybit_service.get_bybit_client env k s m w))
| reach_reset w :
    reachable w -> reachable (snd (bybit_service.reset_bybit_client w))
| reach_add w request env :
    reachable w -> reachable (snd (api_keys.add_api_keys request env w))
| reach_test w request env :
    reachable w -> reachable (snd (api_keys.test_api_keys request env w))
| reach_remove w request :
    reachable w -> reachable (snd (api_keys.remove_api_keys request w))
| reach_positions w env :
    reachable w -> reachable (snd (positions.get_positions env w)).

(** ** Requests served in sequence *)

(** The HTTP requests of the modelled routes. *)
Inductive Request : Type :=
| Req_add (request : AddKeyRequest.t) (env : Env)
| Req_test (request : TestKeyRequest.t) (env : Env)
| Req_remove (request : RemoveKeyRequest.t)
| Req_keys_status
| Req_positions (env : Env)
| Req_open_positions (env : Env)
| Req_orders (env : Env)
| Req_active_orders (env : Env)
| Req_account (env : Env)
| Req_system_status.

(** The process after it has served one request. *)
Definition handle {B : PyBuiltins} {F : FernetLib} {O : ORM}
    (w : World) (r : Request) : World :=
  match r with
  | Req_add request env => snd (api_keys.add_api_keys request env w)
  | Req_test request env => snd (api_keys.test_api_keys request env w)
  | Req_remove request => snd (api_keys.remove_api_keys request w)
  | Req_keys_status => snd (api_keys.get_keys_status w)
  | Req_positions env => snd (positions.get_positions env w)
  | Req_open_positions env => snd (positions.get_open_positions_count env w)
  | Req_orders env => snd (orders.get_orders env w)
  | Req_active_orders env => snd (orders.get_active_orders_count env w)
  | Req_account env => snd (app.get_account_info env w)
  | Req_system_status => snd (app.get_system_status w)
  end.

Definition serve {B : PyBuiltins} {F : FernetLib} {O : ORM}
    (rs : list Request) (w : World) : World :=
  fold_left handle rs w.

(** The requests that only query. *)
Definition is_query (r : Request) : bool :=
  match r with
  | Req_add _ _ | Req_remove _ => false
  | _ => true
  end.

(** A computation keeps a property of the process, whatever it returns. *)
Definition preserves {F : FernetLib} {A : Type} (P : World -> Prop) (m : M A)
  : Prop :=
  forall w r w', m w = (r, w') -> P w -> P w'.

(** A computation that always returns: it raises in no state. *)
Definition answers {F : FernetLib} {A : Type} (m : M A) : Prop :=
  forall w, exists a w', m w = (Ok a, w').

(** What the code stores in a credential row: the venue is "bybit", the
    connection flag is set and the counters are zero. *)
Definition row_as_added (r : ExchangeAPI.t) : Prop :=
  ExchangeAPI.exchange r = lit "bybit"
  /\ ExchangeAPI.is_connected r = true
  /\ ExchangeAPI.connection_error r = None
  /\ ExchangeAPI.total_positions r = 0
  /\ ExchangeAPI.closed_positions r = 0
  /\ ExchangeAPI.failed_closures r = 0.

(** [float(0)] *)
Definition PFloat_0 : PyVal := PFloat float_0.

(** The input checks of [add_api_keys]: a key or secret is missing, or the
    venue is not "bybit". *)
Definition add_input_refused {B : PyBuiltins} (request : AddKeyRequest.t)
  : bool :=
  api_keys.is_empty (AddKeyRequest.api_key request)
  || api_keys.is_empty (AddKeyRequest.api_secret request)
  || negb (str_eqb (lower (AddKeyRequest.exchange request)) (lit "bybit")).

(** The Fernet constructor raises no [HTTPException] (what it raises on a
    bad key is [ValueError]). *)
Definition Fernet_init_raises_no_HTTPException (F : FernetLib) : Prop :=
  forall kb e, Fernet_init kb = Raise e -> is_HTTPException e = false.

(** The response of an accepted [add_api_keys]. *)
Definition add_success (request : AddKeyRequest.t)
    (stored : list ExchangeAPI.t) : AddKeyResponse :=
  {| add_status := "success";
     add_exchange := AddKeyRequest.exchange request;
     add_testnet := AddKeyRequest.testnet request;
     add_exchange_id :=
       match stored with
       | row :: _ => ExchangeAPI.id row
       | [] => None
       end |}.

(** The exception of [add_api_keys] when validation fails or raises [e]. *)
Definition connection_error_401 (e : PyExc) : PyExc :=
  HTTPException 401 "Ошибка подключения: {str(e)}" (Some e).

Definition keys_invalid_401 : PyExc :=
  HTTPException 401 "API ключи невалидны или нет доступа" None.


(** The statements by which each data route obtains its session from the
    stored row: the manager, the two decryptions and the cached client. *)
Definition route_session {F : FernetLib} (env : Env)
    (exchange : ExchangeAPI.t) : M BybitClientWrapper.t :=
  (encryptor <- crypto.get_encryption_manager env ;;
   api_key <-
     lift (decrypt encryptor (ExchangeAPI.api_key_encrypted exchange)) ;;
   api_secret <-
     lift (decrypt encryptor (ExchangeAPI.api_secret_encrypted exchange)) ;;
   bybit_service.get_bybit_client env api_key api_secret
     (ExchangeAPI.testnet exchange))%m.

(** The routes that read the venue or the store and write neither: every
    query but the key test. *)
Definition is_data_route (r : Request) : bool :=
  match r with
  | Req_add _ _ | Req_remove _ | Req_test _ _ => false
  | _ => true
  end.

(** An ORM whose flush emits the INSERT before the DELETE. *)
Definition inserts_first_ORM : ORM := {| flush_order := InsertsFirst |}.

(** A venue that accepts a call only from a client made with the secret
    "s1". *)
Definition secret_checking_env : Env :=
  {| env_HTTP := fun _ _ _ => None;
     env_venue := fun h _ =>
       if str_eqb (http_api_secret h) (lit "s1") then Ok sample_reply
       else Ok (PDict [(lit "retCode", PInt 10003)]);
     env_ENCRYPTION_KEY := Some (lit "0");
     env_keygen := [];
     env_rnd1 := [];
     env_rnd2 := [];
     env_utcnow := 1764000500 |}.

(** The key "k1" again, with a secret the venue does not know. *)
Definition sample_add_wrong_secret : AddKeyRequest.t :=
  {| AddKeyRequest.exchange := lit "bybit";
     AddKeyRequest.api_key := lit "k1";
     AddKeyRequest.api_secret := lit "wrong";
     AddKeyRequest.testnet := false |}.

(** A start without [ENCRYPTION_KEY]: the manager generates its key. *)
Definition keyless_env : Env :=
  {| env_HTTP := fun _ _ _ => None;
     env_venue := fun _ _ => Ok sample_reply;
     env_ENCRYPTION_KEY := None;
     env_keygen := [];
     env_rnd1 := [];
     env_rnd2 := [];
     env_utcnow := 1764000900 |}.

(** The venue a data route talks to, for the routes that talk to one. *)
Definition route_env (r : Request) : option Env :=
  match r with
  | Req_positions env | Req_open_positions env | Req_orders env
  | Req_active_orders env | Req_account env => Some env
  | _ => None
  end.

(** A position that is open, a venue that lists it after a closed one and
    has one order open. *)
Definition open_entry : PyVal :=
  PDict [(lit "symbol", PStr (lit "ETHUSDT"));
         (lit "side", PStr (lit "Sell"));
         (lit "size", PStr (lit "2"))].

Definition sample_order : PyVal :=
  PDict [(lit "symbol", PStr (lit "ETHUSDT"));
         (lit "qty", PStr (lit "3"));
         (lit "price", PStr (lit "7"))].

Definition mixed_env : Env :=
  {| env_HTTP := fun _ _ _ => None;
     env_venue := fun _ call =>
       Ok (PDict
             [(lit "retCode", PInt 0);
              (lit "result",
               PDict [(lit "list",
                       PList match call with
                             | HTTP_get_positions _ => [closed_entry; open_entry]
                             | _ => [sample_order]
                             end)])]);
     env_ENCRYPTION_KEY := Some (lit "0");
     env_keygen := [];
     env_rnd1 := [];
     env_rnd2 := [];
     env_utcnow := 1764000700 |}.

(** The sockets the manager should hold: those whose endpoint is past
    [accept] and has not ended. *)
Definition connected (s : Server) (websocket : nat) : Prop :=
  stage s websocket = Some Receiving \/ stage s websocket = Some Sending.

(** What every run of the server keeps: the manager holds the connected
    sockets, each once, and no endpoint has ended by an exception of
    [disconnect]. *)
Definition server_ok (s : Server) : Prop :=
  NoDup (ConnectionManager.active_connections (manager s))
  /\ (forall x,
        In x (ConnectionManager.active_connections (manager s))
        <-> connected s x)
  /\ (forall x e, stage s x <> Some (Crashed e)).

(** A key test for "k1" with a secret the venue does not know. *)
Definition sample_test_wrong_secret : TestKeyRequest.t :=
  {| TestKeyRequest.exchange := lit "bybit";
     TestKeyRequest.api_key := lit "k1";
     TestKeyRequest.api_secret := lit "wrong";
     TestKeyRequest.testnet := false |}.


(** ** Proof tactics *)

(** Linear arithmetic with division and remainder by constants. *)
Ltac dlia := Z.to_euclidean_division_equations; lia.

Ltac bool_cases :=
  repeat match goal with
    | |- context [?a <? ?b] => destruct (Z.ltb_spec a b)
    | |- context [?a <=? ?b] => destruct (Z.leb_spec a b)
    | |- context [?a =? ?b] => destruct (Z.eqb_spec a b)
    end.

(** One step of symbolic execution of a handler. *)
Ltac m_unfold :=
  cbv beta iota delta [bind m_try ret raise lift get_world].

(** * Properties *)

(** ** The UTF-8 codec *)

Lemma Ok_inj {A} (a b : A) : Ok a = Ok b -> a = b.
Proof. intros E; injection E; auto. Qed.

Lemma utf8_encode_cp_scalar (c : Z) (b : bytes) :
  utf8_encode_cp c = Ok b -> scalar c.
Proof.
  unfold utf8_encode_cp, scalar. bool_cases; cbn [andb]; intros E;
    try discriminate; dlia.
Qed.

Lemma utf8_encode_cp_total (c : Z) :
  scalar c -> exists b, utf8_encode_cp c = Ok b.
Proof.
  unfold utf8_encode_cp, scalar. intros Hc.
  bool_cases; cbn [andb]; eauto; dlia.
Qed.

Lemma utf8_encode_cp_bytes (c : Z) (b : bytes) :
  utf8_encode_cp c = Ok b -> Forall is_byte b.
Proof.
  unfold utf8_encode_cp.
  bool_cases; cbn [andb]; intros E; try discriminate;
    apply Ok_inj in E; subst b;
    repeat first [apply Forall_nil | apply Forall_cons];
    unfold is_byte; dlia.
Qed.

Lemma in_range (lo hi x : Z) :
  lo <= x < hi -> (lo <=? x) && (x <? hi) = true.
Proof.
  intros H. apply andb_true_iff; split; [apply Z.leb_le|apply Z.ltb_lt]; lia.
Qed.

Lemma above_range (lo hi x : Z) :
  hi <= x -> (lo <=? x) && (x <? hi) = false.
Proof. intros H. apply andb_false_iff; right; apply Z.ltb_ge; lia. Qed.

Lemma continuation_low_bits (x : Z) :
  0 <= x < 64 -> continuation (128 + x) = true.
Proof.
  intros H. unfold continuation.
  apply andb_true_iff; split; apply Z.leb_le; lia.
Qed.

(** Decoding reads back the code point an encoding starts with. *)
Lemma utf8_decode_encode_cp (c : Z) (b rest : bytes) :
  utf8_encode_cp c = Ok b ->
  utf8_decode (b ++ rest) = exc_map (cons c) (utf8_decode rest).
Proof.
  unfold utf8_encode_cp.
  destruct (Z.ltb_spec c 0); [discriminate|].
  destruct (Z.ltb_spec c 128).
  { intros E; apply Ok_inj in E; subst b.
    cbn [app utf8_decode]. rewrite in_range by lia. reflexivity. }
  destruct (Z.ltb_spec c 2048).
  { intros E; apply Ok_inj in E; subst b.
    cbn [app utf8_decode].
    rewrite (above_range 0 128) by dlia.
    rewrite (in_range 192 224) by dlia.
    replace ((192 + c / 64 - 192) * 64 + (128 + c mod 64 - 128)) with c
      by dlia.
    rewrite continuation_low_bits by dlia.
    replace (128 <=? c) with true by (symmetry; apply Z.leb_le; lia).
    reflexivity. }
  destruct (Z.ltb_spec c 65536).
  { destruct ((55296 <=? c) && (c <=? 57343)) eqn:Hs; [discriminate|].
    intros E; apply Ok_inj in E; subst b.
    cbn [app utf8_decode].
    rewrite (above_range 0 128) by dlia.
    rewrite (above_range 192 224) by dlia.
    rewrite (in_range 224 240) by dlia.
    replace ((224 + c / 4096 - 224) * 4096
             + (128 + (c / 64) mod 64 - 128) * 64
             + (128 + c mod 64 - 128)) with c by dlia.
    rewrite !continuation_low_bits by dlia.
    rewrite Hs.
    replace (2048 <=? c) with true by (symmetry; apply Z.leb_le; lia).
    reflexivity. }
  destruct (Z.ltb_spec c 1114112); [|discriminate].
  intros E; apply Ok_inj in E; subst b.
  cbn [app utf8_decode].
  rewrite (above_range 0 128) by dlia.
  rewrite (above_range 192 224) by dlia.
  rewrite (above_range 224 240) by dlia.
  rewrite (in_range 240 248) by dlia.
  replace ((240 + c / 262144 - 240) * 262144
           + (128 + (c / 4096) mod 64 - 128) * 4096
           + (128 + (c / 64) mod 64 - 128) * 64
           + (128 + c mod 64 - 128)) with c by dlia.
  rewrite !continuation_low_bits by dlia.
  replace (65536 <=? c) with true by (symmetry; apply Z.leb_le; lia).
  replace (c <? 1114112) with true by (symmetry; apply Z.ltb_lt; lia).
  reflexivity.
Qed.

Lemma utf8_encode_scalar (s : str) (b : bytes) :
  utf8_encode s = Ok b -> Forall scalar s.
Proof.
  revert b. induction s as [|c s IH]; intros b; cbn [utf8_encode].
  - constructor.
  - unfold exc_bind.
    destruct (utf8_encode_cp c) as [bc|] eqn:Ec; [|discriminate].
    destruct (utf8_encode s) as [bs|]; [|discriminate].
    intros _. constructor; eauto using utf8_encode_cp_scalar.
Qed.

Lemma utf8_encode_total (s : str) :
  Forall scalar s -> exists b, utf8_encode s = Ok b.
Proof.
  induction 1 as [|c s Hc _ [bs IH]]; cbn [utf8_encode]; eauto.
  destruct (utf8_encode_cp_total _ Hc) as [bc Ec].
  rewrite Ec, IH. cbn. eauto.
Qed.

Lemma utf8_encode_bytes (s : str) (b : bytes) :
  utf8_encode s = Ok b -> Forall is_byte b.
Proof.
  revert b. induction s as [|c s IH]; intros b; cbn [utf8_encode].
  - intros E; apply Ok_inj in E; subst b. constructor.
  - unfold exc_bind.
    destruct (utf8_encode_cp c) as [bc|] eqn:Ec; [|discriminate].
    destruct (utf8_encode s) as [bs|]; [|discriminate].
    intros E; apply Ok_inj in E; subst b.
    apply Forall_app; split; eauto using utf8_encode_cp_bytes.
Qed.

(** [s.encode().decode() == s] for every string that [encode] accepts. *)
Lemma utf8_decode_encode (s : str) (b : bytes) :
  utf8_encode s = Ok b -> utf8_decode b = Ok s.
Proof.
  revert b. induction s as [|c s IH]; intros b; cbn [utf8_encode].
  - intros E; apply Ok_inj in E; subst b. reflexivity.
  - unfold exc_bind.
    destruct (utf8_encode_cp c) as [bc|] eqn:Ec; [|discriminate].
    destruct (utf8_encode s) as [bs|] eqn:Es; [|discriminate].
    intros E; apply Ok_inj in E; subst b.
    rewrite (utf8_decode_encode_cp _ _ _ Ec), (IH _ eq_refl). reflexivity.
Qed.

(** Base64 text is its own UTF-8 encoding. *)
Lemma utf8_decode_ascii (t : bytes) :
  Forall is_ascii t -> utf8_decode t = Ok t.
Proof.
  induction 1 as [|x t Hx _ IH]; cbn [utf8_decode]; [reflexivity|].
  rewrite in_range by exact Hx. rewrite IH. reflexivity.
Qed.

Lemma utf8_encode_ascii (t : str) :
  Forall is_ascii t -> utf8_encode t = Ok t.
Proof.
  induction 1 as [|x t Hx _ IH]; cbn [utf8_encode]; [reflexivity|].
  rewrite IH. unfold utf8_encode_cp. destruct Hx as [H0 H1].
  destruct (Z.ltb_spec x 0); [lia|].
  destruct (Z.ltb_spec x 128); [|lia]. reflexivity.
Qed.

(** ** The secret cipher *)

Section Cipher.
Context {F : FernetLib}.

(** [decrypt] returns a plaintext only when the token is encodable, the
    library accepts it and the plaintext bytes decode. *)
Lemma decrypt_Ok_inv (self : EncryptionManager) (t p : str) :
  decrypt self t = Ok p ->
  exists b pb, utf8_encode t = Ok b
               /\ Fernet_decrypt (cipher self) b = Ok pb
               /\ utf8_decode pb = Ok p.
Proof.
  unfold decrypt, exc_try, exc_bind.
  destruct (utf8_encode t) as [b|] eqn:Eb; [|discriminate].
  destruct (Fernet_decrypt (cipher self) b) as [pb|] eqn:Ed; [|discriminate].
  destruct (utf8_decode pb) as [p'|] eqn:Ep; [|discriminate].
  intros E; apply Ok_inj in E; subst p'. exists b, pb. auto.
Qed.

Lemma decrypt_library_raises (self : EncryptionManager) (t : str) (b : bytes)
    (e : PyExc) :
  utf8_encode t = Ok b ->
  Fernet_decrypt (cipher self) b = Raise e ->
  decrypt self t = Raise e.
Proof.
  intros Eb Ed. unfold decrypt, exc_try, exc_bind. rewrite Eb, Ed. reflexivity.
Qed.

Lemma decrypt_unencodable (self : EncryptionManager) (t : str) (e : PyExc) :
  utf8_encode t = Raise e -> decrypt self t = Raise e.
Proof.
  intros Eb. unfold decrypt, exc_try, exc_bind. rewrite Eb. reflexivity.
Qed.

(** The token [encrypt] returns is the library's token, read as text. *)
Lemma encrypt_Ok_inv {C : FernetRoundTrip F} (self : EncryptionManager)
    (rnd : Entropy) (s t : str) :
  encrypt self rnd s = Ok t ->
  exists b, utf8_encode s = Ok b
            /\ t = Fernet_encrypt (cipher self) rnd b
            /\ utf8_encode t = Ok (Fernet_encrypt (cipher self) rnd b).
Proof.
  unfold encrypt, exc_bind.
  destruct (utf8_encode s) as [b|] eqn:Eb; [|discriminate].
  rewrite utf8_decode_ascii by apply Fernet_token_ascii.
  intros E; apply Ok_inj in E; subst t.
  exists b. repeat split.
  apply utf8_encode_ascii, Fernet_token_ascii.
Qed.

Lemma decrypt_encrypt_Ok {C : FernetRoundTrip F} (self : EncryptionManager)
    (rnd : Entropy) (s t : str) :
  encrypt self rnd s = Ok t -> decrypt self t = Ok s.
Proof.
  intros E. destruct (encrypt_Ok_inv _ _ _ _ E) as (b & Eb & _ & Et).
  unfold decrypt, exc_try, exc_bind. rewrite Et.
  rewrite Fernet_decrypt_encrypt by eauto using utf8_encode_bytes.
  rewrite (utf8_decode_encode _ _ Eb). reflexivity.
Qed.

Lemma encrypt_total {C : FernetRoundTrip F} (self : EncryptionManager)
    (rnd : Entropy) (s : str) :
  Forall scalar s -> exists t, encrypt self rnd s = Ok t.
Proof.
  intros Hs. destruct (utf8_encode_total _ Hs) as [b Eb].
  unfold encrypt, exc_bind. rewrite Eb.
  rewrite utf8_decode_ascii by apply Fernet_token_ascii. eauto.
Qed.

(** C5. For every string of Unicode scalar values (what an ASCII or UTF-8
    string is) and every manager, [encrypt] returns a token and [decrypt]
    gives the string back from it: [decrypt(encrypt(s)) == s]. *)
Theorem decrypt_encrypt_round_trip {C : FernetRoundTrip F}
    (self : EncryptionManager) (rnd : Entropy) (s : str) :
  Forall scalar s ->
  exists t, encrypt self rnd s = Ok t /\ decrypt self t = Ok s.
Proof.
  intros Hs. destruct (encrypt_total self rnd _ Hs) as [t Et].
  exists t. split; [exact Et|]. eapply decrypt_encrypt_Ok; eauto.
Qed.

End Cipher.

(** The sample cipher keeps the library's contract. *)

Lemma sample_unhex_hex (m : bytes) :
  Forall is_byte m -> sample_unhex (sample_hex m) = Ok m.
Proof.
  induction 1 as [|x m Hx _ IH]; [reflexivity|].
  unfold is_byte in Hx.
  cbn [sample_hex flat_map app sample_unhex].
  fold (sample_hex m). rewrite IH.
  rewrite in_range by dlia.
  replace (65 <=? 65 + x mod 16) with true by (symmetry; apply Z.leb_le; dlia).
  replace (65 + x mod 16 <? 81) with true by (symmetry; apply Z.ltb_lt; dlia).
  replace ((65 + (x / 16) mod 16 - 65) * 16 + (65 + x mod 16 - 65)) with x
    by dlia.
  reflexivity.
Qed.

Lemma sample_hex_ascii (m : bytes) : Forall is_ascii (sample_hex m).
Proof.
  induction m as [|x m IH]; [constructor|].
  cbn [sample_hex flat_map app]. fold (sample_hex m).
  repeat (apply Forall_cons; [unfold is_ascii; dlia|]). exact IH.
Qed.

Lemma sample_Fernet_round_trip : FernetRoundTrip sample_Fernet.
Proof.
  split.
  - intros f rnd m. cbn. apply Forall_cons.
    + unfold is_ascii, sample_tag. destruct f; lia.
    + apply sample_hex_ascii.
  - intros f rnd m Hm. cbn. rewrite Z.eqb_refl. apply sample_unhex_hex, Hm.
Qed.

Lemma sample_Fernet_authentic : FernetAuthentic sample_Fernet.
Proof.
  split. intros f g rnd m Hfg. cbn.
  destruct f, g; try congruence; reflexivity.
Qed.


(** ** The session cache *)

Lemma str_eqb_eq (a b : str) : str_eqb a b = true <-> a = b.
Proof.
  revert b. induction a as [|x a IH]; destruct b as [|y b]; cbn;
    try (split; [discriminate|discriminate]); [tauto|].
  rewrite andb_true_iff, Z.eqb_eq, IH. split.
  - intros [-> ->]. reflexivity.
  - intros E. injection E. auto.
Qed.

Lemma str_eqb_refl (a : str) : str_eqb a a = true.
Proof. apply str_eqb_eq. reflexivity. Qed.

Section Session.
Context {F : FernetLib}.

(** What one call of [get_bybit_client] computes. *)
Lemma get_bybit_client_run (env : Env) (k s : str) (m : bool) (w : World) :
  bybit_service.get_bybit_client env k s m w =
  if bybit_service.must_rebuild w k m then
    match env_HTTP env m k s with
    | Some e => (Raise e, w)
    | None =>
        (Ok (built_client (http_built w) k s m),
         {| _bybit_client := Some (built_client (http_built w) k s m);
            _testnet_mode := m;
            _encryption_manager := _encryption_manager w;
            http_built := S (http_built w);
            db := db w |})
    end
  else
    match _bybit_client w with
    | Some c => (Ok c, w)
    | None => (Raise AttributeError, w)
    end.
Proof.
  unfold bybit_service.get_bybit_client, bybit_service.BybitClientWrapper_init.
  unfold bind, m_try, get_world, ret, raise.
  destruct (bybit_service.must_rebuild w k m).
  - destruct (env_HTTP env m k s); reflexivity.
  - destruct (_bybit_client w); reflexivity.
Qed.

Lemma must_rebuild_misses (w : World) (k : str) (m : bool) :
  cache_coherent w ->
  (bybit_service.must_rebuild w k m = true <-> cache_misses w k m).
Proof.
  unfold cache_coherent, bybit_service.must_rebuild, cache_misses.
  destruct (_bybit_client w) as [c|]; [|tauto].
  intros [Hm _]. rewrite Hm.
  rewrite orb_true_iff, !negb_true_iff.
  rewrite <- !not_true_iff_false, eqb_true_iff, str_eqb_eq. tauto.
Qed.

Lemma must_rebuild_hits (w : World) (c : BybitClientWrapper.t) (s : str) :
  cache_coherent w ->
  _bybit_client w = Some c ->
  bybit_service.must_rebuild w (BybitClientWrapper.api_key c)
    (BybitClientWrapper.testnet c) = false.
Proof.
  intros Hc Hw. apply not_true_iff_false. intros Hr.
  apply must_rebuild_misses in Hr; [|exact Hc].
  unfold cache_misses in Hr. rewrite Hw in Hr. tauto.
Qed.

Lemma get_bybit_client_coherent (env : Env) (k s : str) (m : bool) (w : World) :
  cache_coherent w ->
  cache_coherent (snd (bybit_service.get_bybit_client env k s m w)).
Proof.
  intros Hc. rewrite get_bybit_client_run.
  destruct (bybit_service.must_rebuild w k m).
  - destruct (env_HTTP env m k s); [exact Hc|].
    unfold cache_coherent; cbn. split; [reflexivity|apply Nat.lt_succ_diag_r].
  - destruct (_bybit_client w); exact Hc.
Qed.

Lemma reset_bybit_client_coherent (w : World) :
  cache_coherent (snd (bybit_service.reset_bybit_client w)).
Proof. exact I. Qed.

Lemma session_step_coherent (w : World) (op : SessionOp) :
  cache_coherent w -> cache_coherent (session_step w op).
Proof.
  destruct op; intros Hc;
    [apply get_bybit_client_coherent, Hc|apply reset_bybit_client_coherent].
Qed.

(** The cache is coherent after every sequence of calls. *)
Lemma session_run_coherent (ops : list SessionOp) (w : World) :
  cache_coherent w -> cache_coherent (session_run ops w).
Proof.
  revert w. induction ops as [|op ops IH]; intros w Hc; [exact Hc|].
  apply IH, session_step_coherent, Hc.
Qed.

Lemma World_start_coherent : cache_coherent World_start.
Proof. exact I. Qed.

Lemma session_run_cons (op : SessionOp) (ops : list SessionOp) (w : World) :
  session_run (op :: ops) w = session_run ops (session_step w op).
Proof. reflexivity. Qed.

(** A call that misses the cache and whose constructor does not raise. *)
Lemma get_bybit_client_miss (env : Env) (k s : str) (m : bool) (w : World) :
  cache_coherent w -> cache_misses w k m -> env_HTTP env m k s = None ->
  bybit_service.get_bybit_client env k s m w =
  (Ok (built_client (http_built w) k s m),
   {| _bybit_client := Some (built_client (http_built w) k s m);
      _testnet_mode := m;
      _encryption_manager := _encryption_manager w;
      http_built := S (http_built w);
      db := db w |}).
Proof.
  intros Hc Hmiss Henv. rewrite get_bybit_client_run.
  apply (must_rebuild_misses w k m Hc) in Hmiss. rewrite Hmiss, Henv.
  reflexivity.
Qed.

(** Two requests that differ in key or mode evict each other. *)
Lemma alternate_rebuilds (n : nat) :
  forall (env1 env2 : Env) (k1 s1 : str) (m1 : bool) (k2 s2 : str) (m2 : bool)
         (w : World),
    env_HTTP env1 m1 k1 s1 = None ->
    env_HTTP env2 m2 k2 s2 = None ->
    k1 <> k2 \/ m1 <> m2 ->
    cache_coherent w -> cache_misses w k1 m1 ->
    http_built (session_run
                  (alternate n (Obtain env1 k1 s1 m1) (Obtain env2 k2 s2 m2)) w)
    = (http_built w + n)%nat.
Proof.
  induction n as [|n IH]; intros env1 env2 k1 s1 m1 k2 s2 m2 w H1 H2 Hd Hc Hm.
  - cbn. lia.
  - cbn [alternate]. rewrite session_run_cons. cbn [session_step].
    rewrite (get_bybit_client_miss env1 k1 s1 m1 w Hc Hm H1).
    cbn [snd].
    rewrite IH; try assumption.
    + cbn. lia.
    + destruct Hd as [Hd|Hd]; [left|right]; congruence.
    + split; [reflexivity|apply Nat.lt_succ_diag_r].
Qed.

(** C1. After every sequence of calls on the session cache: a call of
    [get_bybit_client] that finds the cache absent, or bound to another key
    or mode, builds a new client bound to the requested triple and caches it
    (or raises, leaving the cache, when the constructor raises); a call with
    the key and mode of the cached wrapper returns that wrapper and changes
    nothing, whatever secret it asks for; and requests that differ in key or
    mode, called in turns, build a client on every call. *)
Theorem get_bybit_client_single_slot
    (ops : list SessionOp) (env : Env) (k s : str) (m : bool) :
  let w := session_run ops World_start in
  (cache_misses w k m ->
   match env_HTTP env m k s with
   | None =>
       bybit_service.get_bybit_client env k s m w =
       (Ok (built_client (http_built w) k s m),
        {| _bybit_client := Some (built_client (http_built w) k s m);
           _testnet_mode := m;
           _encryption_manager := _encryption_manager w;
           http_built := S (http_built w);
           db := db w |})
   | Some e => bybit_service.get_bybit_client env k s m w = (Raise e, w)
   end)
  /\ (forall c : BybitClientWrapper.t,
        _bybit_client w = Some c ->
        BybitClientWrapper.api_key c = k ->
        BybitClientWrapper.testnet c = m ->
        bybit_service.get_bybit_client env k s m w = (Ok c, w))
  /\ (forall (env2 : Env) (k2 s2 : str) (m2 : bool) (n : nat),
        env_HTTP env m k s = None ->
        env_HTTP env2 m2 k2 s2 = None ->
        k <> k2 \/ m <> m2 ->
        cache_misses w k m ->
        http_built (session_run
                      (alternate n (Obtain env k s m) (Obtain env2 k2 s2 m2)) w)
        = (http_built w + n)%nat).
Proof.
  intros w.
  assert (Hc : cache_coherent w)
    by apply session_run_coherent, World_start_coherent.
  split; [|split].
  - intros Hmiss. destruct (env_HTTP env m k s) as [e|] eqn:He.
    + rewrite get_bybit_client_run, He.
      apply (must_rebuild_misses w k m Hc) in Hmiss. rewrite Hmiss.
      reflexivity.
    + apply get_bybit_client_miss; assumption.
  - intros c Hw Hk Hm. subst k m. rewrite get_bybit_client_run.
    rewrite (must_rebuild_hits w c s Hc Hw), Hw. reflexivity.
  - intros env2 k2 s2 m2 n H1 H2 Hd Hmiss.
    apply alternate_rebuilds; assumption.
Qed.

End Session.

(** ** Frames of the shared operations *)

Section Frames.
Context {B : PyBuiltins} {F : FernetLib}.

Lemma get_encryption_manager_frame (env : Env) (w w1 : World)
    (r : Exc EncryptionManager) :
  crypto.get_encryption_manager env w = (r, w1) ->
  db w1 = db w /\ _bybit_client w1 = _bybit_client w
  /\ _testnet_mode w1 = _testnet_mode w /\ http_built w1 = http_built w
  /\ (forall m, r = Ok m -> _encryption_manager w1 = Some m).
Proof.
  unfold crypto.get_encryption_manager.
  cbv beta iota delta [bind get_world lift ret set_encryption_manager].
  destruct (_encryption_manager w) as [m0|] eqn:Em.
  - intros E; injection E as <- <-. repeat split; try reflexivity.
    intros m Hm; injection Hm as <-. exact Em.
  - match goal with
    | |- context [match ?x with Ok _ => _ | Raise _ => _ end] =>
        destruct x as [m1|e]
    end.
    + intros E; injection E as <- <-. cbn. repeat split; try reflexivity.
      intros m Hm; injection Hm as <-. reflexivity.
    + intros E; injection E as <- <-. repeat split; try reflexivity.
      discriminate.
Qed.

Lemma get_bybit_client_frame (env : Env) (k s : str) (m : bool) (w w1 : World)
    (r : Exc BybitClientWrapper.t) :
  bybit_service.get_bybit_client env k s m w = (r, w1) ->
  db w1 = db w /\ _encryption_manager w1 = _encryption_manager w.
Proof.
  rewrite get_bybit_client_run.
  destruct (bybit_service.must_rebuild w k m).
  - destruct (env_HTTP env m k s); intros E; injection E as <- <-;
      split; reflexivity.
  - destruct (_bybit_client w); intros E; injection E as <- <-;
      split; reflexivity.
Qed.

(** A raise of [get_bybit_client] leaves the globals as they were. *)
Lemma get_bybit_client_raise (env : Env) (k s : str) (m : bool) (w w1 : World)
    (e : PyExc) :
  bybit_service.get_bybit_client env k s m w = (Raise e, w1) -> w1 = w.
Proof.
  rewrite get_bybit_client_run.
  destruct (bybit_service.must_rebuild w k m).
  - destruct (env_HTTP env m k s); intros E; inversion E; reflexivity.
  - destruct (_bybit_client w); intros E; inversion E; reflexivity.
Qed.

(** The wrapper [get_bybit_client] returns is bound to the requested key. *)
Lemma get_bybit_client_key (env : Env) (k s : str) (m : bool) (w w1 : World)
    (c : BybitClientWrapper.t) :
  bybit_service.get_bybit_client env k s m w = (Ok c, w1) ->
  BybitClientWrapper.api_key c = k.
Proof.
  rewrite get_bybit_client_run.
  destruct (bybit_service.must_rebuild w k m) eqn:Hr.
  - destruct (env_HTTP env m k s); intros E; [discriminate|].
    injection E as <- <-. reflexivity.
  - unfold bybit_service.must_rebuild in Hr.
    destruct (_bybit_client w) as [c0|]; intros E; [|discriminate].
    injection E as <- <-.
    apply orb_false_iff in Hr. destruct Hr as [_ Hr].
    apply negb_false_iff, str_eqb_eq in Hr. exact Hr.
Qed.

Lemma validate_credentials_total (env : Env) (c : BybitClientWrapper.t) :
  exists b, BybitClientWrapper.validate_credentials env c = Ok b.
Proof.
  unfold BybitClientWrapper.validate_credentials, exc_try, exc_bind.
  destruct (env_venue env _ _) as [v|]; eauto.
  destruct (retCode_ok v) as [[|]|]; eauto.
Qed.

End Frames.

(** ** The store *)

Lemma NoDup_map_inj {A K} (f : A -> K) (l : list A) (x y : A) :
  NoDup (map f l) -> In x l -> In y l -> f x = f y -> x = y.
Proof.
  induction l as [|a l IH]; cbn; [tauto|].
  intros Hnd Hx Hy Hf. inversion Hnd as [|? ? Hna Hnd']; subst.
  destruct Hx as [->|Hx], Hy as [->|Hy]; auto.
  - exfalso. apply Hna. rewrite Hf. apply in_map, Hy.
  - exfalso. apply Hna. rewrite <- Hf. apply in_map, Hx.
Qed.

Lemma NoDup_map_filter {A K} (f : A -> K) (p : A -> bool) (l : list A) :
  NoDup (map f l) -> NoDup (map f (filter p l)).
Proof.
  induction l as [|a l IH]; cbn; [auto|].
  intros Hnd. inversion Hnd as [|? ? Hna Hnd']; subst.
  destruct (p a); cbn; auto.
  constructor; auto.
  intros Hin. apply Hna. apply in_map_iff in Hin.
  destruct Hin as (x & Hx & Hin). apply filter_In in Hin.
  rewrite <- Hx. apply in_map. tauto.
Qed.

Lemma NoDup_snoc {K} (l : list K) (k : K) :
  NoDup l -> ~ In k l -> NoDup (l ++ [k]).
Proof.
  intros Hl Hk. apply NoDup_app; [exact Hl|repeat constructor; auto|].
  intros x Hx [->|[]]. contradiction.
Qed.

(** The next rowid is above every stored one. *)
Lemma next_rowid_above (rows : list ExchangeAPI.t) (r : ExchangeAPI.t) (i : Z) :
  In r rows -> ExchangeAPI.id r = Some i -> i < next_rowid rows.
Proof.
  unfold next_rowid. intros Hin Hi.
  enough (i <= fold_right
                 (fun r m => match ExchangeAPI.id r with
                             | Some i => Z.max i m
                             | None => m
                             end) 0 rows) by lia.
  induction rows as [|a rows IH]; cbn [fold_right]; [destruct Hin|].
  destruct Hin as [->|Hin].
  - rewrite Hi. lia.
  - specialize (IH Hin). destruct (ExchangeAPI.id a); lia.
Qed.

Lemma next_rowid_fresh (rows : list ExchangeAPI.t) :
  ~ In (Some (next_rowid rows)) (map ExchangeAPI.id rows).
Proof.
  intros Hin. apply in_map_iff in Hin. destruct Hin as (r & Hr & Hin).
  pose proof (next_rowid_above rows r _ Hin Hr). lia.
Qed.

Lemma query_exchange_first_In (d : Database) (name : str) (row : ExchangeAPI.t) :
  query_exchange_first d name = Some row ->
  In row (exchange_api d) /\ ExchangeAPI.exchange row = name.
Proof.
  intros H. apply find_some in H. rewrite str_eqb_eq in H. exact H.
Qed.

Lemma query_exchange_first_None (d : Database) (name : str) :
  query_exchange_first d name = None ->
  other_venues name (exchange_api d) = exchange_api d
  /\ query_exchange_all d name = [].
Proof.
  unfold query_exchange_first, other_venues, query_exchange_all.
  induction (exchange_api d) as [|a l IH]; cbn; [auto|].
  destruct (str_eqb (ExchangeAPI.exchange a) name); [discriminate|].
  intros H. destruct (IH H) as [E1 E2]. cbn. rewrite E1, E2. auto.
Qed.

(** In a well-formed store, deleting the row of a venue by its key leaves
    exactly the rows of the other venues. *)
Lemma delete_row_other_venues (d : Database) (name : str) (row : ExchangeAPI.t) :
  db_ok d ->
  query_exchange_first d name = Some row ->
  exists i, ExchangeAPI.id row = Some i
    /\ delete_row row d =
       {| exchange_api := other_venues name (exchange_api d);
          events := filter (fun ev => negb (Event.exchange_id ev =? i))
                      (events d) |}.
Proof.
  intros (Hn & Hs & Hi) Hq.
  destruct (query_exchange_first_In _ _ _ Hq) as [Hin Hname].
  unfold rows_stored in Hs. rewrite Forall_forall in Hs.
  destruct (ExchangeAPI.id row) as [i|] eqn:Hid; [|destruct (Hs row Hin Hid)].
  exists i. split; [reflexivity|].
  unfold delete_row. rewrite Hid. f_equal.
  unfold other_venues. apply filter_ext_in. intros x Hx. f_equal.
  destruct (str_eqb (ExchangeAPI.exchange x) name) eqn:Ex.
  - apply str_eqb_eq in Ex.
    assert (x = row) by
      (apply (NoDup_map_inj ExchangeAPI.exchange (exchange_api d));
       auto; congruence).
    subst x. rewrite Hid. cbn. apply Z.eqb_refl.
  - destruct (opt_Z_eqb (ExchangeAPI.id x) i) eqn:Ei; [|reflexivity].
    unfold opt_Z_eqb in Ei.
    destruct (ExchangeAPI.id x) as [j|] eqn:Hj; [|discriminate].
    apply Z.eqb_eq in Ei. subst j.
    assert (x = row) by
      (apply (NoDup_map_inj ExchangeAPI.id (exchange_api d));
       auto; congruence).
    subst x. rewrite Hname, str_eqb_refl in Ex. discriminate.
Qed.

Lemma other_venues_absent (name : str) (rows : list ExchangeAPI.t) :
  existsb (fun x => str_eqb (ExchangeAPI.exchange x) name)
    (other_venues name rows) = false.
Proof.
  unfold other_venues. induction rows as [|a l IH]; cbn; [reflexivity|].
  destruct (str_eqb (ExchangeAPI.exchange a) name) eqn:Ea; cbn; [exact IH|].
  rewrite Ea. exact IH.
Qed.

Lemma other_venues_query (name : str) (rows : list ExchangeAPI.t) :
  filter (fun r => str_eqb (ExchangeAPI.exchange r) name)
    (other_venues name rows) = [].
Proof.
  unfold other_venues. induction rows as [|a l IH]; cbn; [reflexivity|].
  destruct (str_eqb (ExchangeAPI.exchange a) name) eqn:Ea; cbn; [exact IH|].
  rewrite Ea. exact IH.
Qed.

Lemma insert_row_Ok (r : ExchangeAPI.t) (d : Database) :
  existsb (fun x => str_eqb (ExchangeAPI.exchange x) (ExchangeAPI.exchange r))
    (exchange_api d) = false ->
  insert_row r d =
  Ok (ExchangeAPI.with_id r (next_rowid (exchange_api d)),
      {| exchange_api :=
           exchange_api d
           ++ [ExchangeAPI.with_id r (next_rowid (exchange_api d))];
         events := events d |}).
Proof. intros H. unfold insert_row. rewrite H. reflexivity. Qed.

Lemma insert_row_db_ok (r : ExchangeAPI.t) (d : Database) :
  db_ok d ->
  existsb (fun x => str_eqb (ExchangeAPI.exchange x) (ExchangeAPI.exchange r))
    (exchange_api d) = false ->
  db_ok {| exchange_api :=
             exchange_api d
             ++ [ExchangeAPI.with_id r (next_rowid (exchange_api d))];
           events := events d |}.
Proof.
  intros (Hn & Hs & Hi) Hex. unfold db_ok, unique_venues, rows_stored,
    unique_ids in *. cbn. rewrite !map_app. cbn. repeat split.
  - apply NoDup_snoc; [exact Hn|]. intros Hin.
    apply in_map_iff in Hin. destruct Hin as (x & Hx & Hin).
    assert (Ht : existsb (fun x => str_eqb (ExchangeAPI.exchange x)
                                     (ExchangeAPI.exchange r))
                   (exchange_api d) = true).
    { apply existsb_exists. exists x. split; [exact Hin|].
      apply str_eqb_eq, Hx. }
    congruence.
  - apply Forall_app. split; [exact Hs|]. repeat constructor. discriminate.
  - apply NoDup_snoc; [exact Hi|]. apply next_rowid_fresh.
Qed.

Lemma other_venues_db_ok (name : str) (d : Database) (evs : list Event.t) :
  db_ok d ->
  db_ok {| exchange_api := other_venues name (exchange_api d); events := evs |}.
Proof.
  intros (Hn & Hs & Hi). unfold db_ok, unique_venues, rows_stored, unique_ids
    in *. cbn. unfold other_venues. repeat split.
  - apply NoDup_map_filter, Hn.
  - rewrite Forall_forall in *. intros x Hx. apply filter_In in Hx.
    apply Hs, Hx.
  - apply NoDup_map_filter, Hi.
Qed.

Section Commit.
Context {O : ORM}.

(** Committing the deletion of the row of a venue. *)
Lemma db_commit_delete (d : Database) (name : str) (old : ExchangeAPI.t) :
  db_ok d ->
  query_exchange_first d name = Some old ->
  db_commit (db_delete old Session_begin) d =
  Ok ([], {| exchange_api := other_venues name (exchange_api d);
             events := cascade_events (Some old) (events d) |}).
Proof.
  intros Hok Hq.
  destruct (delete_row_other_venues d name old Hok Hq) as (i & Hi & Hd).
  unfold db_commit, cascade_events. rewrite Hi.
  destruct flush_order; cbn; rewrite Hd; reflexivity.
Qed.

(** Committing the session of [add_api_keys]: when the flush succeeds, the
    rows of the other venues are kept, the new row is stored under a fresh
    key, and no event is added. *)
Lemma db_commit_replace (d d' : Database) (name : str) (row : ExchangeAPI.t)
    (stored : list ExchangeAPI.t) :
  db_ok d ->
  ExchangeAPI.exchange row = name ->
  db_commit (replace_session d name row) d = Ok (stored, d') ->
  exists i,
    stored = [ExchangeAPI.with_id row i]
    /\ exchange_api d' =
       other_venues name (exchange_api d) ++ [ExchangeAPI.with_id row i]
    /\ events d' = cascade_events (query_exchange_first d name) (events d)
    /\ db_ok d'.
Proof.
  intros Hok Hname. unfold replace_session.
  destruct (query_exchange_first d name) as [old|] eqn:Hq.
  - destruct (delete_row_other_venues d name old Hok Hq) as (i & Hi & Hd).
    destruct (query_exchange_first_In _ _ _ Hq) as [Hin Hold].
    unfold db_commit, cascade_events. rewrite Hi.
    destruct flush_order; cbn [db_add db_delete Session_begin new deleted
      app insert_rows delete_rows fold_left exc_bind].
    + rewrite Hd.
      rewrite insert_row_Ok
        by (cbn [exchange_api]; rewrite Hname; apply other_venues_absent).
      cbv beta iota delta [exc_bind insert_rows fst snd].
      intros E; inversion E; subst; clear E.
      eexists. split; [reflexivity|]. split; [reflexivity|].
      split; [reflexivity|].
      apply (insert_row_db_ok row
               {| exchange_api := other_venues (ExchangeAPI.exchange row)
                                    (exchange_api d);
                  events := filter
                              (fun ev => negb (Event.exchange_id ev =? i))
                              (events d) |}).
      * apply other_venues_db_ok, Hok.
      * apply other_venues_absent.
    + unfold insert_row.
      replace (existsb _ (exchange_api d)) with true; [discriminate|].
      symmetry. apply existsb_exists. exists old. split; [exact Hin|].
      apply str_eqb_eq. congruence.
  - destruct (query_exchange_first_None _ _ Hq) as [Hother _].
    assert (Hex : existsb
                    (fun x => str_eqb (ExchangeAPI.exchange x)
                                (ExchangeAPI.exchange row))
                    (exchange_api d) = false).
    { rewrite Hname, <- Hother. apply other_venues_absent. }
    unfold db_commit, cascade_events.
    destruct flush_order; cbn [db_add db_delete Session_begin new deleted
      app insert_rows delete_rows fold_left exc_bind];
      rewrite (insert_row_Ok row d Hex);
      cbv beta iota delta [exc_bind insert_rows fst snd];
      intros E; inversion E; subst; clear E;
      eexists; rewrite Hother;
      (split; [reflexivity|]); (split; [reflexivity|]);
      (split; [reflexivity|]);
      apply insert_row_db_ok; assumption.
Qed.

End Commit.

(** ** The credential store handlers *)

Section Handlers.
Context {B : PyBuiltins} {F : FernetLib} {O : ORM}.


(** Whatever the body of a handler raises leaves as an [HTTPException]. *)
Lemma reraise_as_500_shape {A} (detail : string) (e : PyExc) (w : World) :
  exists code d cause,
    @api_keys.reraise_as_500 F A detail e w
    = (Raise (HTTPException code d cause), w).
Proof.
  unfold api_keys.reraise_as_500, raise.
  destruct e; cbn; eauto.
Qed.

Lemma add_api_keys_inv (request : AddKeyRequest.t) (env : Env) (w w' : World)
    (r : Exc AddKeyResponse) :
  api_keys.add_api_keys request env w = (r, w') ->
  (exists code detail cause,
      r = Raise (HTTPException code detail cause) /\ db w' = db w)
  \/ (exists m ek es c stored,
        lower (AddKeyRequest.exchange request) = lit "bybit"
        /\ _encryption_manager w' = Some m
        /\ encrypt m (env_rnd1 env) (AddKeyRequest.api_key request) = Ok ek
        /\ encrypt m (env_rnd2 env) (AddKeyRequest.api_secret request) = Ok es
        /\ BybitClientWrapper.api_key c = AddKeyRequest.api_key request
        /\ BybitClientWrapper.validate_credentials env c = Ok true
        /\ _bybit_client w' = Some c
        /\ db_commit
             (replace_session (db w) (lit "bybit")
                (api_keys.new_exchange_api_row (lit "bybit") ek es
                   (AddKeyRequest.testnet request) (env_utcnow env)))
             (db w) = Ok (stored, db w')
        /\ r = Ok {| add_status := "success";
                     add_exchange := AddKeyRequest.exchange request;
                     add_testnet := AddKeyRequest.testnet request;
                     add_exchange_id :=
                       match stored with
                       | row :: _ => ExchangeAPI.id row
                       | [] => None
                       end |}).
Proof.
  unfold api_keys.add_api_keys, api_keys.commit.
  m_unfold.
  assert (Hfail : forall (e : PyExc) (w1 : World),
             db w1 = db w ->
             api_keys.reraise_as_500 "Ошибка при добавлении ключей: {str(e)}" e w1
             = (r, w') ->
             exists code detail cause,
               r = Raise (HTTPException code detail cause) /\ db w' = db w).
  { intros e w1 Hdb E.
    destruct (reraise_as_500_shape (A:=AddKeyResponse)
                "Ошибка при добавлении ключей: {str(e)}" e w1)
      as (code & d & cause & Hs).
    rewrite Hs in E. inversion E; subst. eauto 6. }
  destruct (api_keys.is_empty _ || api_keys.is_empty _).
  { intros E. left. eapply Hfail; [|exact E]. reflexivity. }
  destruct (negb _) eqn:Hx.
  { intros E. left. eapply Hfail; [|exact E]. reflexivity. }
  apply negb_false_iff, str_eqb_eq in Hx. rewrite Hx.
  destruct (crypto.get_encryption_manager env w) as [[m|e] w0] eqn:Em;
    destruct (get_encryption_manager_frame _ _ _ _ Em)
      as (Hdb0 & Hc0 & _ & _ & Hm0);
    [|intros E; left; eapply Hfail; [|exact E]; assumption].
  specialize (Hm0 m eq_refl).
  destruct (encrypt m (env_rnd1 env) _) as [ek|e] eqn:Ek;
    [|intros E; left; eapply Hfail; [|exact E]; assumption].
  destruct (encrypt m (env_rnd2 env) _) as [es|e] eqn:Es;
    [|intros E; left; eapply Hfail; [|exact E]; assumption].
  destruct (bybit_service.get_bybit_client env _ _ _ w0) as [[c|e] w1] eqn:Ec;
    destruct (get_bybit_client_frame _ _ _ _ _ _ _ Ec) as (Hdb1 & Hm1);
    [|intros E; left; eapply Hfail; [|exact E]; congruence].
  destruct (validate_credentials_total env c) as [valid Hv]. rewrite Hv.
  destruct valid.
  2:{ cbv beta iota delta [bybit_service.reset_bybit_client set_bybit_client].
      intros E; left; eapply Hfail; [|exact E]. cbn. congruence. }
  rewrite Hdb1, Hdb0.
  match goal with
  | |- context [db_commit ?s ?d] => destruct (db_commit s d) as [p|e] eqn:Ed
  end.
  2:{ intros E; left; eapply Hfail; [|exact E]; congruence. }
  clear Hfail. destruct p as [stored d].
  cbv beta iota delta [set_db fst snd].
  intros E; inversion E; subst; clear E. right.
  exists m, ek, es, c, stored. cbn.
  repeat split; try assumption; try congruence.
  - eapply get_bybit_client_key; eauto.
  - rewrite get_bybit_client_run in Ec.
    destruct (bybit_service.must_rebuild w0 _ _).
    + destruct (env_HTTP env _ _ _); inversion Ec; reflexivity.
    + destruct (_bybit_client w0) eqn:Hw0; inversion Ec; subst; assumption.
Qed.

(** Every outcome of [add_api_keys] keeps the store well formed. *)
Lemma add_api_keys_db_ok (request : AddKeyRequest.t) (env : Env)
    (w w' : World) (r : Exc AddKeyResponse) :
  db_ok (db w) ->
  api_keys.add_api_keys request env w = (r, w') ->
  db_ok (db w').
Proof.
  intros Hok E.
  destruct (add_api_keys_inv _ _ _ _ _ E)
    as [(code & detail & cause & Hr & Hdb)
       |(m & ek & es & c & stored & _ & _ & _ & _ & _ & _ & _ & Hc & _)].
  - rewrite Hdb. exact Hok.
  - destruct (db_commit_replace _ _ _ _ _ Hok eq_refl Hc) as (i & _ & _ & _ & Hok').
    exact Hok'.
Qed.


(** What a successful [add_api_keys] leaves in the store. *)
Lemma add_api_keys_stores {C : FernetRoundTrip F} (request : AddKeyRequest.t)
    (env : Env) (w w' : World) (resp : AddKeyResponse) :
  db_ok (db w) ->
  api_keys.add_api_keys request env w = (Ok resp, w') ->
  exists (row : ExchangeAPI.t) (m : EncryptionManager),
    exchange_api (db w') =
    other_venues (lit "bybit") (exchange_api (db w)) ++ [row]
    /\ query_exchange_all (db w') (lit "bybit") = [row]
    /\ events (db w') =
       cascade_events (query_exchange_first (db w) (lit "bybit"))
         (events (db w))
    /\ lower (AddKeyRequest.exchange request) = lit "bybit"
    /\ ExchangeAPI.exchange row = lit "bybit"
    /\ _encryption_manager w' = Some m
    /\ encrypt m (env_rnd1 env) (AddKeyRequest.api_key request)
       = Ok (ExchangeAPI.api_key_encrypted row)
    /\ encrypt m (env_rnd2 env) (AddKeyRequest.api_secret request)
       = Ok (ExchangeAPI.api_secret_encrypted row)
    /\ decrypt m (ExchangeAPI.api_key_encrypted row)
       = Ok (AddKeyRequest.api_key request)
    /\ decrypt m (ExchangeAPI.api_secret_encrypted row)
       = Ok (AddKeyRequest.api_secret request)
    /\ ExchangeAPI.testnet row = AddKeyRequest.testnet request
    /\ ExchangeAPI.is_connected row = true
    /\ ExchangeAPI.last_connection_check row = Some (env_utcnow env).
Proof.
  intros Hok E.
  destruct (add_api_keys_inv _ _ _ _ _ E)
    as [(code & detail & cause & Hr & _)
       |(m & ek & es & c & stored & Hx & Hm & Hek & Hes & _ & _ & _ & Hc & _)];
    [discriminate|].
  destruct (db_commit_replace _ _ _ _ _ Hok eq_refl Hc)
    as (i & _ & Hrows & Hev & _).
  eexists. exists m. split; [exact Hrows|].
  split.
  { unfold query_exchange_all. rewrite Hrows, filter_app, other_venues_query.
    cbn [filter app ExchangeAPI.exchange ExchangeAPI.with_id
         api_keys.new_exchange_api_row].
    rewrite str_eqb_refl. reflexivity. }
  split; [exact Hev|].
  split; [exact Hx|].
  cbn [ExchangeAPI.exchange ExchangeAPI.with_id api_keys.new_exchange_api_row
       ExchangeAPI.api_key_encrypted ExchangeAPI.api_secret_encrypted
       ExchangeAPI.testnet ExchangeAPI.is_connected
       ExchangeAPI.last_connection_check].
  repeat split; try assumption; eapply decrypt_encrypt_Ok; eassumption.
Qed.


(** What [remove_api_keys] computes on a well-formed store. *)
Lemma remove_api_keys_run (request : RemoveKeyRequest.t) (w : World) :
  db_ok (db w) ->
  api_keys.remove_api_keys request w =
  match query_exchange_first (db w)
          (lower (RemoveKeyRequest.exchange request)) with
  | None => (Raise (HTTPException 404 "API ключи для {request.exchange} не найдены" None), w)
  | Some old =>
      (Ok {| remove_status := "success" |},
       {| _bybit_client := None;
          _testnet_mode := _testnet_mode w;
          _encryption_manager := _encryption_manager w;
          http_built := http_built w;
          db := {| exchange_api :=
                     other_venues (lower (RemoveKeyRequest.exchange request))
                       (exchange_api (db w));
                   events := cascade_events (Some old) (events (db w)) |} |})
  end.
Proof.
  intros Hok.
  unfold api_keys.remove_api_keys, api_keys.commit, api_keys.reraise_as_500.
  m_unfold.
  destruct (query_exchange_first (db w) _) as [old|] eqn:Hq; [|reflexivity].
  rewrite (db_commit_delete _ _ _ Hok Hq). reflexivity.
Qed.



(** What [test_api_keys] computes. *)
Lemma test_api_keys_run (request : TestKeyRequest.t) (env : Env) (w : World) :
  api_keys.test_api_keys request env w =
  if api_keys.is_empty (TestKeyRequest.api_key request)
     || api_keys.is_empty (TestKeyRequest.api_secret request)
  then
    (Ok {| test_status := "error";
           test_cause :=
             Some (HTTPException 400 "api_key и api_secret обязательны" None);
           is_valid := false |}, w)
  else
    match bybit_service.get_bybit_client env (TestKeyRequest.api_key request)
            (TestKeyRequest.api_secret request)
            (TestKeyRequest.testnet request) w with
    | (Raise e, w1) =>
        (Ok {| test_status := "error"; test_cause := Some e;
               is_valid := false |}, w1)
    | (Ok c, w1) =>
        (match BybitClientWrapper.validate_credentials env c with
         | Ok true =>
             Ok {| test_status := "success"; test_cause := None;
                   is_valid := true |}
         | _ =>
             Ok {| test_status := "error"; test_cause := None;
                   is_valid := false |}
         end,
         {| _bybit_client := None;
            _testnet_mode := _testnet_mode w1;
            _encryption_manager := _encryption_manager w1;
            http_built := http_built w1;
            db := db w1 |})
    end.
Proof.
  unfold api_keys.test_api_keys. m_unfold.
  destruct (api_keys.is_empty _ || api_keys.is_empty _); [reflexivity|].
  destruct (bybit_service.get_bybit_client env _ _ _ w) as [[c|e] w1];
    [|reflexivity].
  destruct (validate_credentials_total env c) as [[|] Hv]; rewrite Hv;
    reflexivity.
Qed.



Lemma cascade_events_incl (old : option ExchangeAPI.t) (evs : list Event.t) :
  (forall ev, In ev (cascade_events old evs) -> In ev evs)
  /\ (List.length (cascade_events old evs) <= List.length evs)%nat.
Proof.
  unfold cascade_events.
  destruct old as [r|]; [destruct (ExchangeAPI.id r)|]; split;
    auto using filter_length_le.
  intros ev Hin. apply filter_In in Hin. tauto.
Qed.

(** The events after a credential add or remove that completes are the
    events before it, less those of some credential row. *)
Lemma credential_ops_shrink_events (w w' : World) :
  db_ok (db w) ->
  (exists request env resp,
      api_keys.add_api_keys request env w = (Ok resp, w'))
  \/ (exists request resp,
         api_keys.remove_api_keys request w = (Ok resp, w')) ->
  (exists old, events (db w') = cascade_events old (events (db w)))
  /\ (forall ev, In ev (events (db w')) -> In ev (events (db w)))
  /\ (List.length (events (db w')) <= List.length (events (db w)))%nat.
Proof.
  intros Hok Hop.
  assert (H : exists old, events (db w') = cascade_events old (events (db w))).
  { destruct Hop as [(request & env & resp & E)|(request & resp & E)].
    - destruct (add_api_keys_inv _ _ _ _ _ E)
        as [(code & detail & cause & Hr & _)
           |(m & ek & es & c & stored & _ & _ & _ & _ & _ & _ & _ & Hc & _)];
        [discriminate|].
      destruct (db_commit_replace _ _ _ _ _ Hok eq_refl Hc)
        as (i & _ & _ & Hev & _).
      eauto.
    - rewrite (remove_api_keys_run request w Hok) in E.
      destruct (query_exchange_first (db w) _) as [old|];
        inversion E; subst. exists (Some old). reflexivity. }
  destruct H as [old Hev]. split; [eauto|].
  rewrite Hev. apply cascade_events_incl.
Qed.

(** C9, as the code has it.  A credential add or remove that completes
    successfully appends no event: the events after it are the events
    before it, less those of the credential row it deleted, which is the
    row the venue had before: the "bybit" row for an add, the row of the
    lower-cased venue name for a remove. *)
Theorem credential_ops_append_no_event (w w' : World) :
  db_ok (db w) ->
  (exists request env resp,
      api_keys.add_api_keys request env w = (Ok resp, w'))
  \/ (exists request resp,
         api_keys.remove_api_keys request w = (Ok resp, w')) ->
  (exists old, events (db w') = cascade_events old (events (db w)))
  /\ (forall ev, In ev (events (db w')) -> In ev (events (db w)))
  /\ (List.length (events (db w')) <= List.length (events (db w)))%nat
  /\ (forall request env resp,
        api_keys.add_api_keys request env w = (Ok resp, w') ->
        events (db w')
        = cascade_events (query_exchange_first (db w) (lit "bybit"))
            (events (db w)))
  /\ (forall request resp,
        api_keys.remove_api_keys request w = (Ok resp, w') ->
        events (db w')
        = cascade_events
            (query_exchange_first (db w)
               (lower (RemoveKeyRequest.exchange request)))
            (events (db w))).
Proof.
  intros Hok Hop.
  destruct (credential_ops_shrink_events w w' Hok Hop) as (H1 & H2 & H3).
  split; [exact H1|]. split; [exact H2|]. split; [exact H3|]. split.
  - intros request env resp E.
    destruct (add_api_keys_inv _ _ _ _ _ E)
      as [(code & detail & cause & Hr & _)
         |(m & ek & es & c & stored & _ & _ & _ & _ & _ & _ & _ & Hc & _)];
      [discriminate|].
    destruct (db_commit_replace _ _ _ _ _ Hok eq_refl Hc)
      as (i & _ & _ & Hev & _).
    exact Hev.
  - intros request resp E.
    rewrite (remove_api_keys_run request w Hok) in E.
    destruct (query_exchange_first (db w) _) as [old|];
      inversion E; subst. reflexivity.
Qed.

End Handlers.

(** ** The venue queries of the wrapper *)

Section Venue.
Context {B : PyBuiltins}.

(** C7. When the venue call behind it fails (it raises, or its reply does
    not carry the ok status code) [get_account_info] returns the all-zero
    record and [get_positions] returns the empty list; and neither method
    raises, whatever the venue answers. *)
Theorem wrapper_failure_sentinels (env : Env) (self : BybitClientWrapper.t) :
  (venue_fails (env_venue env (BybitClientWrapper.client self)
                  (HTTP_get_wallet_balance "UNIFIED")) ->
   BybitClientWrapper.get_account_info env self = Ok zero_account)
  /\ (venue_fails (env_venue env (BybitClientWrapper.client self)
                     (HTTP_get_open_orders "linear")) ->
      BybitClientWrapper.get_positions env self = Ok (PList []))
  /\ (exists info, BybitClientWrapper.get_account_info env self = Ok info)
  /\ (exists l, BybitClientWrapper.get_positions env self = Ok l).
Proof.
  unfold BybitClientWrapper.get_account_info, BybitClientWrapper.get_positions,
    venue_fails.
  repeat split.
  - destruct (env_venue env _ _) as [v|e]; [|reflexivity].
    unfold exc_bind at 1. intros Hf. unfold exc_bind at 1.
    destruct (retCode_ok v) as [[|]|]; [congruence|reflexivity|reflexivity].
  - destruct (env_venue env _ _) as [v|e]; [|reflexivity].
    unfold exc_bind at 1. intros Hf. unfold exc_bind at 1.
    destruct (retCode_ok v) as [[|]|]; [congruence|reflexivity|reflexivity].
  - unfold exc_try.
    match goal with
    | |- exists info, match ?m with Ok a => _ | Raise _ => _ end = _ =>
        destruct m; eauto
    end.
  - unfold exc_try.
    match goal with
    | |- exists l, match ?m with Ok a => _ | Raise _ => _ end = _ =>
        destruct m; eauto
    end.
Qed.

End Venue.


(** ** Open positions *)

Lemma SFltb_zero_nonzero (x : spec_float) :
  SFltb float_0 x = true -> SFeqb x float_0 = false.
Proof.
  unfold SFltb, SFeqb, float_0.
  destruct x as [s|s| |s m e]; cbn; try discriminate;
    destruct s; cbn; congruence.
Qed.

Section Positions.
Context {B : PyBuiltins} {F : FernetLib}.

(** The loop of the positions route keeps only entries of positive size. *)
Lemma format_positions_open (entries : list PyVal) :
  forall formatted out : list Position,
    positions.format_positions entries formatted = Ok out ->
    Forall (fun p => SFltb float_0 (size p) = true) formatted ->
    Forall (fun p => SFltb float_0 (size p) = true) out.
Proof.
  induction entries as [|pos rest IH]; intros formatted out;
    cbn [positions.format_positions].
  - intros E Hf; apply Ok_inj in E; subst out. exact Hf.
  - unfold exc_bind at 1.
    destruct (py_get pos "size" (PInt 0)) as [v|]; [|discriminate].
    unfold exc_bind at 1.
    destruct (py_float v) as [sz|]; [|discriminate].
    destruct (SFltb float_0 sz) eqn:Hsz; [|apply IH].
    repeat (unfold exc_bind at 1;
            match goal with
            | |- match ?m with Ok _ => _ | Raise _ => _ end = _ -> _ =>
                destruct m; [|discriminate]
            end).
    intros E Hf. apply (IH _ _ E).
    apply Forall_app. split; [exact Hf|]. repeat constructor. exact Hsz.
Qed.

(** The route [GET /api/positions/] returns no position of size zero. *)
Lemma positions_route_filters (env : Env) (w w' : World)
    (resp : PositionsResponse) :
  positions.get_positions env w = (Ok resp, w') ->
  Forall (fun p => SFeqb (size p) float_0 = false) (positions resp).
Proof.
  unfold positions.get_positions.
  cbv beta iota delta [bind m_try ret raise lift get_world].
  destruct (query_exchange_first (db w) (lit "bybit")) as [exchange|].
  2:{ intros E; inversion E; subst. constructor. }
  destruct (crypto.get_encryption_manager env w) as [[m|e] w0].
  2:{ intros E; inversion E; subst. constructor. }
  destruct (decrypt m _) as [k|e].
  2:{ intros E; inversion E; subst. constructor. }
  destruct (decrypt m _) as [s|e].
  2:{ intros E; inversion E; subst. constructor. }
  destruct (bybit_service.get_bybit_client env k s _ w0) as [[c|e] w1].
  2:{ intros E; inversion E; subst. constructor. }
  destruct (env_venue env _ _) as [result|e].
  2:{ intros E; inversion E; subst. constructor. }
  destruct (retCode_ok result) as [[|]|e].
  2,3:intros E; inversion E; subst; constructor.
  destruct (py_get result "result" (PDict [])) as [data|e].
  2:{ intros E; inversion E; subst. constructor. }
  destruct (py_get data "list" (PList [])) as [l|e].
  2:{ intros E; inversion E; subst. constructor. }
  destruct (py_iter l) as [entries|e].
  2:{ intros E; inversion E; subst. constructor. }
  destruct (positions.format_positions entries []) as [out|e] eqn:Ef.
  2:{ intros E; inversion E; subst. constructor. }
  intros E; inversion E; subst. cbn [positions].
  eapply Forall_impl; [|eapply format_positions_open; [exact Ef|constructor]].
  intros p Hp. apply SFltb_zero_nonzero, Hp.
Qed.

End Positions.

(** C8, where the code departs from it.  On a successful venue reply whose
    list holds an entry of size zero, [BybitClientWrapper.get_positions]
    (which asks the venue for its open orders) returns the list as it came,
    the zero-size entry included; the positions route, on the same reply,
    drops it. *)
Theorem wrapper_get_positions_keeps_zero_size :
  BybitClientWrapper.get_positions closed_entry_env
    (built_client 0 (lit "k1") (lit "s1") false)
  = Ok (PList [closed_entry])
  /\ exc_bind (py_get closed_entry "size" (PInt 0))
       (@py_float sample_builtins) = Ok float_0
  /\ @positions.format_positions sample_builtins [closed_entry] [] = Ok [].
Proof. repeat split; vm_compute; reflexivity. Qed.

(** ** Invariants of the process *)

Section Invariants.
Context {B : PyBuiltins} {F : FernetLib} {O : ORM}.

Lemma cache_coherent_frame (w w1 : World) :
  _bybit_client w1 = _bybit_client w ->
  _testnet_mode w1 = _testnet_mode w ->
  http_built w1 = http_built w ->
  cache_coherent w -> cache_coherent w1.
Proof.
  unfold cache_coherent. intros -> -> ->. auto.
Qed.

Lemma get_encryption_manager_coherent (env : Env) (w : World) :
  cache_coherent w ->
  cache_coherent (snd (crypto.get_encryption_manager env w)).
Proof.
  destruct (crypto.get_encryption_manager env w) as [r w1] eqn:E.
  destruct (get_encryption_manager_frame _ _ _ _ E) as (_ & H1 & H2 & H3 & _).
  apply cache_coherent_frame; assumption.
Qed.

Lemma add_api_keys_coherent (request : AddKeyRequest.t) (env : Env) (w : World) :
  cache_coherent w ->
  cache_coherent (snd (api_keys.add_api_keys request env w)).
Proof.
  intros Hc.
  unfold api_keys.add_api_keys, api_keys.commit.
  m_unfold.
  assert (Hfail : forall (e : PyExc) (w1 : World),
             cache_coherent w1 ->
             cache_coherent
               (snd (@api_keys.reraise_as_500 F AddKeyResponse
                       "Ошибка при добавлении ключей: {str(e)}" e w1))).
  { intros e w1 H1.
    destruct (reraise_as_500_shape (A:=AddKeyResponse)
                "Ошибка при добавлении ключей: {str(e)}" e w1)
      as (code & d & cause & Hs).
    rewrite Hs. exact H1. }
  destruct (api_keys.is_empty _ || api_keys.is_empty _); [apply Hfail, Hc|].
  destruct (negb _); [apply Hfail, Hc|].
  pose proof (get_encryption_manager_coherent env w Hc) as Hc0.
  destruct (crypto.get_encryption_manager env w) as [[m|e] w0];
    cbn [snd] in Hc0; [|apply Hfail, Hc0].
  destruct (encrypt m (env_rnd1 env) _) as [ek|e]; [|apply Hfail, Hc0].
  destruct (encrypt m (env_rnd2 env) _) as [es|e]; [|apply Hfail, Hc0].
  pose proof (get_bybit_client_coherent env (AddKeyRequest.api_key request)
                (AddKeyRequest.api_secret request)
                (AddKeyRequest.testnet request) w0 Hc0) as Hc1.
  destruct (bybit_service.get_bybit_client env _ _ _ w0) as [[c|e] w1];
    cbn [snd] in Hc1; [|apply Hfail, Hc1].
  destruct (validate_credentials_total env c) as [valid Hv]. rewrite Hv.
  destruct valid.
  2:{ cbv beta iota delta [bybit_service.reset_bybit_client set_bybit_client].
      apply Hfail. exact I. }
  match goal with
  | |- context [db_commit ?s ?d] => destruct (db_commit s d) as [p|e]
  end; [|apply Hfail, Hc1].
  cbv beta iota delta [set_db]. cbn [snd]. exact Hc1.
Qed.

Lemma test_api_keys_coherent (request : TestKeyRequest.t) (env : Env)
    (w : World) :
  cache_coherent w ->
  cache_coherent (snd (api_keys.test_api_keys request env w)).
Proof.
  intros Hc. rewrite test_api_keys_run.
  destruct (api_keys.is_empty _ || api_keys.is_empty _); [exact Hc|].
  pose proof (get_bybit_client_coherent env (TestKeyRequest.api_key request)
                (TestKeyRequest.api_secret request)
                (TestKeyRequest.testnet request) w Hc) as Hc1.
  destruct (bybit_service.get_bybit_client env _ _ _ w) as [[c|e] w1];
    [exact I|exact Hc1].
Qed.

Lemma remove_api_keys_coherent (request : RemoveKeyRequest.t) (w : World) :
  cache_coherent w ->
  cache_coherent (snd (api_keys.remove_api_keys request w)).
Proof.
  intros Hc.
  unfold api_keys.remove_api_keys, api_keys.commit. m_unfold.
  destruct (query_exchange_first (db w) _) as [old|].
  - destruct (db_commit _ (db w)) as [p|e].
    + exact I.
    + destruct (reraise_as_500_shape (A:=RemoveKeyResponse)
                  "Ошибка удаления: {str(e)}" e w) as (code & d & cause & Hs).
      rewrite Hs. exact Hc.
  - exact Hc.
Qed.

Lemma remove_api_keys_db_ok (request : RemoveKeyRequest.t) (w : World) :
  db_ok (db w) -> db_ok (db (snd (api_keys.remove_api_keys request w))).
Proof.
  intros Hok. rewrite (remove_api_keys_run request w Hok).
  destruct (query_exchange_first (db w) _) as [old|]; [|exact Hok].
  apply other_venues_db_ok, Hok.
Qed.

Lemma test_api_keys_db (request : TestKeyRequest.t) (env : Env) (w : World) :
  db (snd (api_keys.test_api_keys request env w)) = db w.
Proof.
  rewrite test_api_keys_run.
  destruct (api_keys.is_empty _ || api_keys.is_empty _); [reflexivity|].
  destruct (bybit_service.get_bybit_client env _ _ _ w) as [[c|e] w1] eqn:E;
    destruct (get_bybit_client_frame _ _ _ _ _ _ _ E) as [Hdb _]; exact Hdb.
Qed.

(** The positions route changes neither the store nor the coherence of the
    cache. *)
Lemma positions_route_frame (env : Env) (w : World) :
  db (snd (positions.get_positions env w)) = db w
  /\ (cache_coherent w ->
      cache_coherent (snd (positions.get_positions env w))).
Proof.
  unfold positions.get_positions. m_unfold.
  destruct (query_exchange_first (db w) (lit "bybit")) as [exchange|];
    [|split; [reflexivity|auto]].
  pose proof (get_encryption_manager_coherent env w) as Hc0.
  destruct (crypto.get_encryption_manager env w) as [[m|e] w0] eqn:Em;
    destruct (get_encryption_manager_frame _ _ _ _ Em) as (Hdb0 & _);
    cbn [snd] in Hc0; [|split; [exact Hdb0|exact Hc0]].
  destruct (decrypt m _) as [k|e]; [|split; [exact Hdb0|exact Hc0]].
  destruct (decrypt m _) as [s|e]; [|split; [exact Hdb0|exact Hc0]].
  pose proof (get_bybit_client_coherent env k s
                (ExchangeAPI.testnet exchange) w0) as Hc1.
  destruct (bybit_service.get_bybit_client env k s _ w0) as [[c|e] w1] eqn:Ec;
    destruct (get_bybit_client_frame _ _ _ _ _ _ _ Ec) as (Hdb1 & _);
    cbn [snd] in Hc1;
    assert (Hdb : db w1 = db w) by congruence;
    [|split; [exact Hdb|auto]].
  repeat match goal with
         | |- context [match ?m with Ok _ => _ | Raise _ => _ end] =>
             destruct m
         | |- context [if ?b then _ else _] => destruct b
         end;
    (split; [exact Hdb|auto]).
Qed.

(** Every state the process reaches has a well-formed store and a coherent
    session cache. *)
Lemma reachable_invariant (w : World) :
  reachable w -> db_ok (db w) /\ cache_coherent w.
Proof.
  induction 1 as [|w env k s m _ [Hd Hc]|w _ [Hd Hc]|w request env _ [Hd Hc]
                 |w request env _ [Hd Hc]|w request _ [Hd Hc]
                 |w env _ [Hd Hc]].
  - split; [|exact I]. repeat split; constructor.
  - split; [|apply get_bybit_client_coherent, Hc].
    destruct (bybit_service.get_bybit_client env k s m w) as [r w1] eqn:E.
    destruct (get_bybit_client_frame _ _ _ _ _ _ _ E) as [Hdb _].
    cbn [snd]. rewrite Hdb. exact Hd.
  - split; [exact Hd|exact I].
  - split; [|apply add_api_keys_coherent, Hc].
    destruct (api_keys.add_api_keys request env w) as [r w1] eqn:E.
    exact (add_api_keys_db_ok _ _ _ _ _ Hd E).
  - split; [|apply test_api_keys_coherent, Hc].
    rewrite test_api_keys_db. exact Hd.
  - split; [apply remove_api_keys_db_ok, Hd|apply remove_api_keys_coherent, Hc].
  - destruct (positions_route_frame env w) as [Hdb Hco].
    split; [rewrite Hdb; exact Hd|apply Hco, Hc].
Qed.

End Invariants.

(** ** The properties at work on the sample process *)

Lemma sample_secret_scalar : Forall scalar (lit "s3cr3t").
Proof. repeat constructor; unfold scalar; cbn; lia. Qed.

Lemma decrypt_encrypt_round_trip_witness :
  Forall scalar (lit "s3cr3t")
  /\ exists t, encrypt sample_manager [] (lit "s3cr3t") = Ok t
               /\ decrypt sample_manager t = Ok (lit "s3cr3t").
Proof.
  split; [exact sample_secret_scalar|].
  exact (@decrypt_encrypt_round_trip sample_Fernet sample_Fernet_round_trip
           sample_manager [] (lit "s3cr3t") sample_secret_scalar).
Defined.

Lemma World_bound_misses_k2 : cache_misses World_bound (lit "k2") false.
Proof. left. vm_compute. discriminate. Qed.

Lemma sample_keys_differ : lit "k2" <> lit "k1" \/ false <> false.
Proof. left. vm_compute. discriminate. Qed.

Lemma get_bybit_client_single_slot_witness :
  cache_misses World_bound (lit "k2") false
  /\ fst (bybit_service.get_bybit_client sample_env (lit "k2") (lit "s2") false
            World_bound)
     = Ok (built_client 1 (lit "k2") (lit "s2") false)
  /\ bybit_service.get_bybit_client sample_env (lit "k1") (lit "other") false
       World_bound
     = (Ok (built_client 0 (lit "k1") (lit "s1") false), World_bound)
  /\ http_built
       (session_run
          (alternate 4 (Obtain sample_env (lit "k2") (lit "s2") false)
             (Obtain sample_env (lit "k1") (lit "s1") false))
          World_bound)
     = 5%nat.
Proof.
  pose proof (get_bybit_client_single_slot (F:=sample_Fernet)
                [Obtain sample_env (lit "k1") (lit "s1") false]
                sample_env (lit "k2") (lit "s2") false) as H2.
  pose proof (get_bybit_client_single_slot (F:=sample_Fernet)
                [Obtain sample_env (lit "k1") (lit "s1") false]
                sample_env (lit "k1") (lit "other") false) as H1.
  split; [exact World_bound_misses_k2|]. split; [|split].
  - exact (f_equal fst (proj1 H2 World_bound_misses_k2)).
  - exact (proj1 (proj2 H1) (built_client 0 (lit "k1") (lit "s1") false)
             eq_refl eq_refl eq_refl).
  - exact (proj2 (proj2 H2) sample_env (lit "k1") (lit "s1") false 4%nat
             eq_refl eq_refl sample_keys_differ World_bound_misses_k2).
Defined.

Lemma World_start_db_ok : db_ok (db (@World_start sample_Fernet)).
Proof. repeat split; constructor. Qed.

Lemma World_added_db_ok : db_ok (db World_added).
Proof.
  exact (proj1 (@reachable_invariant sample_builtins sample_Fernet sample_ORM
                  World_added
                  (reach_add World_start sample_add sample_env reach_start))).
Qed.



Lemma wrapper_failure_sentinels_witness :
  @BybitClientWrapper.get_account_info sample_builtins failing_env
    (built_client 0 (lit "k1") (lit "s1") false) = Ok zero_account
  /\ BybitClientWrapper.get_positions rejecting_env
       (built_client 0 (lit "k1") (lit "s1") false) = Ok (PList []).
Proof.
  split.
  - exact (proj1 (@wrapper_failure_sentinels sample_builtins failing_env
                    (built_client 0 (lit "k1") (lit "s1") false)) I).
  - refine (proj1 (proj2 (@wrapper_failure_sentinels sample_builtins
                            rejecting_env
                            (built_client 0 (lit "k1") (lit "s1") false))) _).
    vm_compute. discriminate.
Defined.

Lemma credential_ops_append_no_event_witness :
  db_ok (db (@World_start sample_Fernet))
  /\ (List.length (events (db World_added))
      <= List.length (events (db (@World_start sample_Fernet))))%nat.
Proof.
  split; [exact World_start_db_ok|].
  refine (proj1 (proj2 (proj2 (@credential_ops_append_no_event
                                 sample_builtins sample_Fernet sample_ORM
                                 World_start World_added
                                 World_start_db_ok _)))).
  left. exists sample_add, sample_env.
  exists {| add_status := "success"; add_exchange := lit "Bybit";
            add_testnet := false; add_exchange_id := Some 1 |}.
  reflexivity.
Defined.

(** C9, as stated, fails: the accepted [sample_add] on a fresh process
    appends no event. *)
Lemma add_api_keys_event_counterexample :
  (exists resp,
      @api_keys.add_api_keys sample_builtins sample_Fernet sample_ORM
        sample_add sample_env World_start = (Ok resp, World_added))
  /\ ~ (exists ev : Event.t,
          events (db World_added)
          = events (db (@World_start sample_Fernet)) ++ [ev]).
Proof.
  split.
  - eexists. reflexivity.
  - intros [ev H]. vm_compute in H. discriminate H.
Qed.



(** ** Frames, composed *)

Section Preserves.
Context {F : FernetLib}.

Lemma preserves_ret {A} (P : World -> Prop) (a : A) : preserves P (ret a).
Proof. intros w r w' E H. inversion E; subst. exact H. Qed.

Lemma preserves_raise {A} (P : World -> Prop) (e : PyExc) :
  preserves P (@raise F A e).
Proof. intros w r w' E H. inversion E; subst. exact H. Qed.

Lemma preserves_lift {A} (P : World -> Prop) (m : Exc A) :
  preserves P (lift m).
Proof. intros w r w' E H. inversion E; subst. exact H. Qed.

Lemma preserves_get_world (P : World -> Prop) : preserves P get_world.
Proof. intros w r w' E H. inversion E; subst. exact H. Qed.

Lemma preserves_bind {A C} (P : World -> Prop) (m : M A) (k : A -> M C) :
  preserves P m -> (forall a, preserves P (k a)) -> preserves P (bind m k).
Proof.
  intros Hm Hk w r w' E H. unfold bind in E.
  destruct (m w) as [[a|e] w1] eqn:Em.
  - exact (Hk a w1 r w' E (Hm w _ w1 Em H)).
  - inversion E; subst. exact (Hm w _ w' Em H).
Qed.

Lemma preserves_try {A} (P : World -> Prop) (m : M A) (h : PyExc -> M A) :
  preserves P m -> (forall e, preserves P (h e)) -> preserves P (m_try m h).
Proof.
  intros Hm Hh w r w' E H. unfold m_try in E.
  destruct (m w) as [[a|e] w1] eqn:Em.
  - inversion E; subst. exact (Hm w _ w' Em H).
  - exact (Hh e w1 r w' E (Hm w _ w1 Em H)).
Qed.

Lemma answers_try_ret {A} (m : M A) (h : PyExc -> A) :
  answers (m_try m (fun e => ret (h e))).
Proof.
  intros w. unfold m_try, ret. destruct (m w) as [[a|e] w1]; eauto.
Qed.

Lemma answers_try {A} (m : M A) (h : PyExc -> M A) :
  answers m -> answers (m_try m h).
Proof.
  intros Hm w. destruct (Hm w) as (a & w1 & E).
  unfold m_try. rewrite E. eauto.
Qed.

End Preserves.

(** Symbolic execution of one structural step of a [preserves] goal. *)
Ltac preserves_step :=
  match goal with
  | |- preserves _ (bind _ _) => apply preserves_bind; [|intros ?]
  | |- preserves _ (m_try _ _) => apply preserves_try; [|intros ?]
  | |- preserves _ (ret _) => apply preserves_ret
  | |- preserves _ (raise _) => apply preserves_raise
  | |- preserves _ (lift _) => apply preserves_lift
  | |- preserves _ get_world => apply preserves_get_world
  | |- preserves _ (api_keys.reraise_as_500 _ _) =>
      unfold api_keys.reraise_as_500
  | |- preserves _ (match ?x with _ => _ end) => destruct x
  end.

Create HintDb frames.

Section BaseFrames.
Context {B : PyBuiltins} {F : FernetLib} {O : ORM}.

(** The manager, once created, is kept. *)
Lemma manager_kept_by_get_encryption_manager (m : EncryptionManager)
    (env : Env) :
  preserves (fun w => _encryption_manager w = Some m)
    (crypto.get_encryption_manager env).
Proof.
  intros w r w' E H. unfold crypto.get_encryption_manager in E.
  cbv beta iota delta [bind get_world] in E. rewrite H in E.
  inversion E; subst. exact H.
Qed.

Lemma manager_kept_by_get_bybit_client (m : EncryptionManager) (env : Env)
    (k s : str) (t : bool) :
  preserves (fun w => _encryption_manager w = Some m)
    (bybit_service.get_bybit_client env k s t).
Proof.
  intros w r w' E H.
  destruct (get_bybit_client_frame _ _ _ _ _ _ _ E) as [_ Hm]. congruence.
Qed.

Lemma manager_kept_by_reset (m : EncryptionManager) :
  preserves (fun w => _encryption_manager w = Some m)
    bybit_service.reset_bybit_client.
Proof. intros w r w' E H. inversion E; subst. exact H. Qed.

Lemma manager_kept_by_commit (m : EncryptionManager) (s : Session) :
  preserves (fun w => _encryption_manager w = Some m) (api_keys.commit s).
Proof.
  intros w r w' E H. unfold api_keys.commit in E.
  cbv beta iota delta [bind get_world lift set_db ret] in E.
  destruct (db_commit s (db w)); inversion E; subst; exact H.
Qed.

(** The store is written by [commit] alone. *)
Lemma db_kept_by_get_encryption_manager (d : Database) (env : Env) :
  preserves (fun w => db w = d) (crypto.get_encryption_manager env).
Proof.
  intros w r w' E H.
  destruct (get_encryption_manager_frame _ _ _ _ E) as [Hdb _]. congruence.
Qed.

Lemma db_kept_by_get_bybit_client (d : Database) (env : Env) (k s : str)
    (t : bool) :
  preserves (fun w => db w = d) (bybit_service.get_bybit_client env k s t).
Proof.
  intros w r w' E H.
  destruct (get_bybit_client_frame _ _ _ _ _ _ _ E) as [Hdb _]. congruence.
Qed.

Lemma db_kept_by_reset (d : Database) :
  preserves (fun w => db w = d) bybit_service.reset_bybit_client.
Proof. intros w r w' E H. inversion E. exact H. Qed.

End BaseFrames.

#[export] Hint Resolve manager_kept_by_get_encryption_manager
  manager_kept_by_get_bybit_client manager_kept_by_reset
  manager_kept_by_commit db_kept_by_get_encryption_manager
  db_kept_by_get_bybit_client db_kept_by_reset : frames.

Ltac preserves_auto :=
  repeat first [preserves_step | solve [auto with frames]].

Section HandlerFrames.
Context {B : PyBuiltins} {F : FernetLib} {O : ORM}.

Lemma manager_kept_by_add (m : EncryptionManager) (request : AddKeyRequest.t)
    (env : Env) :
  preserves (fun w => _encryption_manager w = Some m)
    (api_keys.add_api_keys request env).
Proof. unfold api_keys.add_api_keys. cbv zeta. preserves_auto. Qed.

Lemma manager_kept_by_test (m : EncryptionManager) (request : TestKeyRequest.t)
    (env : Env) :
  preserves (fun w => _encryption_manager w = Some m)
    (api_keys.test_api_keys request env).
Proof. unfold api_keys.test_api_keys. preserves_auto. Qed.

Lemma manager_kept_by_remove (m : EncryptionManager)
    (request : RemoveKeyRequest.t) :
  preserves (fun w => _encryption_manager w = Some m)
    (api_keys.remove_api_keys request).
Proof. unfold api_keys.remove_api_keys. preserves_auto. Qed.

Lemma manager_kept_by_positions (m : EncryptionManager) (env : Env) :
  preserves (fun w => _encryption_manager w = Some m)
    (positions.get_positions env).
Proof. unfold positions.get_positions. preserves_auto. Qed.

Lemma manager_kept_by_open_positions (m : EncryptionManager) (env : Env) :
  preserves (fun w => _encryption_manager w = Some m)
    (positions.get_open_positions_count env).
Proof. unfold positions.get_open_positions_count. preserves_auto. Qed.

Lemma manager_kept_by_orders (m : EncryptionManager) (env : Env) :
  preserves (fun w => _encryption_manager w = Some m) (orders.get_orders env).
Proof. unfold orders.get_orders. preserves_auto. Qed.

Lemma manager_kept_by_active_orders (m : EncryptionManager) (env : Env) :
  preserves (fun w => _encryption_manager w = Some m)
    (orders.get_active_orders_count env).
Proof. unfold orders.get_active_orders_count. preserves_auto. Qed.

Lemma manager_kept_by_account (m : EncryptionManager) (env : Env) :
  preserves (fun w => _encryption_manager w = Some m)
    (app.get_account_info env).
Proof. unfold app.get_account_info. preserves_auto. Qed.

Lemma manager_kept_by_keys_status (m : EncryptionManager) :
  preserves (fun w => _encryption_manager w = Some m) api_keys.get_keys_status.
Proof. unfold api_keys.get_keys_status. cbv zeta. preserves_auto. Qed.

Lemma manager_kept_by_system_status (m : EncryptionManager) :
  preserves (fun w => _encryption_manager w = Some m) app.get_system_status.
Proof. unfold app.get_system_status. cbv zeta. preserves_auto. Qed.

End HandlerFrames.

(** ** The routes that only query *)

Section Answers.
Context {F : FernetLib}.

Lemma answers_ret {A} (a : A) : answers (ret a).
Proof. intros w. unfold ret. eauto. Qed.

Lemma answers_bind {A C} (m : M A) (k : A -> M C) :
  answers m -> (forall a, answers (k a)) -> answers (bind m k).
Proof.
  intros Hm Hk w. destruct (Hm w) as (a & w1 & E).
  destruct (Hk a w1) as (c & w2 & E2).
  unfold bind. rewrite E, E2. eauto.
Qed.

Lemma answers_get_world : answers get_world.
Proof. intros w. unfold get_world. eauto. Qed.

End Answers.

Ltac answers_auto :=
  repeat match goal with
    | |- answers (m_try _ (fun _ => ret _)) => apply answers_try_ret
    | |- answers (m_try _ _) => apply answers_try
    | |- answers (bind _ _) => apply answers_bind; [|intros ?]
    | |- answers (ret _) => apply answers_ret
    | |- answers get_world => apply answers_get_world
    | |- answers (match ?x with _ => _ end) => destruct x
    end.

Section Queries.
Context {B : PyBuiltins} {F : FernetLib} {O : ORM}.

(** X1. No query route raises: whatever the venue, the cipher and the store
    hold, the positions, orders, counting, account, keys-status,
    system-status and key-test routes return a response body. *)
Theorem query_routes_answer (env : Env) (request : TestKeyRequest.t) :
  answers (positions.get_positions env)
  /\ answers (positions.get_open_positions_count env)
  /\ answers (orders.get_orders env)
  /\ answers (orders.get_active_orders_count env)
  /\ answers (app.get_account_info env)
  /\ answers (api_keys.test_api_keys request env)
  /\ answers api_keys.get_keys_status
  /\ answers app.get_system_status.
Proof.
  unfold positions.get_positions, positions.get_open_positions_count,
    orders.get_orders, orders.get_active_orders_count, app.get_account_info,
    api_keys.test_api_keys, api_keys.get_keys_status, app.get_system_status.
  cbv zeta.
  repeat split; answers_auto.
Qed.

Lemma db_kept_by_query (d : Database) (r : Request) (w : World) :
  is_query r = true -> db w = d -> db (handle w r) = d.
Proof.
  intros Hq Hd.
  assert (Hp : forall A (m : M A),
             preserves (fun w0 => db w0 = d) m -> db (snd (m w)) = d).
  { intros A m Hm. destruct (m w) as [res w'] eqn:E.
    exact (Hm w res w' E Hd). }
  destruct r; try discriminate Hq; cbn [handle]; apply Hp;
    unfold api_keys.test_api_keys, api_keys.get_keys_status,
      positions.get_positions, positions.get_open_positions_count,
      orders.get_orders, orders.get_active_orders_count,
      app.get_account_info, app.get_system_status;
    cbv zeta; preserves_auto.
Qed.

(** X2. Only the add and remove routes write the store: serving any sequence of
    the other requests leaves every table as it was. *)
Theorem queries_keep_store (rs : list Request) (w : World) :
  forallb is_query rs = true -> db (serve rs w) = db w.
Proof.
  revert w. induction rs as [|r rs IH]; intros w Hq; [reflexivity|].
  cbn [forallb] in Hq. apply andb_true_iff in Hq. destruct Hq as [Hr Hrs].
  cbn [serve fold_left]. fold (serve rs (handle w r)).
  rewrite (IH _ Hrs). apply db_kept_by_query; auto.
Qed.

Lemma manager_kept_by_handle (m : EncryptionManager) (r : Request)
    (w : World) :
  _encryption_manager w = Some m ->
  _encryption_manager (handle w r) = Some m.
Proof.
  intros Hm.
  assert (Hp : forall A (c : M A),
             preserves (fun w0 => _encryption_manager w0 = Some m) c ->
             _encryption_manager (snd (c w)) = Some m).
  { intros A c Hc. destruct (c w) as [res w'] eqn:E.
    exact (Hc w res w' E Hm). }
  destruct r; cbn [handle]; apply Hp;
    auto using manager_kept_by_add, manager_kept_by_test,
      manager_kept_by_remove, manager_kept_by_positions,
      manager_kept_by_open_positions, manager_kept_by_orders,
      manager_kept_by_active_orders, manager_kept_by_account,
      manager_kept_by_keys_status, manager_kept_by_system_status.
Qed.

(** X3. The cipher key of the process is fixed once: after the manager exists,
    no request replaces it, whatever [ENCRYPTION_KEY] later reads as. *)
Theorem encryption_manager_is_kept (rs : list Request) (w : World)
    (m : EncryptionManager) :
  _encryption_manager w = Some m ->
  _encryption_manager (serve rs w) = Some m
  /\ forall env,
       crypto.get_encryption_manager env (serve rs w) = (Ok m, serve rs w).
Proof.
  revert w. induction rs as [|r rs IH]; intros w Hm.
  - split; [exact Hm|]. intros env. cbn [serve fold_left].
    unfold crypto.get_encryption_manager.
    cbv beta iota delta [bind get_world]. rewrite Hm. reflexivity.
  - cbn [serve fold_left]. fold (serve rs (handle w r)).
    apply IH, manager_kept_by_handle, Hm.
Qed.

End Queries.

(** ** What the credential rows of a served process look like *)

Section Rows.
Context {B : PyBuiltins} {F : FernetLib} {O : ORM}.

Lemma other_venues_Forall (P : ExchangeAPI.t -> Prop) (name : str)
    (rows : list ExchangeAPI.t) :
  Forall P rows -> Forall P (other_venues name rows).
Proof.
  unfold other_venues. rewrite !Forall_forall. intros H x Hx.
  apply filter_In in Hx. apply H, Hx.
Qed.

Lemma rows_as_added_by_handle (r : Request) (w : World) :
  db_ok (db w) ->
  Forall row_as_added (exchange_api (db w)) ->
  db_ok (db (handle w r))
  /\ Forall row_as_added (exchange_api (db (handle w r))).
Proof.
  intros Hok Hrows.
  destruct (is_query r) eqn:Hq.
  { rewrite (db_kept_by_query (db w) r w Hq eq_refl). auto. }
  destruct r; try discriminate Hq; cbn [handle].
  - destruct (api_keys.add_api_keys request env w) as [res w'] eqn:E.
    cbn [snd]. split; [exact (add_api_keys_db_ok _ _ _ _ _ Hok E)|].
    destruct (add_api_keys_inv _ _ _ _ _ E)
      as [(code & detail & cause & _ & Hdb)
         |(m & ek & es & c & stored & _ & _ & _ & _ & _ & _ & _ & Hc & _)].
    + rewrite Hdb. exact Hrows.
    + destruct (db_commit_replace _ _ _ _ _ Hok eq_refl Hc)
        as (i & _ & Hnew & _).
      rewrite Hnew. apply Forall_app. split.
      * apply other_venues_Forall, Hrows.
      * repeat constructor.
  - split; [apply remove_api_keys_db_ok, Hok|].
    rewrite (remove_api_keys_run request w Hok).
    destruct (query_exchange_first (db w) _); [|exact Hrows].
    apply other_venues_Forall, Hrows.
Qed.

Lemma served_rows (rs : list Request) (w : World) :
  db_ok (db w) ->
  Forall row_as_added (exchange_api (db w)) ->
  db_ok (db (serve rs w))
  /\ Forall row_as_added (exchange_api (db (serve rs w))).
Proof.
  revert w. induction rs as [|r rs IH]; intros w Hok Hrows; [auto|].
  cbn [serve fold_left]. fold (serve rs (handle w r)).
  destruct (rows_as_added_by_handle r w Hok Hrows) as [Hok' Hrows'].
  apply IH; assumption.
Qed.

Lemma one_venue_one_row (rows : list ExchangeAPI.t) (name : str) :
  NoDup (map ExchangeAPI.exchange rows) ->
  Forall (fun r => ExchangeAPI.exchange r = name) rows ->
  (List.length rows <= 1)%nat.
Proof.
  destruct rows as [|a [|b rows]]; cbn; try lia.
  intros Hnd Hall. exfalso.
  inversion Hnd as [|? ? Hna _]; subst. apply Hna.
  inversion Hall as [|? ? Ha Hall']; subst.
  inversion Hall' as [|? ? Hb _]; subst.
  left. congruence.
Qed.

Lemma fold_left_snoc_map {A C} (f : A -> C) (l : list A) (acc : list C) :
  fold_left (fun acc x => acc ++ [f x]) l acc = acc ++ map f l.
Proof.
  revert acc. induction l as [|x l IH]; intros acc; cbn.
  - symmetry. apply app_nil_r.
  - rewrite IH, <- app_assoc. reflexivity.
Qed.

Lemma served_rows_from_start (rs : list Request) :
  (List.length (exchange_api (db (serve rs World_start))) <= 1)%nat
  /\ Forall row_as_added (exchange_api (db (serve rs World_start))).
Proof.
  destruct (served_rows rs World_start) as [(Hn & _) Hrows];
    [repeat split; constructor|constructor|].
  split; [|exact Hrows].
  apply (one_venue_one_row _ (lit "bybit") Hn).
  eapply Forall_impl; [|exact Hrows]. intros r Hr. apply Hr.
Qed.

(** X4. From a fresh start, whatever requests were served: the store holds at
    most one credential row, for the venue "bybit", with [is_connected]
    set, no connection error and all counters zero.  No code clears the
    flag or moves a counter. *)
Theorem served_rows_as_added (rs : list Request) :
  let rows := exchange_api (db (serve rs World_start)) in
  (List.length rows <= 1)%nat /\ Forall row_as_added rows.
Proof. exact (served_rows_from_start rs). Qed.

(** X5. What the two status routes report of a served process: at most one
    exchange, and every listed exchange as connected; the system status
    counts as many connected exchanges as there are. *)
Theorem served_status_reports (rs : list Request) :
  let w := serve rs World_start in
  (exists resp,
      api_keys.get_keys_status w = (Ok resp, w)
      /\ total_exchanges resp = List.length (keys_exchanges resp)
      /\ (total_exchanges resp <= 1)%nat
      /\ Forall (fun s => st_exchange s = lit "bybit"
                          /\ st_is_connected s = true
                          /\ st_total_positions s = 0
                          /\ st_closed_positions s = 0)
           (keys_exchanges resp))
  /\ (exists st,
         app.get_system_status w = (Ok st, w)
         /\ exchanges_connected st = exchanges_total st
         /\ (exchanges_total st <= 1)%nat).
Proof.
  intros w. destruct (served_rows_from_start rs) as [Hlen Hrows].
  fold w in Hlen, Hrows. split.
  - unfold api_keys.get_keys_status.
    cbv beta iota zeta delta [m_try bind get_world ret].
    eexists. split; [reflexivity|]. cbn [total_exchanges keys_exchanges].
    rewrite fold_left_snoc_map. cbn [app]. rewrite length_map.
    split; [reflexivity|]. split; [exact Hlen|].
    rewrite Forall_map. eapply Forall_impl; [|exact Hrows].
    intros r (Hx & Hc & _ & Ht & Hcl & _). cbn. auto.
  - unfold app.get_system_status.
    cbv beta iota zeta delta [m_try bind get_world ret].
    eexists. split; [reflexivity|].
    cbn [exchanges_connected exchanges_total]. split; [|exact Hlen].
    f_equal. apply forallb_filter_id. apply forallb_forall.
    rewrite Forall_forall in Hrows. intros r Hr. apply (Hrows r Hr).
Qed.

End Rows.

(** ** [add_api_keys], path by path *)

Section AddPaths.
Context {B : PyBuiltins} {F : FernetLib} {O : ORM}.

(** What [add_api_keys] computes once its input checks pass. *)
Lemma add_api_keys_run (request : AddKeyRequest.t) (env : Env) (w : World) :
  add_input_refused request = false ->
  api_keys.add_api_keys request env w =
  match crypto.get_encryption_manager env w with
  | (Raise e, w0) =>
      api_keys.reraise_as_500 "Ошибка при добавлении ключей: {str(e)}" e w0
  | (Ok m, w0) =>
      match encrypt m (env_rnd1 env) (AddKeyRequest.api_key request) with
      | Raise e =>
          api_keys.reraise_as_500 "Ошибка при добавлении ключей: {str(e)}" e w0
      | Ok ek =>
          match encrypt m (env_rnd2 env) (AddKeyRequest.api_secret request) with
          | Raise e =>
              api_keys.reraise_as_500
                "Ошибка при добавлении ключей: {str(e)}" e w0
          | Ok es =>
              match bybit_service.get_bybit_client env
                      (AddKeyRequest.api_key request)
                      (AddKeyRequest.api_secret request)
                      (AddKeyRequest.testnet request) w0 with
              | (Raise e, w1) => (Raise (connection_error_401 e), w1)
              | (Ok c, w1) =>
                  match BybitClientWrapper.validate_credentials env c with
                  | Ok true =>
                      match db_commit
                              (replace_session (db w1) (lit "bybit")
                                 (api_keys.new_exchange_api_row (lit "bybit")
                                    ek es (AddKeyRequest.testnet request)
                                    (env_utcnow env)))
                              (db w1) with
                      | Ok (stored, d) =>
                          (Ok (add_success request stored), snd (set_db d w1))
                      | Raise e =>
                          api_keys.reraise_as_500
                            "Ошибка при добавлении ключей: {str(e)}" e w1
                      end
                  | _ =>
                      (Raise (connection_error_401 keys_invalid_401),
                       snd (bybit_service.reset_bybit_client w1))
                  end
              end
          end
      end
  end.
Proof.
  unfold add_input_refused. intros Hin.
  apply orb_false_iff in Hin. destruct Hin as [Hin Hx].
  assert (Hl : lower (AddKeyRequest.exchange request) = lit "bybit")
    by (apply negb_false_iff, str_eqb_eq in Hx; exact Hx).
  unfold api_keys.add_api_keys, api_keys.commit. m_unfold.
  rewrite Hin, Hx, Hl.
  destruct (crypto.get_encryption_manager env w) as [[m|e] w0]; [|reflexivity].
  destruct (encrypt m (env_rnd1 env) _) as [ek|e]; [|reflexivity].
  destruct (encrypt m (env_rnd2 env) _) as [es|e]; [|reflexivity].
  destruct (bybit_service.get_bybit_client env _ _ _ w0) as [[c|e] w1];
    [|reflexivity].
  destruct (validate_credentials_total env c) as [[|] Hv]; rewrite Hv;
    [|reflexivity].
  unfold replace_session.
  destruct (db_commit _ (db w1)) as [[stored d]|e]; reflexivity.
Qed.

(** What [add_api_keys] computes when an input check fails. *)
Lemma add_api_keys_refused (request : AddKeyRequest.t) (env : Env) (w : World) :
  add_input_refused request = true ->
  exists detail,
    api_keys.add_api_keys request env w
    = (Raise (HTTPException 400 detail None), w).
Proof.
  unfold add_input_refused. intros Hin.
  unfold api_keys.add_api_keys. m_unfold.
  destruct (api_keys.is_empty _ || api_keys.is_empty _);
    [eexists; reflexivity|].
  destruct (negb (str_eqb _ _)); [eexists; reflexivity|].
  discriminate Hin.
Qed.

End AddPaths.

(** ** What the steps of [add_api_keys] raise *)

Lemma Raise_inj {A} (a b : PyExc) : @Raise A a = Raise b -> a = b.
Proof. intros E; injection E; auto. Qed.

Section Raises.
Context {F : FernetLib}.

Lemma utf8_encode_cp_raises (c : Z) (e : PyExc) :
  utf8_encode_cp c = Raise e -> e = UnicodeEncodeError.
Proof.
  unfold utf8_encode_cp.
  repeat match goal with
    | |- context [if ?b then _ else _] => destruct b
    end; congruence.
Qed.

Lemma utf8_encode_raises (s : str) (e : PyExc) :
  utf8_encode s = Raise e -> e = UnicodeEncodeError.
Proof.
  induction s as [|c s IH]; cbn [utf8_encode]; [discriminate|].
  unfold exc_bind.
  destruct (utf8_encode_cp c) eqn:Ec.
  - destruct (utf8_encode s); [discriminate|].
    intros E. apply IH. exact E.
  - intros E. apply (utf8_encode_cp_raises c). congruence.
Qed.

Lemma exc_map_raises {A C} (f : A -> C) (m : Exc A) (e : PyExc) :
  exc_map f m = Raise e -> m = Raise e.
Proof. destruct m; cbn; congruence. Qed.

Lemma utf8_decode_raises_within (n : nat) :
  forall (b : bytes) (e : PyExc),
    (List.length b <= n)%nat ->
    utf8_decode b = Raise e -> e = UnicodeDecodeError.
Proof.
  induction n as [|n IH]; intros b e Hl H.
  - destruct b; [discriminate H|cbn in Hl; lia].
  - destruct b as [|b0 r0]; [discriminate H|].
    cbn [utf8_decode] in H. cbv zeta in H.
    repeat match type of H with
      | exc_map _ _ = Raise _ =>
          apply exc_map_raises in H; apply IH in H;
          [exact H|cbn [List.length] in Hl |- *; lia]
      | Raise _ = Raise _ => congruence
      | context [match ?r with [] => _ | _ :: _ => _ end] => destruct r
      | context [if ?c then _ else _] => destruct c
      end.
Qed.

Lemma utf8_decode_raises (b : bytes) (e : PyExc) :
  utf8_decode b = Raise e -> e = UnicodeDecodeError.
Proof. apply (utf8_decode_raises_within (List.length b)). lia. Qed.

Lemma encrypt_raises (m : EncryptionManager) (rnd : Entropy) (s : str)
    (e : PyExc) :
  encrypt m rnd s = Raise e -> is_HTTPException e = false.
Proof.
  unfold encrypt, exc_bind. destruct (utf8_encode s) eqn:Es.
  - intros E. apply utf8_decode_raises in E. subst. reflexivity.
  - intros E. apply Raise_inj in E. subst.
    apply utf8_encode_raises in Es. subst. reflexivity.
Qed.

Lemma EncryptionManager_init_raises (key : option str) (rnd : Entropy)
    (e : PyExc) :
  Fernet_init_raises_no_HTTPException F ->
  EncryptionManager_init key rnd = Raise e -> is_HTTPException e = false.
Proof.
  intros HF. unfold EncryptionManager_init, exc_bind.
  destruct key as [[|c k]|].
  - destruct (Fernet_init _) eqn:Ef; [discriminate|].
    intros E. apply Raise_inj in E. subst. exact (HF _ _ Ef).
  - destruct (utf8_encode (c :: k)) eqn:Es.
    + destruct (Fernet_init _) eqn:Ef; [discriminate|].
      intros E. apply Raise_inj in E. subst. exact (HF _ _ Ef).
    + intros E. apply Raise_inj in E. subst.
      apply utf8_encode_raises in Es. subst. reflexivity.
  - destruct (Fernet_init _) eqn:Ef; [discriminate|].
    intros E. apply Raise_inj in E. subst. exact (HF _ _ Ef).
Qed.

Lemma get_encryption_manager_raises (env : Env) (w w0 : World) (e : PyExc) :
  Fernet_init_raises_no_HTTPException F ->
  crypto.get_encryption_manager env w = (Raise e, w0) ->
  w0 = w /\ is_HTTPException e = false.
Proof.
  intros HF. unfold crypto.get_encryption_manager. m_unfold.
  destruct (_encryption_manager w); [discriminate|].
  match goal with
  | |- context [match ?x with Ok _ => _ | Raise _ => _ end] =>
      destruct x as [m|e0] eqn:Ei
  end; [discriminate|].
  intros E. inversion E; subst. split; [reflexivity|].
  destruct (env_ENCRYPTION_KEY env) as [[|c k]|];
    exact (EncryptionManager_init_raises _ _ _ HF Ei).
Qed.

Lemma insert_rows_raises (rs : list ExchangeAPI.t) :
  forall (d : Database) (e : PyExc),
    insert_rows rs d = Raise e -> e = IntegrityError.
Proof.
  induction rs as [|r rs IH]; intros d e; cbn [insert_rows];
    [discriminate|].
  unfold exc_bind, insert_row.
  destruct (existsb _ _); [congruence|]. cbn [snd fst].
  match goal with
  | |- context [insert_rows rs ?d'] =>
      destruct (insert_rows rs d') eqn:Er
  end; [discriminate|].
  intros E. apply Raise_inj in E. subst. exact (IH _ _ Er).
Qed.

Lemma db_commit_raises {O : ORM} (s : Session) (d : Database) (e : PyExc) :
  db_commit s d = Raise e -> e = IntegrityError.
Proof.
  unfold db_commit. destruct flush_order.
  - apply insert_rows_raises.
  - unfold exc_bind. destruct (insert_rows (new s) d) eqn:Er; [discriminate|].
    intros E. apply Raise_inj in E. subst. exact (insert_rows_raises _ _ _ Er).
Qed.

End Raises.

(** ** The outcomes of [add_api_keys] *)

Section AddOutcomes.
Context {B : PyBuiltins} {F : FernetLib} {O : ORM}.

Lemma reraise_as_500_wraps {A} (detail : string) (e : PyExc) (w : World) :
  is_HTTPException e = false ->
  @api_keys.reraise_as_500 F A detail e w
  = (Raise (HTTPException 500 detail (Some e)), w).
Proof.
  intros He. unfold api_keys.reraise_as_500. rewrite He. reflexivity.
Qed.

(** X6. The status codes of [add_api_keys]: it answers 400, 401 or 500 and
    nothing else; 400 exactly when an input check fails, and then before
    the process was touched; 500 wraps what the cipher or the commit
    raised.  A failed add leaves the store as it was. *)
Theorem add_api_keys_status_codes (request : AddKeyRequest.t) (env : Env)
    (w w' : World) (r : Exc AddKeyResponse) :
  Fernet_init_raises_no_HTTPException F ->
  api_keys.add_api_keys request env w = (r, w') ->
  match r with
  | Ok resp => add_input_refused request = false
  | Raise e =>
      db w' = db w
      /\ exists code detail cause,
           e = HTTPException code detail cause
           /\ (code = 400 \/ code = 401 \/ code = 500)
           /\ (code = 400 <-> add_input_refused request = true)
           /\ (code = 400 -> w' = w)
           /\ (code = 500 ->
               exists e0, cause = Some e0 /\ is_HTTPException e0 = false)
  end.
Proof.
  intros HF E.
  destruct (add_input_refused request) eqn:Hin.
  { destruct (add_api_keys_refused request env w Hin) as (detail & E').
    rewrite E' in E. inversion E; subst. split; [reflexivity|].
    exists 400, detail, None. repeat split; auto; discriminate. }
  rewrite (add_api_keys_run request env w Hin) in E.
  destruct (crypto.get_encryption_manager env w) as [[m|e] w0] eqn:Em.
  2:{ destruct (get_encryption_manager_raises _ _ _ _ HF Em) as [-> He].
      rewrite (reraise_as_500_wraps _ _ _ He) in E. inversion E; subst.
      split; [reflexivity|]. do 3 eexists. split; [reflexivity|].
      repeat split; try discriminate; eauto. }
  destruct (get_encryption_manager_frame _ _ _ _ Em) as (Hdb0 & _).
  destruct (encrypt m (env_rnd1 env) _) as [ek|e] eqn:Ek.
  2:{ rewrite (reraise_as_500_wraps _ _ _ (encrypt_raises _ _ _ _ Ek)) in E.
      inversion E; subst. split; [exact Hdb0|].
      do 3 eexists. split; [reflexivity|].
      repeat split; try discriminate; eauto using encrypt_raises. }
  destruct (encrypt m (env_rnd2 env) _) as [es|e] eqn:Es.
  2:{ rewrite (reraise_as_500_wraps _ _ _ (encrypt_raises _ _ _ _ Es)) in E.
      inversion E; subst. split; [exact Hdb0|].
      do 3 eexists. split; [reflexivity|].
      repeat split; try discriminate; eauto using encrypt_raises. }
  destruct (bybit_service.get_bybit_client env _ _ _ w0) as [[c|e] w1] eqn:Ec.
  2:{ inversion E; subst.
      destruct (get_bybit_client_frame _ _ _ _ _ _ _ Ec) as [Hdb1 _].
      split; [congruence|]. do 3 eexists. split; [reflexivity|].
      repeat split; try discriminate; auto. }
  destruct (get_bybit_client_frame _ _ _ _ _ _ _ Ec) as [Hdb1 _].
  destruct (BybitClientWrapper.validate_credentials env c) as [[|]|e0].
  - destruct (db_commit _ (db w1)) as [[stored d]|e] eqn:Ed.
    + inversion E; subst. reflexivity.
    + assert (He : is_HTTPException e = false)
        by (rewrite (db_commit_raises _ _ _ Ed); reflexivity).
      rewrite (reraise_as_500_wraps _ _ _ He) in E. inversion E; subst.
      split; [congruence|]. do 3 eexists. split; [reflexivity|].
      repeat split; try discriminate; eauto.
  - inversion E; subst. split; [cbn; congruence|].
    do 3 eexists. split; [reflexivity|].
    repeat split; try discriminate; auto.
  - inversion E; subst. split; [cbn; congruence|].
    do 3 eexists. split; [reflexivity|].
    repeat split; try discriminate; auto.
Qed.

(** X7. The 401 of [add_api_keys]: its detail is always the connection-error
    text around a cause.  The cause is the invalid-keys exception when the
    venue refused the key, and then the cached session is gone; or it is
    what the client constructor raised, and then the cached session is the
    one from before. *)
Theorem add_api_keys_unauthorized (request : AddKeyRequest.t) (env : Env)
    (w w' : World) (detail : string) (cause : option PyExc) :
  Fernet_init_raises_no_HTTPException F ->
  api_keys.add_api_keys request env w
  = (Raise (HTTPException 401 detail cause), w') ->
  exists e,
    cause = Some e
    /\ detail = "Ошибка подключения: {str(e)}"%string
    /\ ((e = keys_invalid_401 /\ _bybit_client w' = None)
        \/ (env_HTTP env (AddKeyRequest.testnet request)
              (AddKeyRequest.api_key request)
              (AddKeyRequest.api_secret request) = Some e
            /\ _bybit_client w' = _bybit_client w)).
Proof.
  intros HF E.
  destruct (add_input_refused request) eqn:Hin.
  { destruct (add_api_keys_refused request env w Hin) as (d & E').
    rewrite E' in E. discriminate E. }
  rewrite (add_api_keys_run request env w Hin) in E.
  destruct (crypto.get_encryption_manager env w) as [[m|e] w0] eqn:Em.
  2:{ destruct (get_encryption_manager_raises _ _ _ _ HF Em) as [-> He].
      rewrite (reraise_as_500_wraps _ _ _ He) in E. discriminate E. }
  destruct (get_encryption_manager_frame _ _ _ _ Em) as (_ & Hc0 & _).
  destruct (encrypt m (env_rnd1 env) _) as [ek|e] eqn:Ek.
  2:{ rewrite (reraise_as_500_wraps _ _ _ (encrypt_raises _ _ _ _ Ek)) in E.
      discriminate E. }
  destruct (encrypt m (env_rnd2 env) _) as [es|e] eqn:Es.
  2:{ rewrite (reraise_as_500_wraps _ _ _ (encrypt_raises _ _ _ _ Es)) in E.
      discriminate E. }
  rewrite get_bybit_client_run in E.
  destruct (bybit_service.must_rebuild w0 _ _) eqn:Hr.
  - destruct (env_HTTP env _ _ _) as [e|] eqn:Eh.
    + inversion E; subst. exists e. repeat split. right. auto.
    + destruct (BybitClientWrapper.validate_credentials env _) as [[|]|e0].
      * destruct (db_commit _ _) as [[stored d]|e] eqn:Ed;
          [discriminate E|].
        assert (He : is_HTTPException e = false)
          by (rewrite (db_commit_raises _ _ _ Ed); reflexivity).
        rewrite (reraise_as_500_wraps _ _ _ He) in E. discriminate E.
      * inversion E; subst. exists keys_invalid_401. repeat split.
        left. auto.
      * inversion E; subst. exists keys_invalid_401. repeat split.
        left. auto.
  - unfold bybit_service.must_rebuild in Hr.
    destruct (_bybit_client w0) as [c|] eqn:Hc; [|discriminate Hr].
    destruct (BybitClientWrapper.validate_credentials env c) as [[|]|e0].
    + destruct (db_commit _ _) as [[stored d]|e] eqn:Ed; [discriminate E|].
      assert (He : is_HTTPException e = false)
        by (rewrite (db_commit_raises _ _ _ Ed); reflexivity).
      rewrite (reraise_as_500_wraps _ _ _ He) in E. discriminate E.
    + inversion E; subst. exists keys_invalid_401. repeat split.
      left. auto.
    + inversion E; subst. exists keys_invalid_401. repeat split.
      left. auto.
Qed.

End AddOutcomes.

(** ** [add_api_keys] and the cached session *)

Section AddSession.
Context {B : PyBuiltins} {F : FernetLib} {O : ORM}.

Lemma reraise_as_500_not_Ok {A} (detail : string) (e : PyExc) (w w' : World)
    (a : A) (P : Prop) :
  api_keys.reraise_as_500 detail e w = (Ok a, w') -> P.
Proof.
  unfold api_keys.reraise_as_500. destruct (is_HTTPException e); discriminate.
Qed.

Lemma must_rebuild_bound (w : World) (c : BybitClientWrapper.t) :
  _bybit_client w = Some c ->
  bybit_service.must_rebuild w (BybitClientWrapper.api_key c)
    (_testnet_mode w) = false.
Proof.
  intros Hc. unfold bybit_service.must_rebuild. rewrite Hc.
  rewrite Bool.eqb_reflx, str_eqb_refl. reflexivity.
Qed.

(** What a successful [get_bybit_client] leaves: the returned wrapper is
    cached, and the same key and mode hit it. *)
Lemma get_bybit_client_then_hit (env : Env) (k s : str) (m : bool)
    (w w1 : World) (c : BybitClientWrapper.t) :
  bybit_service.get_bybit_client env k s m w = (Ok c, w1) ->
  _bybit_client w1 = Some c
  /\ bybit_service.must_rebuild w1 k m = false.
Proof.
  rewrite get_bybit_client_run.
  destruct (bybit_service.must_rebuild w k m) eqn:Hr.
  - destruct (env_HTTP env m k s); [discriminate|].
    intros E. inversion E; subst. split; [reflexivity|].
    unfold bybit_service.must_rebuild. cbn.
    rewrite Bool.eqb_reflx, str_eqb_refl. reflexivity.
  - destruct (_bybit_client w) eqn:Hc; [|discriminate].
    intros E. inversion E; subst. auto.
Qed.

(** The session an accepted [add_api_keys] leaves in the cache. *)
Lemma add_api_keys_session (request : AddKeyRequest.t) (env : Env)
    (w w' : World) (resp : AddKeyResponse) :
  api_keys.add_api_keys request env w = (Ok resp, w') ->
  exists c,
    _bybit_client w' = Some c
    /\ bybit_service.must_rebuild w' (AddKeyRequest.api_key request)
         (AddKeyRequest.testnet request) = false.
Proof.
  intros E.
  destruct (add_input_refused request) eqn:Hin.
  { destruct (add_api_keys_refused request env w Hin) as (d & E').
    rewrite E' in E. discriminate E. }
  rewrite (add_api_keys_run request env w Hin) in E.
  destruct (crypto.get_encryption_manager env w) as [[m|e] w0];
    [|exact (reraise_as_500_not_Ok _ _ _ _ _ _ E)].
  destruct (encrypt m (env_rnd1 env) _) as [ek|e];
    [|exact (reraise_as_500_not_Ok _ _ _ _ _ _ E)].
  destruct (encrypt m (env_rnd2 env) _) as [es|e];
    [|exact (reraise_as_500_not_Ok _ _ _ _ _ _ E)].
  destruct (bybit_service.get_bybit_client env _ _ _ w0) as [[c|e] w1] eqn:Ec;
    [|discriminate E].
  destruct (get_bybit_client_then_hit _ _ _ _ _ _ _ Ec) as [Hc Hr].
  destruct (BybitClientWrapper.validate_credentials env c) as [[|]|e0];
    try discriminate E.
  destruct (db_commit _ (db w1)) as [[stored d]|e];
    [|exact (reraise_as_500_not_Ok _ _ _ _ _ _ E)].
  inversion E; subst. exists c. split; [exact Hc|exact Hr].
Qed.

(** X8. An add on a cache hit trusts the cached session: when the cache holds
    a session for the request's key and mode, an accepted add has validated
    that session and built no client, so the secret it stores was sent to
    no venue. *)
Theorem add_api_keys_trusts_cached_session {C : FernetRoundTrip F}
    (request : AddKeyRequest.t) (env : Env) (w w' : World)
    (resp : AddKeyResponse) (c : BybitClientWrapper.t) :
  db_ok (db w) ->
  _bybit_client w = Some c ->
  BybitClientWrapper.api_key c = AddKeyRequest.api_key request ->
  _testnet_mode w = AddKeyRequest.testnet request ->
  api_keys.add_api_keys request env w = (Ok resp, w') ->
  BybitClientWrapper.validate_credentials env c = Ok true
  /\ _bybit_client w' = Some c
  /\ http_built w' = http_built w
  /\ exists row m,
       query_exchange_all (db w') (lit "bybit") = [row]
       /\ _encryption_manager w' = Some m
       /\ decrypt m (ExchangeAPI.api_secret_encrypted row)
          = Ok (AddKeyRequest.api_secret request).
Proof.
  intros Hok Hc Hk Hm E.
  assert (Hrow : exists row m,
             query_exchange_all (db w') (lit "bybit") = [row]
             /\ _encryption_manager w' = Some m
             /\ decrypt m (ExchangeAPI.api_secret_encrypted row)
                = Ok (AddKeyRequest.api_secret request)).
  { destruct (add_api_keys_stores _ _ _ _ _ Hok E)
      as (row & m & _ & Hq & _ & _ & _ & Hm' & _ & _ & _ & Hs & _).
    exists row, m. auto. }
  destruct (add_input_refused request) eqn:Hin.
  { destruct (add_api_keys_refused request env w Hin) as (d & E').
    rewrite E' in E. discriminate E. }
  rewrite (add_api_keys_run request env w Hin) in E.
  destruct (crypto.get_encryption_manager env w) as [[m|e] w0] eqn:Em;
    [|exact (reraise_as_500_not_Ok _ _ _ _ _ _ E)].
  destruct (get_encryption_manager_frame _ _ _ _ Em)
    as (_ & Hc0 & Hm0 & Hb0 & _).
  destruct (encrypt m (env_rnd1 env) _) as [ek|e];
    [|exact (reraise_as_500_not_Ok _ _ _ _ _ _ E)].
  destruct (encrypt m (env_rnd2 env) _) as [es|e];
    [|exact (reraise_as_500_not_Ok _ _ _ _ _ _ E)].
  rewrite get_bybit_client_run in E.
  assert (Hr : bybit_service.must_rebuild w0 (AddKeyRequest.api_key request)
                 (AddKeyRequest.testnet request) = false).
  { rewrite <- Hk, <- Hm, <- Hm0. apply must_rebuild_bound. congruence. }
  rewrite Hr, Hc0, Hc in E.
  destruct (BybitClientWrapper.validate_credentials env c) as [[|]|e0];
    try discriminate E.
  destruct (db_commit _ (db w0)) as [[stored d]|e];
    [|exact (reraise_as_500_not_Ok _ _ _ _ _ _ E)].
  inversion E; subst. cbn. repeat split; auto; congruence.
Qed.

(** X9. With an ORM that emits the INSERT of a flush before its DELETE, the
    add route cannot replace a stored row: while a "bybit" row is stored,
    every add raises and leaves the store as it was. *)
Theorem add_api_keys_replace_needs_delete_first (request : AddKeyRequest.t)
    (env : Env) (w w' : World) (r : Exc AddKeyResponse)
    (old : ExchangeAPI.t) :
  flush_order = InsertsFirst ->
  query_exchange_first (db w) (lit "bybit") = Some old ->
  api_keys.add_api_keys request env w = (r, w') ->
  (exists code detail cause, r = Raise (HTTPException code detail cause))
  /\ db w' = db w.
Proof.
  intros Hfo Hold E.
  destruct (add_api_keys_inv _ _ _ _ _ E)
    as [(code & detail & cause & Hr & Hdb)
       |(m & ek & es & c & stored & _ & _ & _ & _ & _ & _ & _ & Hc & _)].
  { split; [eauto|exact Hdb]. }
  exfalso. unfold db_commit in Hc. rewrite Hfo in Hc.
  unfold replace_session in Hc. rewrite Hold in Hc.
  cbn [db_add db_delete Session_begin new deleted app insert_rows] in Hc.
  unfold exc_bind, insert_row in Hc.
  cbn [api_keys.new_exchange_api_row ExchangeAPI.exchange] in Hc.
  assert (Hex : existsb
                  (fun x => str_eqb (ExchangeAPI.exchange x) (lit "bybit"))
                  (exchange_api (db w)) = true).
  { apply existsb_exists. exists old.
    destruct (query_exchange_first_In _ _ _ Hold) as [Hin Hx].
    split; [exact Hin|]. rewrite Hx. apply str_eqb_refl. }
  rewrite Hex in Hc. discriminate Hc.
Qed.

(** X19. The key test trusts the cached session in the same way: on a cache
    hit its verdict is the validation of the cached session, whatever
    secret the request carries; no client is built, and the cache is empty
    afterwards. *)
Theorem test_api_keys_trusts_cached_session (request : TestKeyRequest.t)
    (env : Env) (w : World) (c : BybitClientWrapper.t) :
  api_keys.is_empty (TestKeyRequest.api_key request) = false ->
  api_keys.is_empty (TestKeyRequest.api_secret request) = false ->
  _bybit_client w = Some c ->
  BybitClientWrapper.api_key c = TestKeyRequest.api_key request ->
  _testnet_mode w = TestKeyRequest.testnet request ->
  exists resp,
    api_keys.test_api_keys request env w
    = (Ok resp,
       {| _bybit_client := None; _testnet_mode := _testnet_mode w;
          _encryption_manager := _encryption_manager w;
          http_built := http_built w; db := db w |})
    /\ test_cause resp = None
    /\ (is_valid resp = true
        <-> BybitClientWrapper.validate_credentials env c = Ok true).
Proof.
  intros Hk Hs Hc Hkey Hm.
  rewrite test_api_keys_run, Hk, Hs. cbn [orb].
  rewrite get_bybit_client_run.
  rewrite <- Hkey, <- Hm, (must_rebuild_bound w c Hc), Hc.
  destruct (BybitClientWrapper.validate_credentials env c) as [[|]|e];
    eexists; (split; [reflexivity|]); cbn;
    (split; [reflexivity|]); split; congruence.
Qed.

End AddSession.

(** ** The data routes and the session *)

Ltac run_pure :=
  repeat match goal with
    | |- context [match ?x with _ => _ end] =>
        lazymatch x with
        | context [match _ with _ => _ end] => fail
        | _ => destruct x
        end
    end;
  try reflexivity.

Section Routes.
Context {B : PyBuiltins} {F : FernetLib} {O : ORM}.

(** A data route changes the process only by obtaining its session. *)
Lemma data_route_world (r : Request) (w : World) :
  is_data_route r = true ->
  handle w r =
  match route_env r, query_exchange_first (db w) (lit "bybit") with
  | Some env, Some exchange => snd (route_session env exchange w)
  | _, _ => w
  end.
Proof.
  intros Hr. destruct r; try discriminate Hr; cbn [handle route_env];
    unfold api_keys.get_keys_status, positions.get_positions,
      positions.get_open_positions_count, orders.get_orders,
      orders.get_active_orders_count, app.get_account_info,
      app.get_system_status, route_session;
    m_unfold; cbv zeta;
    try reflexivity;
    (destruct (query_exchange_first (db w) (lit "bybit")) as [exchange|];
     [|reflexivity]);
    (destruct (crypto.get_encryption_manager env w) as [[m|e] w0];
     [|reflexivity]);
    (destruct (decrypt m (ExchangeAPI.api_key_encrypted exchange));
     [|reflexivity]);
    (destruct (decrypt m (ExchangeAPI.api_secret_encrypted exchange));
     [|reflexivity]);
    (destruct (bybit_service.get_bybit_client env _ _ _ w0) as [[c|e] w1];
     [|reflexivity]);
    cbn [snd]; run_pure.
Qed.

Lemma route_session_hit (env : Env) (w : World) (row : ExchangeAPI.t)
    (m : EncryptionManager) (k s : str) (c : BybitClientWrapper.t) :
  _encryption_manager w = Some m ->
  decrypt m (ExchangeAPI.api_key_encrypted row) = Ok k ->
  decrypt m (ExchangeAPI.api_secret_encrypted row) = Ok s ->
  _bybit_client w = Some c ->
  bybit_service.must_rebuild w k (ExchangeAPI.testnet row) = false ->
  route_session env row w = (Ok c, w).
Proof.
  intros Hm Hk Hs Hc Hr. unfold route_session, crypto.get_encryption_manager.
  m_unfold. rewrite Hm, Hk, Hs. rewrite get_bybit_client_run, Hr, Hc.
  reflexivity.
Qed.

Lemma route_session_miss (env : Env) (w : World) (row : ExchangeAPI.t)
    (m : EncryptionManager) (k s : str) :
  _encryption_manager w = Some m ->
  decrypt m (ExchangeAPI.api_key_encrypted row) = Ok k ->
  decrypt m (ExchangeAPI.api_secret_encrypted row) = Ok s ->
  _bybit_client w = None ->
  env_HTTP env (ExchangeAPI.testnet row) k s = None ->
  route_session env row w =
  (Ok (built_client (http_built w) k s (ExchangeAPI.testnet row)),
   {| _bybit_client :=
        Some (built_client (http_built w) k s (ExchangeAPI.testnet row));
      _testnet_mode := ExchangeAPI.testnet row;
      _encryption_manager := _encryption_manager w;
      http_built := S (http_built w);
      db := db w |}).
Proof.
  intros Hm Hk Hs Hc Hh. unfold route_session, crypto.get_encryption_manager.
  m_unfold. rewrite Hm, Hk, Hs. rewrite get_bybit_client_run.
  unfold bybit_service.must_rebuild. rewrite Hc, Hh, Hm. reflexivity.
Qed.

Lemma find_filter_head {A} (p : A -> bool) (l : list A) (x : A)
    (t : list A) :
  filter p l = x :: t -> find p l = Some x.
Proof.
  induction l as [|a l IH]; cbn; [discriminate|].
  destruct (p a); [congruence|exact IH].
Qed.

(** The state an accepted add leaves: the row it stored is the one the
    routes find, it decrypts to the request's credentials under the
    manager of the process, and the validated session is cached. *)
Lemma add_api_keys_ready {C : FernetRoundTrip F} (request : AddKeyRequest.t)
    (env : Env) (w w1 : World) (resp : AddKeyResponse) :
  db_ok (db w) ->
  api_keys.add_api_keys request env w = (Ok resp, w1) ->
  exists row m c,
    query_exchange_first (db w1) (lit "bybit") = Some row
    /\ _encryption_manager w1 = Some m
    /\ decrypt m (ExchangeAPI.api_key_encrypted row)
       = Ok (AddKeyRequest.api_key request)
    /\ decrypt m (ExchangeAPI.api_secret_encrypted row)
       = Ok (AddKeyRequest.api_secret request)
    /\ ExchangeAPI.testnet row = AddKeyRequest.testnet request
    /\ _bybit_client w1 = Some c
    /\ bybit_service.must_rebuild w1 (AddKeyRequest.api_key request)
         (AddKeyRequest.testnet request) = false.
Proof.
  intros Hok E.
  destruct (add_api_keys_stores _ _ _ _ _ Hok E)
    as (row & m & _ & Hq & _ & _ & _ & Hm & _ & _ & Hk & Hs & Ht & _).
  destruct (add_api_keys_session _ _ _ _ _ E) as (c & Hc & Hr).
  exists row, m, c. repeat split; auto.
  exact (find_filter_head _ _ _ _ Hq).
Qed.

(** X10. After an accepted add, the data routes are served by the session the
    add validated: serving any sequence of them, against any venue, builds
    no client and leaves the process exactly as it was. *)
Theorem data_routes_reuse_added_session {C : FernetRoundTrip F}
    (request : AddKeyRequest.t) (env : Env) (w w1 : World)
    (resp : AddKeyResponse) (rs : list Request) :
  db_ok (db w) ->
  api_keys.add_api_keys request env w = (Ok resp, w1) ->
  forallb is_data_route rs = true ->
  serve rs w1 = w1.
Proof.
  intros Hok E.
  destruct (add_api_keys_ready _ _ _ _ _ Hok E)
    as (row & m & c & Hq & Hm & Hk & Hs & Ht & Hc & Hr).
  induction rs as [|r rs IH]; intros Hrs; [reflexivity|].
  cbn [forallb] in Hrs. apply andb_true_iff in Hrs. destruct Hrs as [Hd Hrs].
  cbn [serve fold_left]. fold (serve rs (handle w1 r)).
  assert (Hh : handle w1 r = w1).
  { rewrite (data_route_world r w1 Hd), Hq.
    destruct (route_env r) as [env'|]; [|reflexivity].
    rewrite (route_session_hit env' w1 row m _ _ c Hm Hk Hs Hc);
      [reflexivity|]. rewrite Ht. exact Hr. }
  rewrite Hh. exact (IH Hrs).
Qed.

(** X11. The key test evicts the session of the stored credentials: after an
    accepted add and then a key test that obtained a client, the cache is
    empty, and the next data route that talks to the venue builds a new
    client from the stored key and secret. *)
Theorem test_api_keys_evicts_added_session {C : FernetRoundTrip F}
    (request : AddKeyRequest.t) (env : Env) (w w1 : World)
    (resp : AddKeyResponse) (probe : TestKeyRequest.t) (probe_env : Env)
    (r : Request) (env' : Env) :
  db_ok (db w) ->
  api_keys.add_api_keys request env w = (Ok resp, w1) ->
  api_keys.is_empty (TestKeyRequest.api_key probe) = false ->
  api_keys.is_empty (TestKeyRequest.api_secret probe) = false ->
  env_HTTP probe_env (TestKeyRequest.testnet probe)
    (TestKeyRequest.api_key probe) (TestKeyRequest.api_secret probe) = None ->
  route_env r = Some env' ->
  env_HTTP env' (AddKeyRequest.testnet request)
    (AddKeyRequest.api_key request) (AddKeyRequest.api_secret request)
  = None ->
  let w2 := snd (api_keys.test_api_keys probe probe_env w1) in
  _bybit_client w2 = None
  /\ db w2 = db w1
  /\ _bybit_client (handle w2 r)
     = Some (built_client (http_built w2) (AddKeyRequest.api_key request)
               (AddKeyRequest.api_secret request)
               (AddKeyRequest.testnet request))
  /\ http_built (handle w2 r) = S (http_built w2).
Proof.
  intros Hok E Hpk Hps Hph He Hh w2.
  assert (Hd : is_data_route r = true) by (destruct r; try discriminate He; reflexivity).
  destruct (add_api_keys_ready _ _ _ _ _ Hok E)
    as (row & m & c & Hq & Hm & Hk & Hs & Ht & Hc & Hr).
  assert (H2 : _bybit_client w2 = None /\ db w2 = db w1
               /\ _encryption_manager w2 = Some m).
  { unfold w2. rewrite test_api_keys_run, Hpk, Hps. cbn [orb].
    rewrite get_bybit_client_run.
    destruct (bybit_service.must_rebuild w1 (TestKeyRequest.api_key probe)
                (TestKeyRequest.testnet probe)).
    - rewrite Hph. cbn. auto.
    - rewrite Hc. cbn. auto. }
  destruct H2 as (Hc2 & Hdb2 & Hm2).
  split; [exact Hc2|]. split; [exact Hdb2|].
  rewrite (data_route_world r w2 Hd), He, Hdb2, Hq.
  rewrite (route_session_miss env' w2 row m _ _ Hm2 Hk Hs Hc2);
    [|rewrite Ht; exact Hh].
  rewrite Ht. cbn. auto.
Qed.

End Routes.

(** ** The counting routes against the list routes *)

Section Counts.
Context {B : PyBuiltins} {F : FernetLib}.

Lemma format_positions_length (entries : list PyVal) :
  forall formatted out : list Position,
    positions.format_positions entries formatted = Ok out ->
    exists opened,
      positions.open_entries entries = Ok opened
      /\ List.length out = (List.length formatted + List.length opened)%nat.
Proof.
  induction entries as [|pos rest IH]; intros formatted out;
    cbn [positions.format_positions positions.open_entries].
  - intros E. apply Ok_inj in E. subst. exists []. cbn. auto.
  - unfold exc_bind.
    destruct (py_get pos "size" (PInt 0)) as [v|]; [|discriminate].
    destruct (py_float v) as [size|]; [|discriminate].
    destruct (SFltb float_0 size).
    + repeat match goal with
        | |- match ?x with Ok _ => _ | Raise _ => _ end = _ -> _ =>
            destruct x; [|discriminate]
        end.
      intros E. destruct (IH _ _ E) as (opened & -> & Hl).
      eexists. split; [reflexivity|].
      rewrite Hl, length_app. cbn. lia.
    + intros E. destruct (IH _ _ E) as (opened & -> & Hl).
      eexists. split; [reflexivity|]. exact Hl.
Qed.

Lemma format_orders_length (entries : list PyVal) :
  forall formatted out : list Order.t,
    orders.format_orders entries formatted = Ok out ->
    List.length out = (List.length formatted + List.length entries)%nat.
Proof.
  induction entries as [|order rest IH]; intros formatted out;
    cbn [orders.format_orders].
  - intros E. apply Ok_inj in E. subst. cbn. lia.
  - unfold exc_bind.
    repeat match goal with
      | |- match ?x with Ok _ => _ | Raise _ => _ end = _ -> _ =>
          destruct x; [|discriminate]
      end.
    intros E. rewrite (IH _ _ E), length_app. cbn. lia.
Qed.

Lemma py_iter_len (l : PyVal) (entries : list PyVal) :
  py_iter l = Ok entries -> py_len l = Ok (List.length entries).
Proof.
  destruct l; cbn; try discriminate; intros E; apply Ok_inj in E; subst;
    rewrite ?length_map; reflexivity.
Qed.

(** X12. The open-positions count agrees with the positions list: whenever the
    list route answers "success", the counting route, asked in the same
    state, answers the list's total, and both leave the same state. *)
Theorem open_positions_count_agrees (env : Env) (w w' : World)
    (resp : PositionsResponse) :
  positions.get_positions env w = (Ok resp, w') ->
  status resp = "success"%string ->
  positions.get_open_positions_count env w
  = (Ok {| count_status := "success"; count := total resp |}, w')
  /\ total resp = List.length (positions resp).
Proof.
  unfold positions.get_positions, positions.get_open_positions_count.
  m_unfold.
  destruct (query_exchange_first (db w) (lit "bybit")) as [exchange|];
    [|intros E; inversion E; subst; discriminate].
  destruct (crypto.get_encryption_manager env w) as [[m|e] w0];
    [|intros E; inversion E; subst; discriminate].
  destruct (decrypt m (ExchangeAPI.api_key_encrypted exchange)) as [k|e];
    [|intros E; inversion E; subst; discriminate].
  destruct (decrypt m (ExchangeAPI.api_secret_encrypted exchange)) as [s|e];
    [|intros E; inversion E; subst; discriminate].
  destruct (bybit_service.get_bybit_client env k s _ w0) as [[c|e] w1];
    [|intros E; inversion E; subst; discriminate].
  destruct (env_venue env _ _) as [result|e];
    [|intros E; inversion E; subst; discriminate].
  destruct (retCode_ok result) as [[|]|e];
    [|intros E; inversion E; subst; auto
     |intros E; inversion E; subst; discriminate].
  destruct (py_get result "result" (PDict [])) as [data|e];
    [|intros E; inversion E; subst; discriminate].
  destruct (py_get data "list" (PList [])) as [l|e];
    [|intros E; inversion E; subst; discriminate].
  destruct (py_iter l) as [entries|e];
    [|intros E; inversion E; subst; discriminate].
  destruct (positions.format_positions entries []) as [out|e] eqn:Ef;
    [|intros E; inversion E; subst; discriminate].
  destruct (format_positions_length _ _ _ Ef) as (opened & -> & Hl).
  intros E _. inversion E; subst. cbn in *. rewrite Hl. auto.
Qed.

(** X13. The active-orders count agrees with the orders list: whenever
    the list route answers "success", the counting route, asked in the same
    state, answers the list's total, and both leave the same state. *)
Theorem active_orders_count_agrees (env : Env) (w w' : World)
    (resp : OrdersResponse) :
  orders.get_orders env w = (Ok resp, w') ->
  orders_status resp = "success"%string ->
  orders.get_active_orders_count env w
  = (Ok {| count_status := "success"; count := orders_total resp |}, w')
  /\ orders_total resp = List.length (orders_list resp).
Proof.
  unfold orders.get_orders, orders.get_active_orders_count.
  m_unfold.
  destruct (query_exchange_first (db w) (lit "bybit")) as [exchange|];
    [|intros E; inversion E; subst; discriminate].
  destruct (crypto.get_encryption_manager env w) as [[m|e] w0];
    [|intros E; inversion E; subst; discriminate].
  destruct (decrypt m (ExchangeAPI.api_key_encrypted exchange)) as [k|e];
    [|intros E; inversion E; subst; discriminate].
  destruct (decrypt m (ExchangeAPI.api_secret_encrypted exchange)) as [s|e];
    [|intros E; inversion E; subst; discriminate].
  destruct (bybit_service.get_bybit_client env k s _ w0) as [[c|e] w1];
    [|intros E; inversion E; subst; discriminate].
  destruct (env_venue env _ _) as [result|e];
    [|intros E; inversion E; subst; discriminate].
  destruct (retCode_ok result) as [[|]|e];
    [|intros E; inversion E; subst; auto
     |intros E; inversion E; subst; discriminate].
  destruct (py_get result "result" (PDict [])) as [data|e];
    [|intros E; inversion E; subst; discriminate].
  destruct (py_get data "list" (PList [])) as [l|e];
    [|intros E; inversion E; subst; discriminate].
  destruct (py_iter l) as [entries|e] eqn:Ei;
    [|intros E; inversion E; subst; discriminate].
  rewrite (py_iter_len _ _ Ei).
  destruct (orders.format_orders entries []) as [out|e] eqn:Ef;
    [|intros E; inversion E; subst; discriminate].
  intros E _. inversion E; subst. cbn in *.
  rewrite (format_orders_length _ _ _ Ef). auto.
Qed.

End Counts.

(** ** The account route *)

Section Account.
Context {B : PyBuiltins} {F : FernetLib}.

Lemma get_account_info_venue_fails (env : Env) (self : BybitClientWrapper.t) :
  venue_fails (env_venue env (BybitClientWrapper.client self)
                 (HTTP_get_wallet_balance "UNIFIED")) ->
  BybitClientWrapper.get_account_info env self = Ok zero_account.
Proof.
  unfold BybitClientWrapper.get_account_info, venue_fails.
  destruct (env_venue env _ _) as [v|e]; [|reflexivity].
  unfold exc_bind at 1. intros Hf. unfold exc_bind at 1.
  destruct (retCode_ok v) as [[|]|]; [congruence|reflexivity|reflexivity].
Qed.

(** What the wrapper's [get_account_info] returns: floats read from the
    venue's reply, or the record of four integer zeros. *)
Lemma get_account_info_shape (env : Env) (self : BybitClientWrapper.t) :
  BybitClientWrapper.get_account_info env self = Ok zero_account
  \/ exists f1 f2 f3 f4,
       BybitClientWrapper.get_account_info env self
       = Ok {| total_wallet_balance := PFloat f1; total_equity := PFloat f2;
               available_balance := PFloat f3;
               total_unrealised_loss := PFloat f4 |}.
Proof.
  unfold BybitClientWrapper.get_account_info, exc_try, exc_bind.
  repeat match goal with
    | |- context [match ?x with _ => _ end] =>
        lazymatch x with
        | context [match _ with _ => _ end] => fail
        | _ => destruct x
        end
    end; eauto 10.
Qed.

(** X14. The account route reports a venue failure as an empty account: once
    the session is obtained the answer is "success" whatever the venue
    does, and when the wallet call fails all four figures are [0.0]. *)
Theorem account_route_masks_venue_failure (env : Env) (w w1 : World)
    (exchange : ExchangeAPI.t) (c : BybitClientWrapper.t) :
  query_exchange_first (db w) (lit "bybit") = Some exchange ->
  route_session env exchange w = (Ok c, w1) ->
  (exists resp,
      app.get_account_info env w = (Ok resp, w1)
      /\ AccountResponse.status resp = "success"%string
      /\ AccountResponse.account_type resp = app.account_type_of exchange)
  /\ (venue_fails (env_venue env (BybitClientWrapper.client c)
                     (HTTP_get_wallet_balance "UNIFIED")) ->
      app.get_account_info env w =
      (Ok {| AccountResponse.status := "success";
             AccountResponse.cause := None;
             AccountResponse.balance := PFloat float_0;
             AccountResponse.equity := PFloat float_0;
             AccountResponse.available_balance := PFloat float_0;
             AccountResponse.unrealized_pnl := PFloat float_0;
             AccountResponse.account_type :=
               app.account_type_of exchange |}, w1)).
Proof.
  intros Hq Hs. unfold app.get_account_info. revert Hs.
  unfold route_session. m_unfold. rewrite Hq.
  destruct (crypto.get_encryption_manager env w) as [[m|e] w0];
    [|discriminate].
  destruct (decrypt m (ExchangeAPI.api_key_encrypted exchange)) as [k|e];
    [|discriminate].
  destruct (decrypt m (ExchangeAPI.api_secret_encrypted exchange)) as [s|e];
    [|discriminate].
  destruct (bybit_service.get_bybit_client env k s _ w0) as [[c'|e] w1'];
    [|discriminate].
  intros E. inversion E; subst. split.
  - destruct (get_account_info_shape env c) as [->|(f1 & f2 & f3 & f4 & ->)];
      cbn; eauto.
  - intros Hf. rewrite (get_account_info_venue_fails env c Hf). reflexivity.
Qed.

End Account.

(** ** After the credentials were removed *)

Section Removed.
Context {B : PyBuiltins} {F : FernetLib} {O : ORM}.

Lemma other_venues_first (name : str) (rows : list ExchangeAPI.t)
    (evs : list Event.t) :
  query_exchange_first
    {| exchange_api := other_venues name rows; events := evs |} name = None.
Proof.
  unfold query_exchange_first, other_venues. cbn [exchange_api].
  induction rows as [|r rows IH]; cbn; [reflexivity|].
  destruct (str_eqb (ExchangeAPI.exchange r) name) eqn:Er; cbn;
    [exact IH|]. rewrite Er. exact IH.
Qed.

(** X15. With the credentials removed, nothing talks to the venue: the list
    routes answer "error" with nothing listed, the counting routes answer
    "success" with zero, the account route answers with type "NONE", the
    module-level balance and positions are the all-zero record and the
    empty list, and a second remove is a 404.  None of them changes the
    process. *)
Theorem removed_credentials_answers (request : RemoveKeyRequest.t)
    (w w' : World) (resp : RemoveKeyResponse) (env : Env) :
  db_ok (db w) ->
  lower (RemoveKeyRequest.exchange request) = lit "bybit" ->
  api_keys.remove_api_keys request w = (Ok resp, w') ->
  positions.get_positions env w'
  = (Ok {| status := "error"; cause := None; positions := [];
           total := 0%nat |}, w')
  /\ orders.get_orders env w'
     = (Ok {| orders_status := "error"; orders_cause := None;
              orders_list := []; orders_total := 0%nat |}, w')
  /\ positions.get_open_positions_count env w'
     = (Ok {| count_status := "success"; count := 0%nat |}, w')
  /\ orders.get_active_orders_count env w'
     = (Ok {| count_status := "success"; count := 0%nat |}, w')
  /\ app.get_account_info env w' = (Ok (app.account_error None "NONE"), w')
  /\ bybit_service.get_account_balance env w' = (Ok zero_account, w')
  /\ bybit_service.get_positions env w' = (Ok (PList []), w')
  /\ api_keys.remove_api_keys request w'
     = (Raise (HTTPException 404
                 "API ключи для {request.exchange} не найдены" None), w').
Proof.
  intros Hok Hl E.
  assert (Hok' : db_ok (db w')).
  { pose proof (remove_api_keys_db_ok request w Hok) as H.
    rewrite E in H. exact H. }
  assert (Hw : query_exchange_first (db w') (lit "bybit") = None
               /\ _bybit_client w' = None).
  { rewrite (remove_api_keys_run request w Hok), Hl in E.
    destruct (query_exchange_first (db w) (lit "bybit")); [|discriminate E].
    inversion E; subst. cbn [db _bybit_client].
    split; [apply other_venues_first|reflexivity]. }
  destruct Hw as [Hq Hc].
  repeat split.
  - unfold positions.get_positions. m_unfold. rewrite Hq. reflexivity.
  - unfold orders.get_orders. m_unfold. rewrite Hq. reflexivity.
  - unfold positions.get_open_positions_count. m_unfold. rewrite Hq.
    reflexivity.
  - unfold orders.get_active_orders_count. m_unfold. rewrite Hq.
    reflexivity.
  - unfold app.get_account_info. m_unfold. rewrite Hq. reflexivity.
  - unfold bybit_service.get_account_balance. m_unfold. rewrite Hc.
    reflexivity.
  - unfold bybit_service.get_positions. m_unfold. rewrite Hc. reflexivity.
  - rewrite (remove_api_keys_run request w' Hok'), Hl, Hq. reflexivity.
Qed.

End Removed.

(** ** A new process over the same store *)

Section Restart.
Context {B : PyBuiltins} {F : FernetLib} {O : ORM}.
Context {C : FernetRoundTrip F}.

Lemma decrypt_other_manager {A : FernetAuthentic F}
    (m1 m2 : EncryptionManager) (rnd : Entropy) (s t : str) :
  cipher m2 <> cipher m1 ->
  encrypt m1 rnd s = Ok t ->
  decrypt m2 t = Raise InvalidToken.
Proof.
  intros Hne Ee.
  destruct (encrypt_Ok_inv _ _ _ _ Ee) as (b & _ & _ & Ht).
  apply (decrypt_library_raises m2 t _ InvalidToken Ht).
  apply Fernet_other_key. auto.
Qed.

(** The stored row of an accepted add, as the next process finds it. *)
Lemma add_api_keys_row (request : AddKeyRequest.t) (env : Env)
    (w w1 : World) (resp : AddKeyResponse) :
  db_ok (db w) ->
  api_keys.add_api_keys request env w = (Ok resp, w1) ->
  exists row m,
    query_exchange_first (db (restart w1)) (lit "bybit") = Some row
    /\ _encryption_manager w1 = Some m
    /\ encrypt m (env_rnd1 env) (AddKeyRequest.api_key request)
       = Ok (ExchangeAPI.api_key_encrypted row)
    /\ decrypt m (ExchangeAPI.api_key_encrypted row)
       = Ok (AddKeyRequest.api_key request)
    /\ decrypt m (ExchangeAPI.api_secret_encrypted row)
       = Ok (AddKeyRequest.api_secret request)
    /\ ExchangeAPI.testnet row = AddKeyRequest.testnet request.
Proof.
  intros Hok E.
  destruct (add_api_keys_stores _ _ _ _ _ Hok E)
    as (row & m & _ & Hq & _ & _ & _ & Hm & Hek & _ & Hk & Hs & Ht & _).
  exists row, m. repeat split; auto.
  exact (find_filter_head _ _ _ _ Hq).
Qed.

(** X16. Credentials stored under one cipher key are unreadable to a process
    that starts with another (as one without [ENCRYPTION_KEY] does, which
    generates its key): the list and account routes answer "error" with
    the library's [InvalidToken], and the counting routes answer "success"
    with zero. *)
Theorem restart_with_other_key_loses_credentials {A : FernetAuthentic F}
    (request : AddKeyRequest.t) (env : Env) (w w1 : World)
    (resp : AddKeyResponse) (m1 m2 : EncryptionManager) (env2 : Env)
    (w2 : World) :
  db_ok (db w) ->
  api_keys.add_api_keys request env w = (Ok resp, w1) ->
  _encryption_manager w1 = Some m1 ->
  crypto.get_encryption_manager env2 (restart w1) = (Ok m2, w2) ->
  cipher m2 <> cipher m1 ->
  positions.get_positions env2 (restart w1)
  = (Ok {| status := "error"; cause := Some InvalidToken; positions := [];
           total := 0%nat |}, w2)
  /\ orders.get_orders env2 (restart w1)
     = (Ok {| orders_status := "error"; orders_cause := Some InvalidToken;
              orders_list := []; orders_total := 0%nat |}, w2)
  /\ positions.get_open_positions_count env2 (restart w1)
     = (Ok {| count_status := "success"; count := 0%nat |}, w2)
  /\ orders.get_active_orders_count env2 (restart w1)
     = (Ok {| count_status := "success"; count := 0%nat |}, w2)
  /\ app.get_account_info env2 (restart w1)
     = (Ok (app.account_error (Some InvalidToken)
              (if AddKeyRequest.testnet request then "TESTNET" else "LIVE")),
        w2).
Proof.
  intros Hok E Hm1 Hg Hne.
  destruct (add_api_keys_row _ _ _ _ _ Hok E)
    as (row & m & Hq & Hm & Hek & _ & _ & Ht).
  assert (m = m1) by congruence. subst m.
  pose proof (decrypt_other_manager m1 m2 _ _ _ Hne Hek) as Hd.
  repeat split.
  - unfold positions.get_positions. m_unfold. rewrite Hq, Hg, Hd.
    reflexivity.
  - unfold orders.get_orders. m_unfold. rewrite Hq, Hg, Hd. reflexivity.
  - unfold positions.get_open_positions_count. m_unfold.
    rewrite Hq, Hg, Hd. reflexivity.
  - unfold orders.get_active_orders_count. m_unfold.
    rewrite Hq, Hg, Hd. reflexivity.
  - unfold app.get_account_info. m_unfold. rewrite Hq, Hg, Hd.
    unfold app.account_type_of. rewrite Ht. reflexivity.
Qed.

(** X17. Credentials survive a restart under the same cipher key: the first
    data route of the new process that talks to the venue builds its one
    client from the key, the secret and the mode that were added. *)
Theorem restart_with_same_key_recovers_session
    (request : AddKeyRequest.t) (env : Env) (w w1 : World)
    (resp : AddKeyResponse) (m1 : EncryptionManager) (env2 : Env)
    (w2 : World) (r : Request) :
  db_ok (db w) ->
  api_keys.add_api_keys request env w = (Ok resp, w1) ->
  _encryption_manager w1 = Some m1 ->
  crypto.get_encryption_manager env2 (restart w1) = (Ok m1, w2) ->
  route_env r = Some env2 ->
  env_HTTP env2 (AddKeyRequest.testnet request)
    (AddKeyRequest.api_key request) (AddKeyRequest.api_secret request)
  = None ->
  _bybit_client (handle (restart w1) r)
  = Some (built_client 0 (AddKeyRequest.api_key request)
            (AddKeyRequest.api_secret request)
            (AddKeyRequest.testnet request))
  /\ http_built (handle (restart w1) r) = 1%nat
  /\ db (handle (restart w1) r) = db w1.
Proof.
  intros Hok E Hm1 Hg He Hh.
  assert (Hd : is_data_route r = true)
    by (destruct r; try discriminate He; reflexivity).
  destruct (add_api_keys_row _ _ _ _ _ Hok E)
    as (row & m & Hq & Hm & _ & Hk & Hs & Ht).
  assert (m = m1) by congruence. subst m.
  destruct (get_encryption_manager_frame _ _ _ _ Hg)
    as (Hdb & Hc & _ & Hb & Hm2).
  rewrite (data_route_world r _ Hd), He, Hq.
  unfold route_session. m_unfold. rewrite Hg, Hk, Hs.
  rewrite get_bybit_client_run. unfold bybit_service.must_rebuild.
  rewrite Hc. cbn [restart _bybit_client]. rewrite Ht, Hh, Hb, Hdb.
  cbn. auto.
Qed.

End Restart.

(** ** The WebSocket endpoint and the connection manager *)

Lemma list_remove_present (x : nat) (l : list nat) :
  In x l -> NoDup l ->
  exists l', ConnectionManager.list_remove x l = Ok l'
             /\ NoDup l'
             /\ forall y, In y l' <-> In y l /\ y <> x.
Proof.
  induction l as [|a l IH]; intros Hin Hnd; [destruct Hin|].
  inversion Hnd as [|? ? Ha Hl]; subst.
  cbn [ConnectionManager.list_remove].
  destruct (Nat.eqb_spec a x) as [->|Hne].
  - exists l. split; [reflexivity|]. split; [exact Hl|].
    intros y. split.
    + intros Hy. split; [right; exact Hy|]. intros ->. exact (Ha Hy).
    + intros [[->|Hy] Hyx]; [congruence|exact Hy].
  - destruct Hin as [->|Hin]; [congruence|].
    destruct (IH Hin Hl) as (l' & -> & Hnd' & Hiff).
    exists (a :: l'). split; [reflexivity|]. split.
    + constructor; [|exact Hnd']. intros Hin'. apply Hiff in Hin'.
      exact (Ha (proj1 Hin')).
    + intros y. cbn [In]. rewrite Hiff. split.
      * intros [->|[Hy Hyx]]; [split; [auto|congruence]|auto].
      * intros [[->|Hy] Hyx]; auto.
Qed.

Lemma set_stage_at (s : Server) (x : nat) (st : Stage)
    (m : ConnectionManager.t) :
  stage (set_stage s x st m) x = Some st.
Proof. cbn. rewrite Nat.eqb_refl. reflexivity. Qed.

Lemma manager_set_stage (s : Server) (x : nat) (st : Stage)
    (m : ConnectionManager.t) :
  manager (set_stage s x st m) = m.
Proof. reflexivity. Qed.

Lemma set_stage_other (s : Server) (x y : nat) (st : Stage)
    (m : ConnectionManager.t) :
  y <> x -> stage (set_stage s x st m) y = stage s y.
Proof.
  intros Hne. cbn. destruct (Nat.eqb_spec y x); [congruence|reflexivity].
Qed.

(** A stage change of one socket that keeps the list, between two stages
    of the same side of [connected]. *)
Lemma server_ok_restage (s : Server) (x : nat) (st : Stage) :
  server_ok s ->
  (forall e, st <> Crashed e) ->
  (connected s x <-> st = Receiving \/ st = Sending) ->
  server_ok (set_stage s x st (manager s)).
Proof.
  intros (Hnd & Hin & Hcr) Hst Hside. split; [exact Hnd|]. split.
  - intros y. rewrite manager_set_stage, Hin. unfold connected.
    destruct (Nat.eq_dec y x) as [->|Hne].
    + rewrite set_stage_at. fold (connected s x). rewrite Hside.
      split; intros [H|H]; [left|right|left|right]; congruence.
    + rewrite (set_stage_other s x y st _ Hne). reflexivity.
  - intros y e. destruct (Nat.eq_dec y x) as [->|Hne].
    + rewrite set_stage_at. intros H. apply (Hst e). congruence.
    + rewrite (set_stage_other s x y st _ Hne). apply Hcr.
Qed.

(** The [except] clauses on a connected socket: [disconnect] finds it. *)
Lemma server_ok_except (s : Server) (x : nat) :
  server_ok s -> connected s x -> server_ok (endpoint_except s x).
Proof.
  intros (Hnd & Hin & Hcr) Hx. unfold endpoint_except,
    ConnectionManager.disconnect.
  destruct (list_remove_present x _ (proj2 (Hin x) Hx) Hnd)
    as (l' & -> & Hnd' & Hiff).
  unfold exc_map, exc_bind. cbv beta iota. split; [exact Hnd'|]. split.
  - intros y. rewrite manager_set_stage.
    cbn [ConnectionManager.active_connections]. rewrite Hiff, Hin. unfold connected.
    destruct (Nat.eq_dec y x) as [->|Hne].
    + rewrite set_stage_at. split.
      * intros [_ H]. congruence.
      * intros [H|H]; discriminate H.
    + rewrite (set_stage_other s x y _ _ Hne). split; [intros [H _]; exact H|].
      auto.
  - intros y e. destruct (Nat.eq_dec y x) as [->|Hne].
    + rewrite set_stage_at. discriminate.
    + rewrite (set_stage_other s x y _ _ Hne). apply Hcr.
Qed.

Lemma server_ok_step (s : Server) (r : Resumption) :
  server_ok s -> server_ok (websocket_endpoint s r).
Proof.
  intros Hok. pose proof Hok as (Hnd & Hin & Hcr).
  destruct r as [x|x result]; cbn [websocket_endpoint].
  - destruct (stage s x) as [st|] eqn:Hx; [exact Hok|].
    apply server_ok_restage; [exact Hok|discriminate|].
    unfold connected. rewrite Hx.
    split; intros [H|H]; discriminate H.
  - destruct (stage s x) as [[| | |e| |e]|] eqn:Hx; try exact Hok.
    + (* the await of accept *)
      destruct result as [v|e].
      * assert (Hout : ~ In x (ConnectionManager.active_connections
                                 (manager s))).
        { rewrite Hin. unfold connected. rewrite Hx.
          intros [H|H]; discriminate H. }
        split; [|split].
        -- cbn. apply NoDup_snoc; assumption.
        -- intros y. rewrite manager_set_stage.
           cbn [ConnectionManager.connect_accepted
                  ConnectionManager.active_connections].
           rewrite in_app_iff, Hin. unfold connected. cbn [In].
           destruct (Nat.eq_dec y x) as [->|Hne].
           ++ rewrite set_stage_at. split; auto.
           ++ rewrite (set_stage_other s x y _ _ Hne). split.
              ** intros [H|[H|[]]]; [exact H|congruence].
              ** auto.
        -- intros y e. destruct (Nat.eq_dec y x) as [->|Hne].
           ++ rewrite set_stage_at. discriminate.
           ++ rewrite (set_stage_other s x y _ _ Hne). apply Hcr.
      * apply server_ok_restage; [exact Hok|discriminate|].
        unfold connected. rewrite Hx.
        split; intros [H|H]; discriminate H.
    + (* the await of receive_text *)
      destruct result as [v|e].
      * destruct v; try exact Hok.
        destruct (str_eqb s0 (lit "ping")); [|exact Hok].
        apply server_ok_restage; [exact Hok|discriminate|].
        unfold connected. rewrite Hx. split; auto.
      * apply server_ok_except; [exact Hok|]. unfold connected. auto.
    + (* the await of send_json *)
      destruct result as [v|e].
      * apply server_ok_restage; [exact Hok|discriminate|].
        unfold connected. rewrite Hx. split; auto.
      * apply server_ok_except; [exact Hok|]. unfold connected. auto.
Qed.

(** X18. The manager tracks the open sockets.  Whatever the event loop
    resumes, in whatever order: [active_connections] holds each socket
    whose endpoint is between its [accept] and its end, once, and no
    other; and [disconnect] has never raised. *)
Theorem websocket_manager_tracks_open_sockets (rs : list Resumption) :
  let s := server_run rs Server_start in
  NoDup (ConnectionManager.active_connections (manager s))
  /\ (forall x,
        In x (ConnectionManager.active_connections (manager s))
        <-> stage s x = Some Receiving \/ stage s x = Some Sending)
  /\ (forall x e, stage s x <> Some (Crashed e)).
Proof.
  cbv zeta. change (server_ok (server_run rs Server_start)).
  assert (H0 : server_ok Server_start).
  { split; [constructor|]. split; [|discriminate].
    intros x. unfold connected. cbn. split; [intros []|].
    intros [H|H]; discriminate H. }
  revert H0. generalize Server_start. unfold server_run.
  induction rs as [|r rs IH]; intros s Hs; [exact Hs|].
  cbn [fold_left]. apply IH, server_ok_step, Hs.
Qed.

(** ** The properties on the sample process *)

Lemma sample_Fernet_init_raises :
  Fernet_init_raises_no_HTTPException sample_Fernet.
Proof.
  intros kb e. cbn [Fernet_init sample_Fernet].
  intros H.
  assert (He : e = ValueError \/ False).
  { repeat match type of H with
      | context [match ?x with _ => _ end] => destruct x
      end;
      first [discriminate H|left; injection H; auto]. }
  destruct He as [->|[]]. reflexivity.
Qed.

Lemma sample_add_accepted :
  @api_keys.add_api_keys sample_builtins sample_Fernet sample_ORM
    sample_add sample_env World_start
  = (Ok {| add_status := "success"; add_exchange := lit "Bybit";
           add_testnet := false; add_exchange_id := Some 1 |}, World_added).
Proof. vm_compute. reflexivity. Qed.

Lemma queries_keep_store_witness :
  db (@serve sample_builtins sample_Fernet sample_ORM
        [Req_positions sample_env; Req_test sample_test sample_env;
         Req_account failing_env] World_added)
  = db World_added.
Proof.
  exact (@queries_keep_store sample_builtins sample_Fernet sample_ORM
           [Req_positions sample_env; Req_test sample_test sample_env;
            Req_account failing_env] World_added eq_refl).
Defined.

Lemma encryption_manager_is_kept_witness :
  _encryption_manager World_added = Some sample_manager
  /\ _encryption_manager
       (@serve sample_builtins sample_Fernet sample_ORM
          [Req_remove sample_remove; Req_add sample_add_again keyless_env]
          World_added)
     = Some sample_manager.
Proof.
  assert (H : _encryption_manager World_added = Some sample_manager)
    by (vm_compute; reflexivity).
  split; [exact H|].
  exact (proj1 (@encryption_manager_is_kept sample_builtins sample_Fernet
                  sample_ORM
                  [Req_remove sample_remove;
                   Req_add sample_add_again keyless_env]
                  World_added sample_manager H)).
Defined.

Lemma add_api_keys_status_codes_witness :
  exists code detail cause,
    fst (@api_keys.add_api_keys sample_builtins sample_Fernet sample_ORM
           sample_add_again rejecting_env World_added)
    = Raise (HTTPException code detail cause)
    /\ (code = 400 \/ code = 401 \/ code = 500).
Proof.
  pose proof (@add_api_keys_status_codes sample_builtins sample_Fernet
                sample_ORM sample_add_again rejecting_env World_added _ _
                sample_Fernet_init_raises (surjective_pairing _)) as H.
  destruct (fst (@api_keys.add_api_keys sample_builtins sample_Fernet
                   sample_ORM sample_add_again rejecting_env World_added))
    as [resp|e] eqn:E.
  - vm_compute in E. discriminate E.
  - destruct H as (_ & code & detail & cause & -> & Hcode & _).
    exists code, detail, cause. split; [reflexivity|exact Hcode].
Defined.

Lemma add_api_keys_unauthorized_witness :
  _bybit_client World_added <> None
  /\ _bybit_client
       (snd (@api_keys.add_api_keys sample_builtins sample_Fernet sample_ORM
               sample_add_again rejecting_env World_added))
     = None.
Proof.
  split; [vm_compute; discriminate|].
  assert (E : @api_keys.add_api_keys sample_builtins sample_Fernet sample_ORM
                sample_add_again rejecting_env World_added
              = (Raise (HTTPException 401 "Ошибка подключения: {str(e)}"
                          (Some keys_invalid_401)),
                 snd (@api_keys.add_api_keys sample_builtins sample_Fernet
                        sample_ORM sample_add_again rejecting_env
                        World_added)))
    by (vm_compute; reflexivity).
  destruct (@add_api_keys_unauthorized sample_builtins sample_Fernet
              sample_ORM sample_add_again rejecting_env World_added _ _ _
              sample_Fernet_init_raises E)
    as (e & _ & _ & [[_ Hc]|[Hh _]]).
  - exact Hc.
  - vm_compute in Hh. discriminate Hh.
Defined.

Lemma World_bound_db_ok : db_ok (db World_bound).
Proof. repeat split; constructor. Qed.

Lemma sample_add_wrong_secret_accepted :
  exists resp w',
    @api_keys.add_api_keys sample_builtins sample_Fernet inserts_first_ORM
      sample_add_wrong_secret secret_checking_env World_bound
    = (Ok resp, w')
    /\ _encryption_manager w' = Some sample_manager.
Proof. do 2 eexists. split; vm_compute; reflexivity. Qed.

Lemma add_api_keys_trusts_cached_session_witness :
  (exists detail cause,
      fst (@api_keys.add_api_keys sample_builtins sample_Fernet
             inserts_first_ORM sample_add_wrong_secret secret_checking_env
             World_start)
      = Raise (HTTPException 401 detail cause))
  /\ _bybit_client
       (snd (@api_keys.add_api_keys sample_builtins sample_Fernet
               inserts_first_ORM sample_add_wrong_secret secret_checking_env
               World_bound))
     = Some (built_client 0 (lit "k1") (lit "s1") false)
  /\ exists row,
       query_exchange_all
         (db (snd (@api_keys.add_api_keys sample_builtins sample_Fernet
                     inserts_first_ORM sample_add_wrong_secret
                     secret_checking_env World_bound))) (lit "bybit") = [row]
       /\ decrypt sample_manager (ExchangeAPI.api_secret_encrypted row)
          = Ok (lit "wrong").
Proof.
  split; [do 2 eexists; vm_compute; reflexivity|].
  destruct sample_add_wrong_secret_accepted as (resp & w' & E & Hm').
  destruct (@add_api_keys_trusts_cached_session sample_builtins sample_Fernet
              inserts_first_ORM sample_Fernet_round_trip
              sample_add_wrong_secret secret_checking_env World_bound w' resp
              (built_client 0 (lit "k1") (lit "s1") false)
              World_bound_db_ok)
    as (_ & Hc & _ & row & m & Hq & Hm & Hd).
  - vm_compute. reflexivity.
  - reflexivity.
  - vm_compute. reflexivity.
  - exact E.
  - rewrite E. cbn [snd]. split; [exact Hc|]. exists row.
    split; [exact Hq|].
    assert (m = sample_manager) by congruence. subst m. exact Hd.
Defined.

Lemma add_api_keys_replace_needs_delete_first_witness :
  db (snd (@api_keys.add_api_keys sample_builtins sample_Fernet
             inserts_first_ORM sample_add_again sample_env World_added))
  = db World_added.
Proof.
  refine (proj2 (@add_api_keys_replace_needs_delete_first sample_builtins
                   sample_Fernet inserts_first_ORM sample_add_again
                   sample_env World_added _ _
                   (ExchangeAPI.with_id
                      (api_keys.new_exchange_api_row (lit "bybit")
                         (lit "0GLDB") (lit "0HDDB") false 1764000000) 1)
                   eq_refl _ (surjective_pairing _))).
  vm_compute. reflexivity.
Defined.

Lemma data_routes_reuse_added_session_witness :
  @serve sample_builtins sample_Fernet sample_ORM
    [Req_positions closed_entry_env; Req_account failing_env;
     Req_orders mixed_env; Req_open_positions rejecting_env;
     Req_keys_status] World_added
  = World_added.
Proof.
  exact (@data_routes_reuse_added_session sample_builtins sample_Fernet
           sample_ORM sample_Fernet_round_trip sample_add sample_env
           World_start World_added _
           [Req_positions closed_entry_env; Req_account failing_env;
            Req_orders mixed_env; Req_open_positions rejecting_env;
            Req_keys_status]
           World_start_db_ok sample_add_accepted eq_refl).
Defined.

Lemma test_api_keys_evicts_added_session_witness :
  _bybit_client
    (@handle sample_builtins sample_Fernet sample_ORM
       (snd (@api_keys.test_api_keys sample_Fernet sample_test sample_env
               World_added))
       (Req_positions mixed_env))
  = Some (built_client 2 (lit "k1") (lit "s1") false).
Proof.
  destruct (@test_api_keys_evicts_added_session sample_builtins sample_Fernet
              sample_ORM sample_Fernet_round_trip sample_add sample_env
              World_start World_added _ sample_test sample_env
              (Req_positions mixed_env) mixed_env World_start_db_ok
              sample_add_accepted eq_refl eq_refl eq_refl eq_refl eq_refl)
    as (_ & _ & Hc & _).
  exact Hc.
Defined.

Lemma mixed_env_positions_listed :
  exists resp,
    @positions.get_positions sample_builtins sample_Fernet mixed_env
      World_added = (Ok resp, World_added)
    /\ status resp = "success"%string /\ total resp = 1%nat.
Proof. eexists. split; [vm_compute; reflexivity|split; reflexivity]. Qed.

Lemma open_positions_count_agrees_witness :
  @positions.get_open_positions_count sample_builtins sample_Fernet
    mixed_env World_added
  = (Ok {| count_status := "success"; count := 1%nat |}, World_added).
Proof.
  destruct mixed_env_positions_listed as (resp & E & Hs & Ht).
  destruct (@open_positions_count_agrees sample_builtins sample_Fernet
              mixed_env World_added World_added resp E Hs) as [Hc _].
  rewrite Hc, Ht. reflexivity.
Defined.

Lemma mixed_env_orders_listed :
  exists resp,
    @orders.get_orders sample_builtins sample_Fernet mixed_env World_added
    = (Ok resp, World_added)
    /\ orders_status resp = "success"%string /\ orders_total resp = 1%nat.
Proof. eexists. split; [vm_compute; reflexivity|split; reflexivity]. Qed.

Lemma active_orders_count_agrees_witness :
  @orders.get_active_orders_count sample_Fernet mixed_env World_added
  = (Ok {| count_status := "success"; count := 1%nat |}, World_added).
Proof.
  destruct mixed_env_orders_listed as (resp & E & Hs & Ht).
  destruct (@active_orders_count_agrees sample_builtins sample_Fernet
              mixed_env World_added World_added resp E Hs) as [Hc _].
  rewrite Hc, Ht. reflexivity.
Defined.

Lemma account_route_masks_venue_failure_witness :
  @app.get_account_info sample_builtins sample_Fernet failing_env World_added
  = (Ok {| AccountResponse.status := "success";
           AccountResponse.cause := None;
           AccountResponse.balance := PFloat float_0;
           AccountResponse.equity := PFloat float_0;
           AccountResponse.available_balance := PFloat float_0;
           AccountResponse.unrealized_pnl := PFloat float_0;
           AccountResponse.account_type := "LIVE" |}, World_added).
Proof.
  refine (proj2 (@account_route_masks_venue_failure sample_builtins
                   sample_Fernet failing_env World_added World_added
                   (ExchangeAPI.with_id
                      (api_keys.new_exchange_api_row (lit "bybit")
                         (lit "0GLDB") (lit "0HDDB") false 1764000000) 1)
                   (built_client 0 (lit "k1") (lit "s1") false) _ _) I).
  - vm_compute. reflexivity.
  - vm_compute. reflexivity.
Defined.

Lemma removed_credentials_answers_witness :
  @positions.get_positions sample_builtins sample_Fernet sample_env
    (snd (@api_keys.remove_api_keys sample_builtins sample_Fernet sample_ORM
            sample_remove World_added))
  = (Ok {| status := "error"; cause := None; positions := [];
           total := 0%nat |},
     snd (@api_keys.remove_api_keys sample_builtins sample_Fernet sample_ORM
            sample_remove World_added)).
Proof.
  refine (proj1 (@removed_credentials_answers sample_builtins sample_Fernet
                   sample_ORM sample_remove World_added _
                   {| remove_status := "success" |} sample_env
                   World_added_db_ok eq_refl _)).
  vm_compute. reflexivity.
Defined.

Lemma restart_with_other_key_loses_credentials_witness :
  fst (@positions.get_positions sample_builtins sample_Fernet keyless_env
         (restart World_added))
  = Ok {| status := "error"; cause := Some InvalidToken; positions := [];
          total := 0%nat |}.
Proof.
  assert (H : cipher other_manager <> cipher sample_manager)
    by (cbn; discriminate).
  rewrite (proj1 (@restart_with_other_key_loses_credentials sample_builtins
                    sample_Fernet sample_ORM sample_Fernet_round_trip
                    sample_Fernet_authentic sample_add sample_env World_start
                    World_added _ sample_manager other_manager keyless_env
                    (snd (crypto.get_encryption_manager keyless_env
                            (restart World_added)))
                    World_start_db_ok sample_add_accepted
                    ltac:(vm_compute; reflexivity)
                    ltac:(vm_compute; reflexivity) H)).
  reflexivity.
Defined.

Lemma restart_with_same_key_recovers_session_witness :
  _bybit_client
    (@handle sample_builtins sample_Fernet sample_ORM (restart World_added)
       (Req_account sample_env))
  = Some (built_client 0 (lit "k1") (lit "s1") false).
Proof.
  refine (proj1 (@restart_with_same_key_recovers_session sample_builtins
                   sample_Fernet sample_ORM sample_Fernet_round_trip
                   sample_add sample_env World_start World_added _
                   sample_manager sample_env
                   (snd (crypto.get_encryption_manager sample_env
                           (restart World_added)))
                   (Req_account sample_env)
                   World_start_db_ok sample_add_accepted _ _ eq_refl
                   eq_refl)).
  - vm_compute. reflexivity.
  - vm_compute. reflexivity.
Defined.

Lemma test_api_keys_trusts_cached_session_witness :
  fst (@api_keys.test_api_keys sample_Fernet sample_test_wrong_secret
         secret_checking_env World_start)
  = Ok {| test_status := "error"; test_cause := None; is_valid := false |}
  /\ exists resp,
       fst (@api_keys.test_api_keys sample_Fernet sample_test_wrong_secret
              secret_checking_env World_added) = Ok resp
       /\ is_valid resp = true.
Proof.
  split; [vm_compute; reflexivity|].
  destruct (@test_api_keys_trusts_cached_session sample_Fernet
              sample_test_wrong_secret secret_checking_env World_added
              (built_client 0 (lit "k1") (lit "s1") false) eq_refl eq_refl)
    as (resp & E & _ & Hv).
  - vm_compute. reflexivity.
  - reflexivity.
  - vm_compute. reflexivity.
  - exists resp. rewrite E. split; [reflexivity|].
    apply Hv. vm_compute. reflexivity.
Defined.

(** ** A second add for the same venue, and rejected credentials *)

Section Upsert.
Context {B : PyBuiltins} {F : FernetLib} {O : ORM}.

(** One flush that inserts before it deletes cannot replace a row: the
    INSERT meets the row that is still there. *)
Lemma db_commit_replace_inserts_first (d : Database) (name : str)
    (old row : ExchangeAPI.t) :
  flush_order = InsertsFirst ->
  query_exchange_first d name = Some old ->
  ExchangeAPI.exchange row = name ->
  db_commit (replace_session d name row) d = Raise IntegrityError.
Proof.
  intros Hfo Hold Hx. unfold db_commit. rewrite Hfo.
  unfold replace_session. rewrite Hold.
  cbn [db_add db_delete Session_begin new deleted app insert_rows].
  unfold exc_bind, insert_row. rewrite Hx.
  assert (Hex : existsb (fun x => str_eqb (ExchangeAPI.exchange x) name)
                  (exchange_api d) = true).
  { apply existsb_exists. exists old.
    destruct (query_exchange_first_In _ _ _ Hold) as [Hin Hn].
    split; [exact Hin|]. rewrite Hn. apply str_eqb_refl. }
  rewrite Hex. reflexivity.
Qed.

(** C3. The second add for a venue does not replace the first.
    [add_api_keys] registers the DELETE of the stored row and the INSERT of
    the new one in one unit of work and commits once; the ORM emits the
    INSERT before the DELETE, and the unique [exchange] column refuses it.
    So after an accepted add every further add raises an [HTTPException]
    and changes nothing in the store: the venue's one record still carries
    the first request's key, secret and network mode. *)
Theorem add_api_keys_second_upsert_fails {C : FernetRoundTrip F}
    (req1 req2 : AddKeyRequest.t) (env1 env2 : Env) (w0 w1 w2 : World)
    (resp1 : AddKeyResponse) (r2 : Exc AddKeyResponse) :
  flush_order = InsertsFirst ->
  db_ok (db w0) ->
  api_keys.add_api_keys req1 env1 w0 = (Ok resp1, w1) ->
  api_keys.add_api_keys req2 env2 w1 = (r2, w2) ->
  (exists code detail cause, r2 = Raise (HTTPException code detail cause))
  /\ db w2 = db w1
  /\ exists (row1 : ExchangeAPI.t) (m : EncryptionManager),
       query_exchange_all (db w2) (lit "bybit") = [row1]
       /\ _encryption_manager w1 = Some m
       /\ decrypt m (ExchangeAPI.api_key_encrypted row1)
          = Ok (AddKeyRequest.api_key req1)
       /\ decrypt m (ExchangeAPI.api_secret_encrypted row1)
          = Ok (AddKeyRequest.api_secret req1)
       /\ ExchangeAPI.testnet row1 = AddKeyRequest.testnet req1.
Proof.
  intros Hfo Hok E1 E2.
  destruct (add_api_keys_stores _ _ _ _ _ Hok E1)
    as (row1 & m & _ & Hq & _ & _ & _ & Hm & _ & _ & Hk & Hs & Ht & _).
  pose proof (find_filter_head _ _ _ _ Hq) as Hfirst.
  fold (query_exchange_first (db w1) (lit "bybit")) in Hfirst.
  assert (Hfail : (exists code detail cause,
                      r2 = Raise (HTTPException code detail cause))
                  /\ db w2 = db w1).
  { destruct (add_api_keys_inv _ _ _ _ _ E2)
      as [(code & detail & cause & Hr & Hdb)
         |(m2 & ek & es & c & stored & _ & _ & _ & _ & _ & _ & _ & Hc & _)].
    - split; [eauto|exact Hdb].
    - rewrite (db_commit_replace_inserts_first _ _ _ _ Hfo Hfirst) in Hc;
        [discriminate Hc|reflexivity]. }
  destruct Hfail as [Hr Hdb]. split; [exact Hr|]. split; [exact Hdb|].
  exists row1, m. rewrite Hdb. repeat split; assumption.
Qed.

(** The session an accepted add has validated: the client built from the
    request's key and secret when the cache missed, the cached one when it
    hit. *)
Lemma add_api_keys_validated (request : AddKeyRequest.t) (env : Env)
    (w w' : World) (resp : AddKeyResponse) :
  api_keys.add_api_keys request env w = (Ok resp, w') ->
  exists c,
    BybitClientWrapper.validate_credentials env c = Ok true
    /\ if bybit_service.must_rebuild w (AddKeyRequest.api_key request)
            (AddKeyRequest.testnet request)
       then c = built_client (http_built w) (AddKeyRequest.api_key request)
                  (AddKeyRequest.api_secret request)
                  (AddKeyRequest.testnet request)
       else _bybit_client w = Some c.
Proof.
  intros E.
  destruct (add_input_refused request) eqn:Hin.
  { destruct (add_api_keys_refused request env w Hin) as (d & E').
    rewrite E' in E. discriminate E. }
  rewrite (add_api_keys_run request env w Hin) in E.
  destruct (crypto.get_encryption_manager env w) as [[m|e] w0] eqn:Em;
    [|exact (reraise_as_500_not_Ok _ _ _ _ _ _ E)].
  destruct (get_encryption_manager_frame _ _ _ _ Em)
    as (_ & Hc0 & Hm0 & Hb0 & _).
  destruct (encrypt m (env_rnd1 env) _) as [ek|e];
    [|exact (reraise_as_500_not_Ok _ _ _ _ _ _ E)].
  destruct (encrypt m (env_rnd2 env) _) as [es|e];
    [|exact (reraise_as_500_not_Ok _ _ _ _ _ _ E)].
  assert (Hr : bybit_service.must_rebuild w0 (AddKeyRequest.api_key request)
                 (AddKeyRequest.testnet request)
               = bybit_service.must_rebuild w (AddKeyRequest.api_key request)
                   (AddKeyRequest.testnet request)).
  { unfold bybit_service.must_rebuild. rewrite Hc0, Hm0. reflexivity. }
  rewrite get_bybit_client_run, Hr, Hb0, Hc0 in E.
  destruct (bybit_service.must_rebuild w _ _).
  - destruct (env_HTTP env _ _ _); [discriminate E|].
    destruct (BybitClientWrapper.validate_credentials env _) as [[|]|e0] eqn:Hv;
      try discriminate E.
    eexists. split; [exact Hv|reflexivity].
  - destruct (_bybit_client w) as [c|]; [|discriminate E].
    destruct (BybitClientWrapper.validate_credentials env c) as [[|]|e0] eqn:Hv;
      try discriminate E.
    exists c. split; [exact Hv|reflexivity].
Qed.

(** C4. When the venue rejects the credentials of an add request, that is
    when [validate_credentials] is false on the session the handler obtains
    for the request (the client it builds from the request's key and
    secret, or on a cache hit the cached one), [add_api_keys] raises an
    [HTTPException] and the committed store is what it was: no row
    deleted, inserted or changed. *)
Theorem add_api_keys_rejected_keeps_store (request : AddKeyRequest.t)
    (env : Env) (w w' : World) (r : Exc AddKeyResponse) :
  (bybit_service.must_rebuild w (AddKeyRequest.api_key request)
     (AddKeyRequest.testnet request) = true ->
   BybitClientWrapper.validate_credentials env
     (built_client (http_built w) (AddKeyRequest.api_key request)
        (AddKeyRequest.api_secret request) (AddKeyRequest.testnet request))
   = Ok false) ->
  (forall c : BybitClientWrapper.t,
      bybit_service.must_rebuild w (AddKeyRequest.api_key request)
        (AddKeyRequest.testnet request) = false ->
      _bybit_client w = Some c ->
      BybitClientWrapper.validate_credentials env c = Ok false) ->
  api_keys.add_api_keys request env w = (r, w') ->
  (exists code detail cause, r = Raise (HTTPException code detail cause))
  /\ db w' = db w.
Proof.
  intros Hbuilt Hcached E.
  destruct (add_api_keys_inv _ _ _ _ _ E)
    as [(code & detail & cause & Hr & Hdb)
       |(m & ek & es & c0 & stored & _ & _ & _ & _ & _ & _ & _ & _ & Hr)].
  { split; [eauto|exact Hdb]. }
  exfalso. subst r.
  destruct (add_api_keys_validated _ _ _ _ _ E) as (c & Hv & Hc).
  destruct (bybit_service.must_rebuild w _ _) eqn:Hm.
  - subst c. rewrite (Hbuilt eq_refl) in Hv. discriminate Hv.
  - rewrite (Hcached c eq_refl Hc) in Hv. discriminate Hv.
Qed.

End Upsert.

Lemma sample_add_accepted_inserts_first :
  @api_keys.add_api_keys sample_builtins sample_Fernet inserts_first_ORM
    sample_add sample_env World_start
  = (Ok {| add_status := "success"; add_exchange := lit "Bybit";
           add_testnet := false; add_exchange_id := Some 1 |}, World_added).
Proof. vm_compute. reflexivity. Qed.

Lemma add_api_keys_second_upsert_fails_witness :
  fst (@api_keys.add_api_keys sample_builtins sample_Fernet inserts_first_ORM
         sample_add_again sample_env World_added)
  = Raise (HTTPException 500 "Ошибка при добавлении ключей: {str(e)}"
             (Some IntegrityError))
  /\ db (snd (@api_keys.add_api_keys sample_builtins sample_Fernet
                inserts_first_ORM sample_add_again sample_env World_added))
     = db World_added
  /\ exists row1,
       query_exchange_all
         (db (snd (@api_keys.add_api_keys sample_builtins sample_Fernet
                     inserts_first_ORM sample_add_again sample_env
                     World_added))) (lit "bybit") = [row1]
       /\ decrypt sample_manager (ExchangeAPI.api_key_encrypted row1)
          = Ok (lit "k1")
       /\ decrypt sample_manager (ExchangeAPI.api_secret_encrypted row1)
          = Ok (lit "s1")
       /\ ExchangeAPI.testnet row1 = false.
Proof.
  split; [vm_compute; reflexivity|].
  destruct (@add_api_keys_second_upsert_fails sample_builtins sample_Fernet
              inserts_first_ORM sample_Fernet_round_trip sample_add
              sample_add_again sample_env sample_env World_start World_added
              _ _ _ eq_refl World_start_db_ok
              sample_add_accepted_inserts_first (surjective_pairing _))
    as (_ & Hdb & row1 & m & Hq & Hm & Hk & Hs & Ht).
  split; [exact Hdb|]. exists row1.
  assert (Em : m = sample_manager)
    by (vm_compute in Hm; injection Hm as <-; reflexivity).
  subst m. repeat split; assumption.
Defined.

Lemma add_api_keys_rejected_keeps_store_witness :
  BybitClientWrapper.validate_credentials secret_checking_env
    (built_client 0 (lit "k1") (lit "wrong") false) = Ok false
  /\ (exists code detail cause,
         fst (@api_keys.add_api_keys sample_builtins sample_Fernet sample_ORM
                sample_add_wrong_secret secret_checking_env
                (restart World_added))
         = Raise (HTTPException code detail cause))
  /\ db (snd (@api_keys.add_api_keys sample_builtins sample_Fernet sample_ORM
                sample_add_wrong_secret secret_checking_env
                (restart World_added)))
     = db World_added.
Proof.
  assert (Hv : BybitClientWrapper.validate_credentials secret_checking_env
                 (built_client 0 (lit "k1") (lit "wrong") false) = Ok false)
    by (vm_compute; reflexivity).
  split; [exact Hv|].
  refine (@add_api_keys_rejected_keeps_store sample_builtins sample_Fernet
            sample_ORM sample_add_wrong_secret secret_checking_env
            (restart World_added) _ _ (fun _ => Hv) _
            (surjective_pairing _)).
  intros c Hm. vm_compute in Hm. discriminate Hm.
Defined.
